(** * Zhele USB device: the endpoint-0 control engine of [DeviceBase]

    A shallow embedding of [Zhele::Usb::DeviceBase] (usb/device.h, the second
    half of src/Zhele/include/common/ioreg.h): [FillDescriptor],
    [CommonHandler], [Reset] and [Handler].

    The class is a template over the register block, the control endpoint
    [_Ep0] and the configurations.  What the template takes from headers that
    are not part of the sources is taken here as a parameter:
      - the bit masks of the device header ([USB_ISTR_RESET], ...) and the
        encodings of the enumerations are the fields of [DeviceHeader];
      - the operations of [_Ep0] are the fields of [Endpoint0].
    Every call that leaves [DeviceBase] and every access to a peripheral
    register is recorded, in program order, in a trace of [Event]s.  *)

From Stdlib Require Import ZArith List Lia Bool.
Import ListNotations.
Local Open Scope Z_scope.

(** ** Enumerations *)

(** [StandartRequestCode]: the enumerators [Handler] names in its switch, and
    every other request code. *)
Module StandartRequestCode.
Inductive t : Type :=
| GetStatus
| SetAddress
| GetDescriptor
| SetConfiguration
| Other (code : Z).
End StandartRequestCode.

(** [GetDescriptorParameter]: what [setup->Value] is cast to. *)
Module GetDescriptorParameter.
Inductive t : Type :=
| DeviceDescriptor
| ConfigurationDescriptor
| HidReportDescriptor
| Other (value : Z).
End GetDescriptorParameter.

Module EndpointStatus.
Inductive t : Type := Disabled | Stall | Nak | Valid.
End EndpointStatus.

Module EndpointDirection.
Inductive t : Type := In | Out.
End EndpointDirection.

(** The registers of [USB_TypeDef] that [DeviceBase] touches. *)
Inductive UsbReg : Type := CNTR | ISTR | BTABLE | DADDR.

Record USB_TypeDef : Type := mkRegs {
  r_CNTR : Z;
  r_ISTR : Z;
  r_BTABLE : Z;
  r_DADDR : Z
}.

Definition reg_get (r : UsbReg) (u : USB_TypeDef) : Z :=
  match r with
  | CNTR => r_CNTR u
  | ISTR => r_ISTR u
  | BTABLE => r_BTABLE u
  | DADDR => r_DADDR u
  end.

Definition reg_set (r : UsbReg) (v : Z) (u : USB_TypeDef) : USB_TypeDef :=
  match r with
  | CNTR => mkRegs v (r_ISTR u) (r_BTABLE u) (r_DADDR u)
  | ISTR => mkRegs (r_CNTR u) v (r_BTABLE u) (r_DADDR u)
  | BTABLE => mkRegs (r_CNTR u) (r_ISTR u) v (r_DADDR u)
  | DADDR => mkRegs (r_CNTR u) (r_ISTR u) (r_BTABLE u) v
  end.

(** ** What the missing headers provide *)

(** The device header and the enumeration declarations.  The masks are the
    [USB_*] macros of the source; [RequestCode_of] and [DescriptorParameter_of]
    give the enumerator a stored value stands for ([setup->Request] is read
    from a byte, [setup->Value] is cast from 16 bits); [DescriptorType_Device]
    and the width of every enumeration stored in [DeviceDescriptor] is one
    byte, which is what makes the packed record 18 bytes long. *)
Class DeviceHeader : Type := {
  USB_CNTR_CTRM : Z;
  USB_CNTR_RESETM : Z;
  USB_ISTR_RESET : Z;
  USB_ISTR_CTR : Z;
  USB_ISTR_EP_ID : Z;
  USB_ISTR_DIR : Z;
  USB_DADDR_EF : Z;
  USB_DADDR_ADD : Z;
  USB_EP_CTR_RX : Z;
  USB_EP_SETUP : Z;
  USB_EP_CTR_TX : Z;
  DescriptorType_Device : Z;
  RequestCode_of : Z -> StandartRequestCode.t;
  DescriptorParameter_of : Z -> GetDescriptorParameter.t
}.

(** The control endpoint [_Ep0], over its own state [E]: the endpoint
    register, the receive buffer ([RxBuffer e i] is its byte at offset [i])
    and the writer. *)
Class Endpoint0 (E : Type) : Type := {
  MaxPacketSize : Z;
  Reg_Get : E -> Z;
  RxBuffer : E -> nat -> Z;
  ClearCtrRx : E -> E;
  ClearCtrTx : E -> E;
  SetTxStatus : EndpointStatus.t -> E -> E;
  SetRxStatus : EndpointStatus.t -> E -> E;
  Writer_SendData : list Z -> E -> E;
  Ep0_Reset : E -> E
}.

(** A configuration [_Configurations]: the bytes its [FillDescriptor] composes
    (the returned size is their number), its [HidReport::Data], and the
    numbers of its [Endpoints], which [DeviceBase] appends to the endpoints
    it registers handlers for. *)
Record Configuration : Type := mkConfiguration {
  cfg_FillDescriptor : list Z;
  HidReport_Data : list Z;
  Endpoints : list Z
}.

(** The value template parameters of [DeviceBase].  [GetType<0, Configurations>]
    needs a first configuration, so the pack is its head and its tail. *)
Record DeviceParameters : Type := mkDevice {
  _UsbVersion : Z;
  _Class : Z;
  _SubClass : Z;
  _Protocol : Z;
  _VendorId : Z;
  _ProductId : Z;
  _DeviceReleaseNumber : Z;
  _Configuration0 : Configuration;
  _ConfigurationsRest : list Configuration
}.

Definition _Configurations (d : DeviceParameters) : list Configuration :=
  _Configuration0 d :: _ConfigurationsRest d.

(** [Append_t<typename _Configurations::Endpoints...>]: the endpoints of all
    the configurations; an endpoint number is registered when it is among
    them. *)
Definition registered (d : DeviceParameters) (endpoint : Z) : bool :=
  existsb (Z.eqb endpoint) (flat_map Endpoints (_Configurations d)).

(** ** Packed records *)

Definition u8 (v : Z) : Z := v mod 256.
Definition u16 (v : Z) : Z := v mod 65536.
Definition le16 (v : Z) : list Z := [v mod 256; (v / 256) mod 256].

Module DeviceDescriptor.
Record t : Type := mk {
  Length : Z;
  Type_ : Z;
  UsbVersion : Z;
  Class : Z;
  SubClass : Z;
  Protocol : Z;
  MaxPacketSize : Z;
  VendorId : Z;
  ProductId : Z;
  DeviceReleaseNumber : Z;
  ManufacturerStringIndex : Z;
  ProductStringIndex : Z;
  SerialNumberStringIndex : Z;
  ConfigurationsCount : Z
}.

(** [sizeof(DeviceDescriptor)] under [#pragma pack(1)]. *)
Definition sizeof : Z := 18.

(** The object representation (little-endian, no padding). *)
Definition bytes (d : t) : list Z :=
  [Length d; Type_ d] ++ le16 (UsbVersion d) ++
  [Class d; SubClass d; Protocol d; MaxPacketSize d] ++
  le16 (VendorId d) ++ le16 (ProductId d) ++ le16 (DeviceReleaseNumber d) ++
  [ManufacturerStringIndex d; ProductStringIndex d;
   SerialNumberStringIndex d; ConfigurationsCount d].
End DeviceDescriptor.

Module SetupPacket.
Record t : Type := mk {
  RequestType : Z;
  Request : StandartRequestCode.t;
  Value : Z;
  Index : Z;
  Length : Z
}.
End SetupPacket.

(** ** Events *)

Inductive Event : Type :=
| RegRead (r : UsbReg) (v : Z)
| RegWrite (r : UsbReg) (v : Z)
| Ep0RegGet (v : Z)
| Ep0ClearCtrRx
| Ep0ClearCtrTx
| Ep0SendData (data : list Z)
| Ep0SetTxStatus (s : EndpointStatus.t)
| Ep0SetRxStatus (s : EndpointStatus.t)
| Ep0Reset
| ConfigurationReset (i : nat)
| TempAddressStore (v : Z)
| Pc7Toggle
| EndpointHandler (endpoint : Z) (dir : EndpointDirection.t)
| ClearPendingIRQ.

(** ** The program monad: state, trace, and a fault for the runs without a
    defined outcome (undefined behaviour, fatal condition) *)

Inductive Result (S A : Type) : Type :=
| Done (a : A) (s : S) (tr : list Event)
| Fault (tr : list Event).
Arguments Done {S A} a s tr.
Arguments Fault {S A} tr.

Definition trace {S A} (r : Result S A) : list Event :=
  match r with
  | Done _ _ tr => tr
  | Fault tr => tr
  end.

Definition final {S A} (r : Result S A) : option S :=
  match r with
  | Done _ s _ => Some s
  | Fault _ => None
  end.

Definition M (S A : Type) : Type := S -> Result S A.

Definition ret {S A} (a : A) : M S A := fun s => Done a s [].

Definition bind {S A B} (m : M S A) (k : A -> M S B) : M S B :=
  fun s =>
    match m s with
    | Done a s1 tr1 =>
        match k a s1 with
        | Done b s2 tr2 => Done b s2 (tr1 ++ tr2)
        | Fault tr2 => Fault (tr1 ++ tr2)
        end
    | Fault tr1 => Fault tr1
    end.

Definition when {S} (b : bool) (m : M S unit) : M S unit :=
  if b then m else ret tt.

Definition emit {S} (e : Event) : M S unit := fun s => Done tt s [e].

Definition fault {S A} : M S A := fun _ => Fault [].

Declare Scope prog_scope.
Delimit Scope prog_scope with prog.
Notation "x <- m ;; k" := (bind m (fun x => k))
  (at level 61, m at next level, right associativity) : prog_scope.
Notation "m ;; k" := (bind m (fun _ => k))
  (at level 61, right associativity) : prog_scope.

(** A C condition: an integer is true when it is not zero. *)
Definition truthy (v : Z) : bool := negb (v =? 0).

Section DeviceBase.

Context {H : DeviceHeader} {E : Type} {Ep0 : Endpoint0 E}.
Variable dev : DeviceParameters.

(** The mutable state: the register block, the static [TempAddressStorage]
    (a [uint8_t]) and the control endpoint. *)
Record State : Type := mkState {
  Regs : USB_TypeDef;
  TempAddressStorage : Z;
  Ep0State : E
}.

Definition Prog (A : Type) : Type := M State A.
Local Open Scope prog_scope.

(** *** Register and endpoint accesses *)

(** A load from a register: registers hold what was last stored in them
    until the peripheral raises the next interrupt. *)
Definition reg_read (r : UsbReg) : Prog Z :=
  fun s => Done (reg_get r (Regs s)) s [RegRead r (reg_get r (Regs s))].

(** A store to a register.  What [DeviceBase] stores is a mask of that
    register, zero, or a mask or-ed with a masked byte, so that no stored value
    wraps at the register width. *)
Definition reg_write (r : UsbReg) (v : Z) : Prog unit :=
  fun s => Done tt (mkState (reg_set r v (Regs s)) (TempAddressStorage s) (Ep0State s))
                [RegWrite r v].

Definition ep0_call (ev : Event) (f : E -> E) : Prog unit :=
  fun s => Done tt (mkState (Regs s) (TempAddressStorage s) (f (Ep0State s))) [ev].

Definition Ep0_Reg_Get : Prog Z :=
  fun s => Done (Reg_Get (Ep0State s)) s [Ep0RegGet (Reg_Get (Ep0State s))].

Definition Ep0_ClearCtrRx : Prog unit := ep0_call Ep0ClearCtrRx ClearCtrRx.
Definition Ep0_ClearCtrTx : Prog unit := ep0_call Ep0ClearCtrTx ClearCtrTx.
Definition Ep0_SetTxStatus (st : EndpointStatus.t) : Prog unit :=
  ep0_call (Ep0SetTxStatus st) (SetTxStatus st).
Definition Ep0_SetRxStatus (st : EndpointStatus.t) : Prog unit :=
  ep0_call (Ep0SetRxStatus st) (SetRxStatus st).

(** [_Ep0::Writer::SendData(data, size)]: the [size] first bytes of the object
    [data] points to.  A [size] beyond the object reads past it: the call has
    no defined outcome. *)
Definition Ep0_SendData (data : list Z) (size : Z) : Prog unit :=
  if Z.of_nat (length data) <? size then fault
  else ep0_call (Ep0SendData (firstn (Z.to_nat size) data))
                (Writer_SendData (firstn (Z.to_nat size) data)).

(** Modelled from the spec: [_Ep0::Writer::SendData(0)], the one-argument call
    of the writer (endpoint.h is not part of the sources), sends the
    zero-length acknowledgment: the empty packet. *)
Definition Ep0_SendData0 : Prog unit :=
  ep0_call (Ep0SendData []) (Writer_SendData []).

Definition load_TempAddressStorage : Prog Z :=
  fun s => Done (TempAddressStorage s) s [].

Definition store_TempAddressStorage (v : Z) : Prog unit :=
  fun s => Done tt (mkState (Regs s) (u8 v) (Ep0State s)) [TempAddressStore (u8 v)].

(** [reinterpret_cast<SetupPacket*>(_Ep0::RxBuffer)]: the eight bytes of the
    receive buffer seen as the packed record. *)
Definition byte_at (buf : nat -> Z) (i : nat) : Z := u8 (buf i).
Definition word_at (buf : nat -> Z) (i : nat) : Z :=
  byte_at buf i + 256 * byte_at buf (S i).

Definition setup_of (buf : nat -> Z) : SetupPacket.t :=
  SetupPacket.mk (byte_at buf 0)
                 (RequestCode_of (byte_at buf 1))
                 (word_at buf 2)
                 (word_at buf 4)
                 (word_at buf 6).

Definition read_setup : Prog SetupPacket.t :=
  fun s => Done (setup_of (RxBuffer (Ep0State s))) s [].

(** *** [FillDescriptor] (lines 268-281) *)

Definition FillDescriptor : DeviceDescriptor.t :=
  DeviceDescriptor.mk
    18
    DescriptorType_Device
    (u16 (_UsbVersion dev))
    (u8 (_Class dev))
    (u8 (_SubClass dev))
    (u8 (_Protocol dev))
    (u8 MaxPacketSize)
    (u16 (_VendorId dev))
    (u16 (_ProductId dev))
    (u16 (_DeviceReleaseNumber dev))
    0 0 0
    (u8 (Z.of_nat (length (_Configurations dev)))).

(** *** [Reset] (lines 300-311) *)

Fixpoint Configurations_Reset (i : nat) (cs : list Configuration) : Prog unit :=
  match cs with
  | [] => ret tt
  | _ :: cs' => emit (ConfigurationReset i) ;; Configurations_Reset (S i) cs'
  end.

Definition Reset : Prog unit :=
  reg_write CNTR (Z.lor USB_CNTR_CTRM USB_CNTR_RESETM) ;;
  reg_write ISTR 0 ;;
  ep0_call Ep0Reset Ep0_Reset ;;
  Configurations_Reset 0 (_Configurations dev) ;;
  reg_write BTABLE 0 ;;
  reg_write DADDR USB_DADDR_EF.

(** *** [Handler] (lines 313-378) *)

(** The 64-byte [temp] of the configuration-descriptor case: composing more
    than it holds writes past the array.  What [SendData] is given of it is
    the bytes that were composed: those after them are not initialised. *)
Definition temp_capacity : Z := 64.

(** The inner switch, on [static_cast<GetDescriptorParameter>(setup->Value)]. *)
Definition GetDescriptor_switch (setup : SetupPacket.t) : Prog unit :=
  let len := SetupPacket.Length setup in
  match DescriptorParameter_of (SetupPacket.Value setup) with
  | GetDescriptorParameter.DeviceDescriptor =>
      let tempDeviceDescriptor := FillDescriptor in
      Ep0_SendData (DeviceDescriptor.bytes tempDeviceDescriptor)
        (if len <? DeviceDescriptor.sizeof then len else DeviceDescriptor.sizeof)
  | GetDescriptorParameter.ConfigurationDescriptor =>
      let composed := cfg_FillDescriptor (_Configuration0 dev) in
      if temp_capacity <? Z.of_nat (length composed) then fault
      else
        let size := u16 (Z.of_nat (length composed)) in
        Ep0_SendData composed (if len <? size then len else size)
  | GetDescriptorParameter.HidReportDescriptor =>
      let data := HidReport_Data (_Configuration0 dev) in
      let size := u16 (Z.of_nat (length data)) in
      Ep0_SendData data (if len <? size then len else size)
  | GetDescriptorParameter.Other _ =>
      Ep0_SetTxStatus EndpointStatus.Stall
  end.

(** The outer switch, on [setup->Request].  The [SetConfiguration] case has
    no [break]: control runs on into [default]. *)
Definition Request_switch (setup : SetupPacket.t) : Prog unit :=
  match SetupPacket.Request setup with
  | StandartRequestCode.GetStatus =>
      let status := 0 in
      Ep0_SendData (le16 status) 2
  | StandartRequestCode.SetAddress =>
      store_TempAddressStorage (SetupPacket.Value setup) ;;
      Ep0_SendData0
  | StandartRequestCode.GetDescriptor =>
      GetDescriptor_switch setup
  | StandartRequestCode.SetConfiguration =>
      Ep0_SendData0 ;;
      Ep0_SetTxStatus EndpointStatus.Stall
  | StandartRequestCode.Other _ =>
      Ep0_SetTxStatus EndpointStatus.Stall
  end.

(** The first [if] of [Handler] (lines 315-367). *)
Definition ReceiveComplete : Prog unit :=
  r <- Ep0_Reg_Get ;;
  when (truthy (Z.land r USB_EP_CTR_RX)) (
    Ep0_ClearCtrRx ;;
    r' <- Ep0_Reg_Get ;;
    when (truthy (Z.land r' USB_EP_SETUP)) (
      setup <- read_setup ;;
      Request_switch setup) ;;
    Ep0_SetRxStatus EndpointStatus.Valid).

(** The second [if] of [Handler] (lines 368-377). *)
Definition TransmitComplete : Prog unit :=
  r <- Ep0_Reg_Get ;;
  when (truthy (Z.land r USB_EP_CTR_TX)) (
    Ep0_ClearCtrTx ;;
    pending <- load_TempAddressStorage ;;
    when (negb (pending =? 0)) (
      reg_write DADDR (Z.lor USB_DADDR_EF (Z.land pending USB_DADDR_ADD)) ;;
      store_TempAddressStorage 0) ;;
    Ep0_SetRxStatus EndpointStatus.Valid).

Definition Handler : Prog unit :=
  ReceiveComplete ;; TransmitComplete.

(** *** [CommonHandler] (lines 283-298) *)

(** Modelled from the spec: [EndpointHandlers::Handle] (endpoints_manager.h
    is not part of the sources).  Endpoint 0 is serviced by the control
    engine, which [DeviceBase] registers in place of [_Ep0]; the handlers of
    the registered endpoints of the configurations are outside the core and
    only leave their event; an endpoint number outside the registered set is
    a violation of the contract with the hardware, fatal: the dispatch has no
    defined outcome. *)
Definition EpHandlers_Handle (endpoint : Z) (dir : EndpointDirection.t) : Prog unit :=
  if endpoint =? 0 then Handler
  else if registered dev endpoint then emit (EndpointHandler endpoint dir)
  else fault.

Definition CommonHandler : Prog unit :=
  i <- reg_read ISTR ;;
  when (truthy (Z.land i USB_ISTR_RESET)) Reset ;;
  i <- reg_read ISTR ;;
  when (truthy (Z.land i USB_ISTR_CTR)) (
    i <- reg_read ISTR ;;
    let endpoint := u8 (Z.land i USB_ISTR_EP_ID) in
    emit Pc7Toggle ;;
    i <- reg_read ISTR ;;
    EpHandlers_Handle endpoint
      (if truthy (Z.land i USB_ISTR_DIR)
       then EndpointDirection.In else EndpointDirection.Out)) ;;
  emit ClearPendingIRQ.

End DeviceBase.

Arguments State E : clear implicits.
Arguments mkState {E} Regs TempAddressStorage Ep0State.

(** ** Reading a trace *)

(** The packets handed to the endpoint-0 writer, in order. *)
Definition responses (tr : list Event) : list (list Z) :=
  flat_map (fun e => match e with Ep0SendData d => [d] | _ => [] end) tr.

(** The statuses the transmit direction of endpoint 0 was set to, in order. *)
Definition tx_statuses (tr : list Event) : list EndpointStatus.t :=
  flat_map (fun e => match e with Ep0SetTxStatus st => [st] | _ => [] end) tr.

(** The values written to a register, in order. *)
Definition writes_to (r : UsbReg) (tr : list Event) : list Z :=
  flat_map (fun e =>
              match e with
              | RegWrite r' v =>
                  match r, r' with
                  | CNTR, CNTR | ISTR, ISTR | BTABLE, BTABLE | DADDR, DADDR => [v]
                  | _, _ => []
                  end
              | _ => []
              end) tr.

(** Receive-side effects of [Handler]: acknowledging the reception and staging
    the response.  Transmit-side effects: acknowledging the transmission and
    committing the device address. *)
Definition receive_effect (e : Event) : bool :=
  match e with
  | Ep0ClearCtrRx | Ep0SendData _ | Ep0SetTxStatus _ => true
  | _ => false
  end.

Definition transmit_effect (e : Event) : bool :=
  match e with
  | Ep0ClearCtrTx | RegWrite DADDR _ => true
  | _ => false
  end.

(** The acknowledgment of a completed transmission. *)
Definition transmit_ack (e : Event) : bool :=
  match e with
  | Ep0ClearCtrTx => true
  | _ => false
  end.

Definition is_ISTR_read (e : Event) : bool :=
  match e with
  | RegRead ISTR _ => true
  | _ => false
  end.

(** The trace ends with the receive direction of endpoint 0 set to Valid. *)
Definition rearmed (tr : list Event) : Prop :=
  exists tr0, tr = tr0 ++ [Ep0SetRxStatus EndpointStatus.Valid].

(** [e1] is recorded before [e2]. *)
Definition precedes (e1 e2 : Event) (tr : list Event) : Prop :=
  exists l1 l2 l3, tr = l1 ++ e1 :: l2 ++ e2 :: l3.

(** ** A concrete target, for running the handlers *)

(** Modelled from the spec: the device header and the enumeration
    declarations (headers that are not part of the sources), as one instance
    of [DeviceHeader] to run the handlers on.  The address register has a
    7-bit address field with the enable flag above it; the other masks are
    the flag positions of the full-speed USB peripheral the register names
    belong to; the request codes are the standard ones, and a descriptor
    selector is the descriptor type in the high byte with index 0. *)
Definition stm32_header : DeviceHeader := {|
  USB_CNTR_CTRM := 0x8000;
  USB_CNTR_RESETM := 0x0400;
  USB_ISTR_RESET := 0x0400;
  USB_ISTR_CTR := 0x8000;
  USB_ISTR_EP_ID := 0x000F;
  USB_ISTR_DIR := 0x0010;
  USB_DADDR_EF := 0x80;
  USB_DADDR_ADD := 0x7F;
  USB_EP_CTR_RX := 0x8000;
  USB_EP_SETUP := 0x0800;
  USB_EP_CTR_TX := 0x0080;
  DescriptorType_Device := 1;
  RequestCode_of := fun b =>
    if b =? 0 then StandartRequestCode.GetStatus
    else if b =? 5 then StandartRequestCode.SetAddress
    else if b =? 6 then StandartRequestCode.GetDescriptor
    else if b =? 9 then StandartRequestCode.SetConfiguration
    else StandartRequestCode.Other b;
  DescriptorParameter_of := fun v =>
    if v =? 0x0100 then GetDescriptorParameter.DeviceDescriptor
    else if v =? 0x0200 then GetDescriptorParameter.ConfigurationDescriptor
    else if v =? 0x2200 then GetDescriptorParameter.HidReportDescriptor
    else GetDescriptorParameter.Other v
|}.

(** Modelled from the spec: the endpoint entity behind [_Ep0] (endpoint.h is
    not part of the sources): the endpoint register with its completion and
    SETUP flags, the hardware status of each direction, the receive buffer
    and the packet last handed to the writer. *)
Module Ep0Model.
Record t : Type := mk {
  EPnR : Z;
  Rx : list Z;
  Tx : list Z;
  StatTx : EndpointStatus.t;
  StatRx : EndpointStatus.t
}.
End Ep0Model.

Definition ep0_model : Endpoint0 Ep0Model.t := {|
  MaxPacketSize := 64;
  Reg_Get := Ep0Model.EPnR;
  RxBuffer := fun e i => nth i (Ep0Model.Rx e) 0;
  ClearCtrRx := fun e =>
    Ep0Model.mk (Z.ldiff (Ep0Model.EPnR e) 0x8000) (Ep0Model.Rx e) (Ep0Model.Tx e)
                (Ep0Model.StatTx e) (Ep0Model.StatRx e);
  ClearCtrTx := fun e =>
    Ep0Model.mk (Z.ldiff (Ep0Model.EPnR e) 0x0080) (Ep0Model.Rx e) (Ep0Model.Tx e)
                (Ep0Model.StatTx e) (Ep0Model.StatRx e);
  SetTxStatus := fun st e =>
    Ep0Model.mk (Ep0Model.EPnR e) (Ep0Model.Rx e) (Ep0Model.Tx e) st (Ep0Model.StatRx e);
  SetRxStatus := fun st e =>
    Ep0Model.mk (Ep0Model.EPnR e) (Ep0Model.Rx e) (Ep0Model.Tx e) (Ep0Model.StatTx e) st;
  Writer_SendData := fun d e =>
    Ep0Model.mk (Ep0Model.EPnR e) (Ep0Model.Rx e) d EndpointStatus.Valid (Ep0Model.StatRx e);
  Ep0_Reset := fun e =>
    Ep0Model.mk 0 (Ep0Model.Rx e) [] EndpointStatus.Nak EndpointStatus.Valid
|}.

(** The device of the scenario: VendorId 0x1234, ProductId 0x5678, USB 2.00,
    one configuration with one endpoint (a 25-byte configuration descriptor:
    configuration, interface and endpoint records) and a short report blob. *)
Definition demo_configuration : Configuration := {|
  cfg_FillDescriptor :=
    [9; 2; 25; 0; 1; 1; 0; 0x80; 50;
     9; 4; 0; 0; 1; 3; 0; 0; 0;
     7; 5; 0x81; 3; 8; 0; 10];
  HidReport_Data := [0x06; 0x00; 0xFF; 0x09; 0x01; 0xA1; 0x01; 0xC0];
  Endpoints := [1]
|}.

Definition demo_device : DeviceParameters := {|
  _UsbVersion := 0x0200;
  _Class := 0;
  _SubClass := 0;
  _Protocol := 0;
  _VendorId := 0x1234;
  _ProductId := 0x5678;
  _DeviceReleaseNumber := 0x0100;
  _Configuration0 := demo_configuration;
  _ConfigurationsRest := []
|}.

(** The state when a SETUP packet [pkt] has been received at device address
    [addr] (register [DADDR] = enable flag + address). *)
Definition setup_arrived (addr : Z) (pkt : list Z) : State Ep0Model.t :=
  mkState (mkRegs 0x8400 0x8000 0 (Z.lor 0x80 addr)) 0
          (Ep0Model.mk 0x8800 pkt [] EndpointStatus.Nak EndpointStatus.Nak).

(** ** What a state shows to the handler *)

Section Observations.

Context {H : DeviceHeader} {E : Type} {Ep0 : Endpoint0 E}.

(** The endpoint register flags a completed reception. *)
Definition rx_flag (s : State E) : bool :=
  truthy (Z.land (Reg_Get (Ep0State s)) USB_EP_CTR_RX).

(** Once the reception is acknowledged, the register flags a SETUP packet. *)
Definition setup_flag (s : State E) : bool :=
  truthy (Z.land (Reg_Get (ClearCtrRx (Ep0State s))) USB_EP_SETUP).

(** The endpoint register flags a completed transmission. *)
Definition tx_flag (s : State E) : bool :=
  truthy (Z.land (Reg_Get (Ep0State s)) USB_EP_CTR_TX).

(** A SETUP request is there for [Handler] to dispatch. *)
Definition setup_pending (s : State E) : bool := rx_flag s && setup_flag s.

(** The request [Handler] dispatches. *)
Definition received_setup (s : State E) : SetupPacket.t :=
  setup_of (RxBuffer (ClearCtrRx (Ep0State s))).

(** The hardware moves the endpoint to [e] between two interrupts; it leaves
    the register block and [TempAddressStorage] alone. *)
Definition hardware (e : E) (s : State E) : State E :=
  mkState (Regs s) (TempAddressStorage s) e.

(** The device address the peripheral answers to: the address field of DADDR. *)
Definition device_address (s : State E) : Z :=
  Z.land (r_DADDR (Regs s)) USB_DADDR_ADD.

(** The state once the reception is acknowledged. *)
Definition acked (s : State E) : State E :=
  mkState (Regs s) (TempAddressStorage s) (ClearCtrRx (Ep0State s)).

(** The receive direction set to Valid. *)
Definition rearm (s : State E) : State E :=
  mkState (Regs s) (TempAddressStorage s)
          (SetRxStatus EndpointStatus.Valid (Ep0State s)).

(** What the receive branch records before it looks at the packet. *)
Definition rx_prologue (s : State E) : list Event :=
  [Ep0RegGet (Reg_Get (Ep0State s)); Ep0ClearCtrRx;
   Ep0RegGet (Reg_Get (ClearCtrRx (Ep0State s)))].

End Observations.

(** The peripheral raises its interrupt with the status register at [istr]
    and the control endpoint in state [e]; it leaves the other registers and
    [TempAddressStorage] alone. *)
Definition interrupt {E : Type} (istr : Z) (e : E) (s : State E) : State E :=
  mkState (reg_set ISTR istr (Regs s)) (TempAddressStorage s) e.

(** Interrupts served one after the other by [CommonHandler]; [irqs] gives
    what the peripheral shows at each of them. *)
Fixpoint serve {H : DeviceHeader} {E : Type} {Ep0 : Endpoint0 E}
  (dev : DeviceParameters) (irqs : list (Z * E)) : M (State E) unit :=
  match irqs with
  | [] => ret tt
  | (istr, e) :: rest =>
      bind (fun s => CommonHandler dev (interrupt istr e s)) (fun _ => serve dev rest)
  end.

(** The endpoint [CommonHandler] reads in the interrupt status [istr]. *)
Definition reported_endpoint {H : DeviceHeader} (istr : Z) : Z :=
  u8 (Z.land istr USB_ISTR_EP_ID).

(** The hardware keeps its side of the contract at an interrupt with the
    status [istr]: a completed transfer it reports is on endpoint 0 or on an
    endpoint of the registered set. *)
Definition well_reported {H : DeviceHeader} (dev : DeviceParameters) (istr : Z) : bool :=
  negb (truthy (Z.land istr USB_ISTR_CTR)) ||
  (reported_endpoint istr =? 0) ||
  registered dev (reported_endpoint istr).

(** [TempAddressStorage] holds [t] legitimately after the trace [tr]: it is
    zero, or [tr] has the acknowledgment of a SetAddress that stored [t] and no
    transmission has been acknowledged since. *)
Definition pending_window (tr : list Event) (t : Z) : Prop :=
  t = 0 \/
  exists tr1 tr2,
    tr = tr1 ++ TempAddressStore t :: Ep0SendData [] :: tr2 /\
    Forall (fun e => transmit_ack e = false) tr2.

(** Every write to DADDR recorded in [tr] is the one of a bus reset, the
    enable flag alone, or commits a byte that a SetAddress stored before it:
    the byte was stored and the zero-length acknowledgment handed to the
    writer, no completed transmission was acknowledged after that until the
    one right before the write. *)
Definition commits_only_pending {H : DeviceHeader} (tr : list Event) : Prop :=
  forall pre v post,
    tr = pre ++ RegWrite DADDR v :: post ->
    v = USB_DADDR_EF \/
    exists t tr1 tr2,
      pre = tr1 ++ TempAddressStore t :: Ep0SendData [] :: tr2 ++ [Ep0ClearCtrTx] /\
      Forall (fun e => transmit_ack e = false) tr2 /\
      t <> 0 /\
      v = Z.lor USB_DADDR_EF (Z.land t USB_DADDR_ADD).

(** The values of [uint8_t] and of [uint16_t]. *)
Definition in_u8 (v : Z) : bool := (0 <=? v) && (v <? 256).
Definition in_u16 (v : Z) : bool := (0 <=? v) && (v <? 65536).

(** Every value template argument is a value of its C++ type ([uint16_t],
    [uint8_t]; the enumeration [DeviceClass] is one byte), the endpoint-0
    packet size fits the descriptor's byte, and the number of configurations
    fits [ConfigurationsCount] (a braced initializer admits no narrowing of a
    constant that does not fit). *)
Definition template_arguments_in_range {E : Type} {Ep0 : Endpoint0 E}
  (dev : DeviceParameters) : bool :=
  in_u16 (_UsbVersion dev) && in_u8 (_Class dev) && in_u8 (_SubClass dev) &&
  in_u8 (_Protocol dev) && in_u8 MaxPacketSize &&
  in_u16 (_VendorId dev) && in_u16 (_ProductId dev) &&
  in_u16 (_DeviceReleaseNumber dev) &&
  in_u8 (Z.of_nat (length (_Configurations dev))).





(** The deferred commit the way it is specified for a SetAddress(addr): the
    run of [Handler] that dispatches the request in [s] returns with DADDR as
    it was, and once the status stage has completed, the hardware having moved
    the endpoint to [e2], the next run of [Handler] leaves the device
    answering at [addr] with nothing pending. *)
Definition deferred_commit_as_specified {H : DeviceHeader} {E : Type} {Ep0 : Endpoint0 E}
  (dev : DeviceParameters) (s : State E) (addr : Z) (e2 : E) : Prop :=
  match Handler dev s with
  | Done _ s1 _ =>
      r_DADDR (Regs s1) = r_DADDR (Regs s) /\
      match Handler dev (hardware e2 s1) with
      | Done _ s2 _ => device_address s2 = addr /\ TempAddressStorage s2 = 0
      | Fault _ => False
      end
  | Fault _ => False
  end.

(** A SETUP packet [pkt] has arrived at a device at address [addr] while the
    endpoint register still flags the completion of an earlier transmission. *)
Definition setup_arrived_tx_flagged (addr : Z) (pkt : list Z) : State Ep0Model.t :=
  mkState (mkRegs 0x8400 0x8000 0 (Z.lor 0x80 addr)) 0
          (Ep0Model.mk 0x8880 pkt [] EndpointStatus.Nak EndpointStatus.Valid).

(** The endpoint as the hardware leaves it when an IN transaction completes
    and nothing was received. *)
Definition in_done : Ep0Model.t :=
  Ep0Model.mk 0x0080 [] [] EndpointStatus.Nak EndpointStatus.Valid.

(** ** [Enable] (lines 252-266) *)

(** What [Enable] does besides the accesses to the register block: the calls
    to the clock control, to the buffer manager and to the interrupt
    controller, and the read-modify-write of the pull-up register. *)
Inductive BoardEvent : Type :=
| ClockCtrl_Enable
| EpBufferManager_Init
| Usb (e : Event)
| BCDR_Or (v : Z)
| NVIC_EnableIRQ.

(** The state [Enable] works on: the state of the device and the register
    BCDR. *)
Record Board (E : Type) : Type := mkBoard {
  usb : State E;
  r_BCDR : Z
}.
Arguments mkBoard {E} usb r_BCDR.
Arguments usb {E} b.
Arguments r_BCDR {E} b.

Section EnableDevice.

Context {H : DeviceHeader} {E : Type} {Ep0 : Endpoint0 E}.

(** [USB_BCDR_DPPU], on the targets whose device header defines it. *)
Variable USB_BCDR_DPPU : option Z.

(** What [EpBufferManager::Init] leaves of the control endpoint. *)
Variable Init : E -> E.

Definition BoardProg : Type := Board E -> Board E * list BoardEvent.

Definition board_seq (p q : BoardProg) : BoardProg :=
  fun b =>
    let (b1, tr1) := p b in
    let (b2, tr2) := q b1 in
    (b2, tr1 ++ tr2).

(** A call that leaves the device state alone. *)
Definition board_call (ev : BoardEvent) : BoardProg := fun b => (b, [ev]).

(** A program of the device, run on the board. *)
Definition on_usb (p : M (State E) unit) : BoardProg :=
  fun b =>
    match p (usb b) with
    | Done _ s tr => (mkBoard s (r_BCDR b), map Usb tr)
    | Fault tr => (b, map Usb tr)
    end.

Definition EpBufferManager_Init_call : BoardProg :=
  fun b =>
    (mkBoard (mkState (Regs (usb b)) (TempAddressStorage (usb b))
                      (Init (Ep0State (usb b))))
             (r_BCDR b),
     [EpBufferManager_Init]).

(** [#if defined (USB_BCDR_DPPU)]: [_Regs()->BCDR |= USB_BCDR_DPPU]. *)
Definition pull_up : BoardProg :=
  fun b =>
    match USB_BCDR_DPPU with
    | Some dppu => (mkBoard (usb b) (Z.lor (r_BCDR b) dppu), [BCDR_Or dppu])
    | None => (b, [])
    end.

Definition Enable : BoardProg :=
  board_seq (board_call ClockCtrl_Enable)
  (board_seq EpBufferManager_Init_call
  (board_seq (on_usb (reg_write CNTR (Z.lor USB_CNTR_CTRM USB_CNTR_RESETM)))
  (board_seq (on_usb (reg_write ISTR 0))
  (board_seq (on_usb (reg_write BTABLE 0))
  (board_seq pull_up
             (board_call NVIC_EnableIRQ)))))).

End EnableDevice.

(** The register writes among the events of the board. *)
Definition usb_events (tr : list BoardEvent) : list Event :=
  flat_map (fun e => match e with Usb e' => [e'] | _ => [] end) tr.

(** ** The register access layer (first half of ioreg.h) *)

(** Conversion to [DataT], an unsigned integer type of [w] bits (at most the
    32 bits of [int] on the target). *)
Definition to_DataT (w : nat) (v : Z) : Z := v mod 2 ^ Z.of_nat w.

(** The values of [DataT]. *)
Definition in_DataT (w : nat) (v : Z) : Prop := 0 <= v < 2 ^ Z.of_nat w.

(** The value of the [int] expression [1 << Bit], [Bit] being an [unsigned]
    template argument and [int] having 32 bits: two to the power [Bit] up to
    bit 30, the most negative [int] for bit 31 (the file uses designated
    initializers, so that the language is C++20, where the result of a left
    shift is reduced to the range of [int]), and nothing defined from 32
    on. *)
Definition int_1_shl (Bit : Z) : option Z :=
  if (0 <=? Bit) && (Bit <? 31) then Some (2 ^ Bit)
  else if Bit =? 31 then Some (- 2 ^ 31)
  else None.

(** The macro [IO_REG_WRAPPER] (lines 24-39), over the content [reg] of the
    register [REG_NAME]: the values have the unsigned type [DataT] ([wd]
    bits), the register an unsigned type of [wr] bits.  An [int] operand is
    converted to the type of the register by the usual conversions, which
    for an unsigned register keeps its bits in two's complement: the bitwise
    conjunction with [reg] is the one of [Z]. *)
Module IO_REG_WRAPPER.
Section Register.
Variables (wd wr : nat).
Definition Get (reg : Z) : Z := to_DataT wd reg.
Definition Set_ (value reg : Z) : Z := to_DataT wr (to_DataT wd value).
Definition Or (value reg : Z) : Z := to_DataT wr (Z.lor reg (to_DataT wd value)).
Definition And (value reg : Z) : Z := to_DataT wr (Z.land reg (to_DataT wd value)).
Definition Xor (value reg : Z) : Z := to_DataT wr (Z.lxor reg (to_DataT wd value)).
Definition AndOr (andMask orMask reg : Z) : Z :=
  to_DataT wr (Z.lor (Z.land reg (to_DataT wd andMask)) (to_DataT wd orMask)).
Definition IsBitSet (Bit : Z) (reg : Z) : option bool :=
  match int_1_shl Bit with
  | Some bit => Some (truthy (Z.land reg bit))
  | None => None
  end.
Definition IsBitClear (Bit : Z) (reg : Z) : option bool :=
  match int_1_shl Bit with
  | Some bit => Some (negb (truthy (Z.land reg bit)))
  | None => None
  end.
End Register.
End IO_REG_WRAPPER.

(** The expressions of [template<unsigned _RegAddr, class _DataType, int
    _BitfieldOffset, int _BitfieldLength> class IoBitfield] (lines 157-159),
    over the content [reg] that [Value()] stands for.  [Value()] itself (line
    156, and line 114 of [IoReg]) converts the address to a pointer with
    [static_cast], which the language does not allow from an integer: a
    program that uses a member of these templates is not compiled, and the
    definitions give what the expressions compute on a register content, not
    what a program does.  The properties of bit fields are those of the macro
    below. *)
Module IoBitfield.
Section Bitfield.
Variables (w : nat) (_BitfieldOffset _BitfieldLength : Z).
Definition Mask : Z := to_DataT w (Z.shiftl (to_DataT w 1) _BitfieldLength - 1).
Definition Get (reg : Z) : Z :=
  to_DataT w (Z.land (Z.shiftr reg _BitfieldOffset) Mask).
Definition Set_ (value reg : Z) : Z :=
  to_DataT w (Z.lor (Z.land reg (Z.lnot (Z.shiftl Mask _BitfieldOffset)))
                    (Z.shiftl (Z.land (to_DataT w value) Mask) _BitfieldOffset)).
End Bitfield.
End IoBitfield.

(** The macro [IO_BITFIELD_WRAPPER] (lines 64-73): the value has type [DataT]
    ([wd] bits), the register type [RegT] ([wr] bits). *)
Module IO_BITFIELD_WRAPPER.
Section Bitfield.
Variables (wd wr : nat) (BITFIELD_OFFSET BITFIELD_LENGTH : Z).
Definition Mask : Z := to_DataT wr (Z.shiftl (to_DataT wr 1) BITFIELD_LENGTH - 1).
Definition Get (reg : Z) : Z :=
  to_DataT wd (Z.land (Z.shiftr reg BITFIELD_OFFSET) Mask).
Definition Set_ (value reg : Z) : Z :=
  to_DataT wr (Z.lor (Z.land reg (Z.lnot (Z.shiftl Mask BITFIELD_OFFSET)))
                     (Z.shiftl (Z.land (to_DataT wr (to_DataT wd value)) Mask)
                               BITFIELD_OFFSET)).
End Bitfield.
End IO_BITFIELD_WRAPPER.

(** The field lies inside the register and every shift of the wrapper is
    defined: a field of [len] bits at [off], in a register of [w] bits. *)
Definition field_fits (w : nat) (off len : Z) : bool :=
  (0 <=? off) && (0 <? len) && (off + len <=? Z.of_nat w) &&
  (Z.of_nat w <=? 32) && (len <? 32).

(** The events a run of [Handler] can record: calls to the control endpoint,
    stores to [TempAddressStorage], and the write of DADDR with the enable
    flag and a masked byte. *)
Definition handler_event {H : DeviceHeader} (e : Event) : Prop :=
  match e with
  | Ep0RegGet _ | Ep0ClearCtrRx | Ep0ClearCtrTx | Ep0SendData _
  | Ep0SetTxStatus _ | Ep0SetRxStatus _ | TempAddressStore _ => True
  | RegWrite DADDR v =>
      exists t, v = Z.lor USB_DADDR_EF (Z.land t USB_DADDR_ADD)
  | _ => False
  end.

(** The events a run of [CommonHandler] can record: those of [Handler], the
    reads of ISTR, the accesses of [Reset], the dispatch to another endpoint
    and the acknowledgment of the interrupt. *)
Definition common_event {H : DeviceHeader} (e : Event) : Prop :=
  match e with
  | RegRead ISTR _ | Pc7Toggle | EndpointHandler _ _ | ClearPendingIRQ
  | Ep0Reset | ConfigurationReset _ => True
  | RegWrite CNTR v => v = Z.lor USB_CNTR_CTRM USB_CNTR_RESETM
  | RegWrite ISTR v => v = 0
  | RegWrite BTABLE v => v = 0
  | RegWrite DADDR v =>
      v = USB_DADDR_EF \/ exists t, v = Z.lor USB_DADDR_EF (Z.land t USB_DADDR_ADD)
  | RegRead _ _ => False
  | _ => handler_event e
  end.

(** * Properties *)

(** ** Lists of events *)

Lemma Forall_false_not_In {A} (p : A -> bool) (l : list A) (x : A) :
  Forall (fun e => p e = false) l -> p x = true -> ~ List.In x l.
Proof.
  intros Hall Hx Hin.
  rewrite Forall_forall in Hall.
  specialize (Hall x Hin). congruence.
Qed.

(** When a trace is a first part without [p]-events followed by a second part
    without [q]-events, no [p]-event is recorded before a [q]-event. *)
Lemma split_no_precedes (p q : Event -> bool) (l1 l2 : list Event) (e1 e2 : Event) :
  Forall (fun e => p e = false) l1 ->
  Forall (fun e => q e = false) l2 ->
  p e1 = true -> q e2 = true ->
  ~ precedes e1 e2 (l1 ++ l2).
Proof.
  intros H1 H2 Hp Hq (a & b & c & Heq).
  apply app_eq_app in Heq.
  destruct Heq as [l [[Ha Hb] | [Ha Hb]]].
  - (* l1 = a ++ l, and l ++ l2 = e1 :: ... *)
    destruct l as [| x l].
    + simpl in Hb. subst l2.
      apply (Forall_false_not_In q _ e2 H2 Hq).
      right. apply in_or_app. right. left. reflexivity.
    + simpl in Hb. injection Hb as Hx Hb.
      apply (Forall_false_not_In p _ e1 H1 Hp).
      rewrite Ha, Hx. apply in_or_app. right. left. reflexivity.
  - (* a = l1 ++ l: e1 and e2 both lie in l2 *)
    apply (Forall_false_not_In q _ e2 H2 Hq).
    subst l2. apply in_or_app. right. right.
    apply in_or_app. right. left. reflexivity.
Qed.

Lemma precedes_app_r (e1 e2 : Event) (l1 l2 : list Event) :
  List.In e1 l1 -> List.In e2 l2 -> precedes e1 e2 (l1 ++ l2).
Proof.
  intros H1 H2.
  apply in_split in H1. destruct H1 as (a & b & ->).
  apply in_split in H2. destruct H2 as (c & d & ->).
  exists a, (b ++ c), d.
  repeat (rewrite <- app_assoc; simpl). reflexivity.
Qed.

Lemma responses_app (l1 l2 : list Event) :
  responses (l1 ++ l2) = responses l1 ++ responses l2.
Proof. unfold responses. apply flat_map_app. Qed.

Lemma tx_statuses_app (l1 l2 : list Event) :
  tx_statuses (l1 ++ l2) = tx_statuses l1 ++ tx_statuses l2.
Proof. unfold tx_statuses. apply flat_map_app. Qed.

Lemma writes_to_app (r : UsbReg) (l1 l2 : list Event) :
  writes_to r (l1 ++ l2) = writes_to r l1 ++ writes_to r l2.
Proof. unfold writes_to. apply flat_map_app. Qed.

(** ** Bytes *)

Lemma u8_range (v : Z) : 0 <= u8 v < 256.
Proof. unfold u8. apply Z.mod_pos_bound. lia. Qed.

Lemma byte_at_range (buf : nat -> Z) (i : nat) : 0 <= byte_at buf i < 256.
Proof. apply u8_range. Qed.

Lemma word_at_range (buf : nat -> Z) (i : nat) : 0 <= word_at buf i < 65536.
Proof.
  unfold word_at.
  pose proof (byte_at_range buf i). pose proof (byte_at_range buf (S i)). lia.
Qed.

Lemma u8_small (v : Z) : 0 <= v < 256 -> u8 v = v.
Proof. intros. unfold u8. apply Z.mod_small. lia. Qed.

Lemma u16_small (v : Z) : 0 <= v < 65536 -> u16 v = v.
Proof. intros. unfold u16. apply Z.mod_small. lia. Qed.

Lemma le16_u16 (v : Z) : 0 <= v < 65536 -> le16 (u16 v) = [v mod 256; v / 256].
Proof.
  intros Hv. rewrite u16_small by lia. unfold le16.
  rewrite (Z.mod_small (v / 256)); [reflexivity |].
  split; [apply Z.div_pos; lia | apply Z.div_lt_upper_bound; lia].
Qed.

Lemma le16_value (v : Z) : 0 <= v < 65536 -> v mod 256 + 256 * (v / 256) = v.
Proof. intros. pose proof (Z.div_mod v 256). lia. Qed.

Lemma length_firstn_min {A} (n : Z) (l : list A) :
  0 <= n ->
  Z.of_nat (length (firstn (Z.to_nat n) l)) = Z.min n (Z.of_nat (length l)).
Proof. intros. rewrite length_firstn. lia. Qed.

(** ** The two branches of [Handler] *)

Section Branches.

Context {H : DeviceHeader} {E : Type} {Ep0 : Endpoint0 E}.
Variable dev : DeviceParameters.

Lemma Handler_unfold (s : State E) :
  Handler dev s =
  match ReceiveComplete dev s with
  | Done _ s1 tr1 =>
      match TransmitComplete s1 with
      | Done _ s2 tr2 => Done tt s2 (tr1 ++ tr2)
      | Fault tr2 => Fault (tr1 ++ tr2)
      end
  | Fault tr1 => Fault tr1
  end.
Proof.
  unfold Handler, bind. destruct (ReceiveComplete dev s) as [[] s1 tr1 | tr1]; [| reflexivity].
  destruct (TransmitComplete s1) as [[] s2 tr2 | tr2]; reflexivity.
Qed.

Lemma ReceiveComplete_idle (s : State E) :
  rx_flag s = false ->
  ReceiveComplete dev s = Done tt s [Ep0RegGet (Reg_Get (Ep0State s))].
Proof.
  unfold rx_flag. intros Hrx.
  unfold ReceiveComplete, bind, Ep0_Reg_Get. rewrite Hrx. reflexivity.
Qed.

Lemma ReceiveComplete_data (s : State E) :
  rx_flag s = true -> setup_flag s = false ->
  ReceiveComplete dev s =
  Done tt (rearm (acked s)) (rx_prologue s ++ [Ep0SetRxStatus EndpointStatus.Valid]).
Proof.
  unfold rx_flag, setup_flag. intros Hrx Hsetup.
  unfold ReceiveComplete, bind, Ep0_Reg_Get. rewrite Hrx.
  unfold when, bind, Ep0_ClearCtrRx, ep0_call. simpl.
  rewrite Hsetup. reflexivity.
Qed.

Lemma ReceiveComplete_setup (s : State E) :
  setup_pending s = true ->
  ReceiveComplete dev s =
  match Request_switch dev (received_setup s) (acked s) with
  | Done _ s1 tr =>
      Done tt (rearm s1) (rx_prologue s ++ tr ++ [Ep0SetRxStatus EndpointStatus.Valid])
  | Fault tr => Fault (rx_prologue s ++ tr)
  end.
Proof.
  unfold setup_pending, rx_flag, setup_flag. intros Hp.
  apply andb_true_iff in Hp. destruct Hp as [Hrx Hsetup].
  unfold ReceiveComplete, bind, Ep0_Reg_Get. rewrite Hrx.
  unfold when, bind, Ep0_ClearCtrRx, ep0_call. simpl.
  rewrite Hsetup. unfold read_setup. simpl.
  fold (received_setup s). fold (acked s).
  destruct (Request_switch dev (received_setup s) (acked s)) as [[] s1 tr | tr];
    reflexivity.
Qed.

Lemma TransmitComplete_idle (s : State E) :
  tx_flag s = false ->
  TransmitComplete s = Done tt s [Ep0RegGet (Reg_Get (Ep0State s))].
Proof.
  unfold tx_flag. intros Htx.
  unfold TransmitComplete, bind, Ep0_Reg_Get. rewrite Htx. reflexivity.
Qed.

Lemma TransmitComplete_no_pending (s : State E) :
  tx_flag s = true -> TempAddressStorage s = 0 ->
  TransmitComplete s =
  Done tt (mkState (Regs s) 0
                   (SetRxStatus EndpointStatus.Valid (ClearCtrTx (Ep0State s))))
       [Ep0RegGet (Reg_Get (Ep0State s)); Ep0ClearCtrTx;
        Ep0SetRxStatus EndpointStatus.Valid].
Proof.
  unfold tx_flag. intros Htx Ht.
  unfold TransmitComplete, bind, Ep0_Reg_Get. rewrite Htx.
  unfold when, bind, Ep0_ClearCtrTx, ep0_call, load_TempAddressStorage. simpl.
  rewrite Ht. reflexivity.
Qed.

Lemma TransmitComplete_commit (s : State E) :
  tx_flag s = true -> TempAddressStorage s <> 0 ->
  TransmitComplete s =
  Done tt (mkState
             (reg_set DADDR
                (Z.lor USB_DADDR_EF (Z.land (TempAddressStorage s) USB_DADDR_ADD))
                (Regs s))
             0
             (SetRxStatus EndpointStatus.Valid (ClearCtrTx (Ep0State s))))
       [Ep0RegGet (Reg_Get (Ep0State s)); Ep0ClearCtrTx;
        RegWrite DADDR (Z.lor USB_DADDR_EF (Z.land (TempAddressStorage s) USB_DADDR_ADD));
        TempAddressStore 0;
        Ep0SetRxStatus EndpointStatus.Valid].
Proof.
  unfold tx_flag. intros Htx Ht.
  unfold TransmitComplete, bind, Ep0_Reg_Get. rewrite Htx.
  unfold when, bind, Ep0_ClearCtrTx, ep0_call, load_TempAddressStorage. simpl.
  apply Z.eqb_neq in Ht. rewrite Ht. reflexivity.
Qed.

End Branches.

(** ** The request switch, case by case *)

Section Requests.

Context {H : DeviceHeader} {E : Type} {Ep0 : Endpoint0 E}.
Variable dev : DeviceParameters.

Lemma Request_switch_GetStatus (setup : SetupPacket.t) (s : State E) :
  SetupPacket.Request setup = StandartRequestCode.GetStatus ->
  Request_switch dev setup s =
  Done tt (mkState (Regs s) (TempAddressStorage s) (Writer_SendData [0; 0] (Ep0State s)))
       [Ep0SendData [0; 0]].
Proof. intros Hr. unfold Request_switch. rewrite Hr. reflexivity. Qed.

Lemma Request_switch_SetAddress (setup : SetupPacket.t) (s : State E) :
  SetupPacket.Request setup = StandartRequestCode.SetAddress ->
  Request_switch dev setup s =
  Done tt (mkState (Regs s) (u8 (SetupPacket.Value setup))
                   (Writer_SendData [] (Ep0State s)))
       [TempAddressStore (u8 (SetupPacket.Value setup)); Ep0SendData []].
Proof. intros Hr. unfold Request_switch. rewrite Hr. reflexivity. Qed.

Lemma Request_switch_SetConfiguration (setup : SetupPacket.t) (s : State E) :
  SetupPacket.Request setup = StandartRequestCode.SetConfiguration ->
  Request_switch dev setup s =
  Done tt (mkState (Regs s) (TempAddressStorage s)
                   (SetTxStatus EndpointStatus.Stall (Writer_SendData [] (Ep0State s))))
       [Ep0SendData []; Ep0SetTxStatus EndpointStatus.Stall].
Proof. intros Hr. unfold Request_switch. rewrite Hr. reflexivity. Qed.

Lemma Request_switch_Other (setup : SetupPacket.t) (s : State E) (code : Z) :
  SetupPacket.Request setup = StandartRequestCode.Other code ->
  Request_switch dev setup s =
  Done tt (mkState (Regs s) (TempAddressStorage s)
                   (SetTxStatus EndpointStatus.Stall (Ep0State s)))
       [Ep0SetTxStatus EndpointStatus.Stall].
Proof. intros Hr. unfold Request_switch. rewrite Hr. reflexivity. Qed.

Lemma Request_switch_GetDescriptor (setup : SetupPacket.t) (s : State E) :
  SetupPacket.Request setup = StandartRequestCode.GetDescriptor ->
  Request_switch dev setup s = GetDescriptor_switch dev setup s.
Proof. intros Hr. unfold Request_switch. rewrite Hr. reflexivity. Qed.

(** The clamp [len < size ? len : size]. *)
Lemma clamp_min (len size : Z) : (if len <? size then len else size) = Z.min len size.
Proof. destruct (Z.ltb_spec len size); lia. Qed.

(** [SendData] within the object it is given. *)
Lemma Ep0_SendData_within (data : list Z) (size : Z) (s : State E) :
  size <= Z.of_nat (length data) ->
  Ep0_SendData data size s =
  Done tt (mkState (Regs s) (TempAddressStorage s)
                   (Writer_SendData (firstn (Z.to_nat size) data) (Ep0State s)))
       [Ep0SendData (firstn (Z.to_nat size) data)].
Proof.
  intros Hin. unfold Ep0_SendData.
  destruct (Z.ltb_spec (Z.of_nat (length data)) size); [lia | reflexivity].
Qed.

(** [SendData] past the object it is given. *)
Lemma Ep0_SendData_beyond (data : list Z) (size : Z) (s : State E) :
  Z.of_nat (length data) < size ->
  Ep0_SendData data size s = Fault [].
Proof.
  intros Hout. unfold Ep0_SendData.
  destruct (Z.ltb_spec (Z.of_nat (length data)) size); [reflexivity | lia].
Qed.

Lemma DeviceDescriptor_bytes_length (d : DeviceDescriptor.t) :
  length (DeviceDescriptor.bytes d) = 18%nat.
Proof. reflexivity. Qed.

Lemma GetDescriptor_switch_Device (setup : SetupPacket.t) (s : State E) :
  DescriptorParameter_of (SetupPacket.Value setup) = GetDescriptorParameter.DeviceDescriptor ->
  let resp := firstn (Z.to_nat (Z.min (SetupPacket.Length setup) 18))
                     (DeviceDescriptor.bytes (FillDescriptor dev)) in
  GetDescriptor_switch dev setup s =
  Done tt (mkState (Regs s) (TempAddressStorage s) (Writer_SendData resp (Ep0State s)))
       [Ep0SendData resp].
Proof.
  intros Hp. unfold GetDescriptor_switch. rewrite Hp.
  unfold DeviceDescriptor.sizeof. rewrite clamp_min.
  apply Ep0_SendData_within. rewrite DeviceDescriptor_bytes_length. lia.
Qed.

Lemma GetDescriptor_switch_Configuration (setup : SetupPacket.t) (s : State E) :
  DescriptorParameter_of (SetupPacket.Value setup)
    = GetDescriptorParameter.ConfigurationDescriptor ->
  (length (cfg_FillDescriptor (_Configuration0 dev)) <= 64)%nat ->
  let composed := cfg_FillDescriptor (_Configuration0 dev) in
  let resp := firstn (Z.to_nat (Z.min (SetupPacket.Length setup)
                                      (Z.of_nat (length composed)))) composed in
  GetDescriptor_switch dev setup s =
  Done tt (mkState (Regs s) (TempAddressStorage s) (Writer_SendData resp (Ep0State s)))
       [Ep0SendData resp].
Proof.
  intros Hp Hfit. unfold GetDescriptor_switch. rewrite Hp.
  unfold temp_capacity.
  destruct (Z.ltb_spec 64 (Z.of_nat (length (cfg_FillDescriptor (_Configuration0 dev)))));
    [lia |].
  rewrite clamp_min, u16_small by lia.
  apply Ep0_SendData_within. lia.
Qed.

Lemma GetDescriptor_switch_overflow (setup : SetupPacket.t) (s : State E) :
  DescriptorParameter_of (SetupPacket.Value setup)
    = GetDescriptorParameter.ConfigurationDescriptor ->
  (64 < length (cfg_FillDescriptor (_Configuration0 dev)))%nat ->
  GetDescriptor_switch dev setup s = Fault [].
Proof.
  intros Hp Hbig. unfold GetDescriptor_switch. rewrite Hp.
  unfold temp_capacity.
  destruct (Z.ltb_spec 64 (Z.of_nat (length (cfg_FillDescriptor (_Configuration0 dev)))));
    [reflexivity | lia].
Qed.

Lemma GetDescriptor_switch_HidReport (setup : SetupPacket.t) (s : State E) :
  DescriptorParameter_of (SetupPacket.Value setup)
    = GetDescriptorParameter.HidReportDescriptor ->
  let data := HidReport_Data (_Configuration0 dev) in
  let resp := firstn (Z.to_nat (Z.min (SetupPacket.Length setup)
                                      (u16 (Z.of_nat (length data))))) data in
  GetDescriptor_switch dev setup s =
  Done tt (mkState (Regs s) (TempAddressStorage s) (Writer_SendData resp (Ep0State s)))
       [Ep0SendData resp].
Proof.
  intros Hp. unfold GetDescriptor_switch. rewrite Hp.
  rewrite clamp_min.
  apply Ep0_SendData_within.
  pose proof (Z.mod_le (Z.of_nat (length (HidReport_Data (_Configuration0 dev)))) 65536).
  unfold u16. lia.
Qed.

Lemma GetDescriptor_switch_Other (setup : SetupPacket.t) (s : State E) (v : Z) :
  DescriptorParameter_of (SetupPacket.Value setup) = GetDescriptorParameter.Other v ->
  GetDescriptor_switch dev setup s =
  Done tt (mkState (Regs s) (TempAddressStorage s)
                   (SetTxStatus EndpointStatus.Stall (Ep0State s)))
       [Ep0SetTxStatus EndpointStatus.Stall].
Proof. intros Hp. unfold GetDescriptor_switch. rewrite Hp. reflexivity. Qed.

End Requests.

(** ** What every run of a branch has in common *)

Section Effects.

Context {H : DeviceHeader} {E : Type} {Ep0 : Endpoint0 E}.
Variable dev : DeviceParameters.

Local Ltac all_false := repeat constructor.

(** The request switch never touches the register block and has no
    transmit-side effect; it leaves [TempAddressStorage] alone unless it
    acknowledges a SetAddress; it faults only on a composed configuration
    descriptor that does not fit the scratch buffer. *)
Lemma Request_switch_effects (setup : SetupPacket.t) (s : State E) :
  match Request_switch dev setup s with
  | Done _ s1 tr =>
      Forall (fun e => transmit_effect e = false) tr /\
      Regs s1 = Regs s /\
      (TempAddressStorage s1 = TempAddressStorage s \/
       tr = [TempAddressStore (TempAddressStorage s1); Ep0SendData []])
  | Fault tr =>
      tr = [] /\ (64 < length (cfg_FillDescriptor (_Configuration0 dev)))%nat
  end.
Proof.
  destruct (SetupPacket.Request setup) eqn:Hr.
  - rewrite (Request_switch_GetStatus dev _ _ Hr). simpl.
    split; [all_false | auto].
  - rewrite (Request_switch_SetAddress dev _ _ Hr). simpl.
    split; [all_false | auto].
  - rewrite (Request_switch_GetDescriptor dev _ _ Hr).
    destruct (DescriptorParameter_of (SetupPacket.Value setup)) eqn:Hp.
    + rewrite (GetDescriptor_switch_Device dev _ _ Hp). simpl.
      split; [all_false | auto].
    + destruct (Nat.leb_spec (length (cfg_FillDescriptor (_Configuration0 dev))) 64)
        as [Hfit | Hbig].
      * rewrite (GetDescriptor_switch_Configuration dev _ _ Hp Hfit). simpl.
        split; [all_false | auto].
      * rewrite (GetDescriptor_switch_overflow dev _ _ Hp Hbig). auto.
    + rewrite (GetDescriptor_switch_HidReport dev _ _ Hp). simpl.
      split; [all_false | auto].
    + rewrite (GetDescriptor_switch_Other dev _ _ _ Hp). simpl.
      split; [all_false | auto].
  - rewrite (Request_switch_SetConfiguration dev _ _ Hr). simpl.
    split; [all_false | auto].
  - rewrite (Request_switch_Other dev _ _ _ Hr). simpl.
    split; [all_false | auto].
Qed.

(** The receive branch, whatever it finds: no transmit-side effect, the
    register block untouched, and when it is entered and returns, the receive
    direction is Valid at the end. *)
Lemma ReceiveComplete_effects (s : State E) :
  match ReceiveComplete dev s with
  | Done _ s1 tr =>
      Forall (fun e => transmit_effect e = false) tr /\
      Regs s1 = Regs s /\
      (rx_flag s = true ->
       rearmed tr /\
       exists e, Ep0State s1 = SetRxStatus EndpointStatus.Valid e) /\
      (TempAddressStorage s1 = TempAddressStorage s \/
       exists tr0, tr = tr0 ++ [TempAddressStore (TempAddressStorage s1);
                                Ep0SendData [];
                                Ep0SetRxStatus EndpointStatus.Valid])
  | Fault tr =>
      Forall (fun e => transmit_effect e = false) tr /\
      (64 < length (cfg_FillDescriptor (_Configuration0 dev)))%nat
  end.
Proof.
  destruct (rx_flag s) eqn:Hrx.
  - destruct (setup_flag s) eqn:Hsetup.
    + assert (Hp : setup_pending s = true)
        by (unfold setup_pending; rewrite Hrx, Hsetup; reflexivity).
      rewrite (ReceiveComplete_setup dev s Hp).
      pose proof (Request_switch_effects (received_setup s) (acked s)) as Hsw.
      destruct (Request_switch dev (received_setup s) (acked s)) as [[] s1 tr | tr].
      * destruct Hsw as (Hno & Hregs & Htemp).
        split; [| split; [| split]].
        -- unfold rx_prologue. repeat (constructor; [reflexivity |]).
           apply Forall_app. split; [exact Hno | all_false].
        -- exact Hregs.
        -- intros _. split.
           ++ exists (rx_prologue s ++ tr). rewrite <- app_assoc. reflexivity.
           ++ exists (Ep0State s1). reflexivity.
        -- destruct Htemp as [Htemp | Htemp]; [left; exact Htemp | right].
           exists (rx_prologue s). rewrite Htemp. reflexivity.
      * destruct Hsw as (-> & Hbig). split; [| exact Hbig].
        unfold rx_prologue. all_false.
    + rewrite (ReceiveComplete_data dev s Hrx Hsetup).
      split; [| split; [| split]].
      * unfold rx_prologue. all_false.
      * reflexivity.
      * intros _. split.
        -- exists (rx_prologue s). reflexivity.
        -- exists (ClearCtrRx (Ep0State s)). reflexivity.
      * left. reflexivity.
  - rewrite (ReceiveComplete_idle dev s Hrx).
    split; [all_false | split; [reflexivity | split; [discriminate | left; reflexivity]]].
Qed.

(** The transmit branch always returns, has no receive-side effect, and when
    it is entered it clears [TempAddressStorage] and ends with the receive
    direction Valid. *)
Lemma TransmitComplete_effects (s : State E) :
  exists s2 tr,
    TransmitComplete s = Done tt s2 tr /\
    Forall (fun e => receive_effect e = false) tr /\
    (tx_flag s = true ->
     TempAddressStorage s2 = 0 /\
     rearmed tr /\
     Ep0State s2 = SetRxStatus EndpointStatus.Valid (ClearCtrTx (Ep0State s))) /\
    (tx_flag s = false -> s2 = s /\ tr = [Ep0RegGet (Reg_Get (Ep0State s))]).
Proof.
  destruct (tx_flag s) eqn:Htx.
  - destruct (Z.eq_dec (TempAddressStorage s) 0) as [Ht | Ht].
    + rewrite (TransmitComplete_no_pending s Htx Ht).
      do 2 eexists. split; [reflexivity |].
      split; [all_false | split; [| discriminate]].
      intros _. split; [reflexivity | split; [| reflexivity]].
      exists [Ep0RegGet (Reg_Get (Ep0State s)); Ep0ClearCtrTx]. reflexivity.
    + rewrite (TransmitComplete_commit s Htx Ht).
      do 2 eexists. split; [reflexivity |].
      split; [all_false | split; [| discriminate]].
      intros _. split; [reflexivity | split; [| reflexivity]].
      eexists [_; _; _; _]. reflexivity.
  - rewrite (TransmitComplete_idle s Htx).
    do 2 eexists. split; [reflexivity |].
    split; [all_false | split; [discriminate | auto]].
Qed.

End Effects.

Lemma no_receive_effect_responses (tr : list Event) :
  Forall (fun e => receive_effect e = false) tr ->
  responses tr = [] /\ tx_statuses tr = [].
Proof.
  induction 1 as [| e tr He _ [IH1 IH2]]; [split; reflexivity |].
  unfold responses, tx_statuses in *. simpl. rewrite IH1, IH2.
  destruct e; try discriminate He; split; reflexivity.
Qed.

Section HandlerRuns.

Context {H : DeviceHeader} {E : Type} {Ep0 : Endpoint0 E}.
Variable dev : DeviceParameters.

(** Once the receive branch has returned, [Handler] returns: the transmit
    branch runs on the state the receive branch left. *)
Lemma Handler_after_receive (s s1 : State E) (tr1 : list Event) :
  ReceiveComplete dev s = Done tt s1 tr1 ->
  exists s2 tr2,
    TransmitComplete s1 = Done tt s2 tr2 /\
    Handler dev s = Done tt s2 (tr1 ++ tr2) /\
    Forall (fun e => receive_effect e = false) tr2.
Proof.
  intros Hrx.
  destruct (TransmitComplete_effects s1) as (s2 & tr2 & Htx & Hno & _).
  exists s2, tr2. split; [exact Htx | split; [| exact Hno]].
  rewrite Handler_unfold, Hrx, Htx. reflexivity.
Qed.

(** [Handler] on a SETUP request whose case of the switch returns. *)
Lemma Handler_setup (s s1 : State E) (tr : list Event) :
  setup_pending s = true ->
  Request_switch dev (received_setup s) (acked s) = Done tt s1 tr ->
  ReceiveComplete dev s =
    Done tt (rearm s1) (rx_prologue s ++ tr ++ [Ep0SetRxStatus EndpointStatus.Valid]) /\
  exists s2 tr2,
    Handler dev s =
      Done tt s2 ((rx_prologue s ++ tr ++ [Ep0SetRxStatus EndpointStatus.Valid]) ++ tr2) /\
    TransmitComplete (rearm s1) = Done tt s2 tr2 /\
    responses (trace (Handler dev s)) = responses tr /\
    tx_statuses (trace (Handler dev s)) = tx_statuses tr.
Proof.
  intros Hp Hsw.
  assert (Hrx : ReceiveComplete dev s =
                Done tt (rearm s1)
                     (rx_prologue s ++ tr ++ [Ep0SetRxStatus EndpointStatus.Valid]))
    by (rewrite (ReceiveComplete_setup dev s Hp), Hsw; reflexivity).
  split; [exact Hrx |].
  destruct (Handler_after_receive _ _ _ Hrx) as (s2 & tr2 & Htx & Hh & Hno).
  exists s2, tr2. split; [exact Hh | split; [exact Htx |]].
  rewrite Hh. unfold trace.
  destruct (no_receive_effect_responses tr2 Hno) as [Hr2 Ht2].
  rewrite !responses_app, !tx_statuses_app, Hr2, Ht2.
  unfold rx_prologue. simpl. rewrite !app_nil_r. split; reflexivity.
Qed.

End HandlerRuns.

Lemma in_u8_spec (v : Z) : in_u8 v = true -> 0 <= v < 256.
Proof. unfold in_u8. intros Hv. apply andb_true_iff in Hv. lia. Qed.

Lemma in_u16_spec (v : Z) : in_u16 v = true -> 0 <= v < 65536.
Proof. unfold in_u16. intros Hv. apply andb_true_iff in Hv. lia. Qed.

(** ** Descriptor requests *)

Section Descriptors.

Context {H : DeviceHeader} {E : Type} {Ep0 : Endpoint0 E}.
Variable dev : DeviceParameters.

Lemma template_arguments_in_range_spec :
  template_arguments_in_range dev = true ->
  0 <= _UsbVersion dev < 65536 /\ 0 <= _Class dev < 256 /\
  0 <= _SubClass dev < 256 /\ 0 <= _Protocol dev < 256 /\
  0 <= MaxPacketSize < 256 /\
  0 <= _VendorId dev < 65536 /\ 0 <= _ProductId dev < 65536 /\
  0 <= _DeviceReleaseNumber dev < 65536 /\
  0 <= Z.of_nat (length (_Configurations dev)) < 256.
Proof.
  unfold template_arguments_in_range. intros Hr.
  rewrite !andb_true_iff in Hr.
  destruct Hr as ((((((((H1 & H2) & H3) & H4) & H5) & H6) & H7) & H8) & H9).
  repeat split; first [apply in_u16_spec; assumption | apply in_u8_spec; assumption].
Qed.

(** The bytes [FillDescriptor] leaves in the packed record, for template
    arguments that are values of their types. *)
Lemma FillDescriptor_bytes :
  template_arguments_in_range dev = true ->
  DeviceDescriptor.bytes (FillDescriptor dev) =
  [18; DescriptorType_Device;
   _UsbVersion dev mod 256; _UsbVersion dev / 256;
   _Class dev; _SubClass dev; _Protocol dev; MaxPacketSize;
   _VendorId dev mod 256; _VendorId dev / 256;
   _ProductId dev mod 256; _ProductId dev / 256;
   _DeviceReleaseNumber dev mod 256; _DeviceReleaseNumber dev / 256;
   0; 0; 0;
   Z.of_nat (length (_Configurations dev))].
Proof.
  intros Hr. apply template_arguments_in_range_spec in Hr.
  destruct Hr as (H1 & H2 & H3 & H4 & H5 & H6 & H7 & H8 & H9).
  unfold DeviceDescriptor.bytes, FillDescriptor. cbn [DeviceDescriptor.Length
    DeviceDescriptor.Type_ DeviceDescriptor.UsbVersion DeviceDescriptor.Class
    DeviceDescriptor.SubClass DeviceDescriptor.Protocol DeviceDescriptor.MaxPacketSize
    DeviceDescriptor.VendorId DeviceDescriptor.ProductId
    DeviceDescriptor.DeviceReleaseNumber DeviceDescriptor.ManufacturerStringIndex
    DeviceDescriptor.ProductStringIndex DeviceDescriptor.SerialNumberStringIndex
    DeviceDescriptor.ConfigurationsCount].
  rewrite !le16_u16 by assumption.
  rewrite !u8_small by assumption.
  reflexivity.
Qed.

(** C2. A GetDescriptor(Device) request with requested length L: the receive
    branch hands the writer exactly one packet, the first min(L, 18) bytes of
    the 18-byte packed device descriptor, re-arms the receive direction and
    touches nothing else: not the register block, not [TempAddressStorage],
    not the transmit status; [Handler] returns after its transmit branch,
    which sends nothing more.  The descriptor holds the configured fields at
    their offsets: the 16-bit fields low byte first (the pairs at offsets 8-9
    and 10-11 recombine to VendorId and ProductId), the three string indexes
    zero, and the number of declared configurations in the last byte. *)
Theorem GetDescriptor_Device_response (s : State E) :
  template_arguments_in_range dev = true ->
  setup_pending s = true ->
  SetupPacket.Request (received_setup s) = StandartRequestCode.GetDescriptor ->
  DescriptorParameter_of (SetupPacket.Value (received_setup s))
    = GetDescriptorParameter.DeviceDescriptor ->
  let L := SetupPacket.Length (received_setup s) in
  let descriptor :=
    [18; DescriptorType_Device;
     _UsbVersion dev mod 256; _UsbVersion dev / 256;
     _Class dev; _SubClass dev; _Protocol dev; MaxPacketSize;
     _VendorId dev mod 256; _VendorId dev / 256;
     _ProductId dev mod 256; _ProductId dev / 256;
     _DeviceReleaseNumber dev mod 256; _DeviceReleaseNumber dev / 256;
     0; 0; 0;
     Z.of_nat (length (_Configurations dev))] in
  let response := firstn (Z.to_nat (Z.min L 18)) descriptor in
  let s1 := mkState (Regs s) (TempAddressStorage s)
                    (SetRxStatus EndpointStatus.Valid
                       (Writer_SendData response (ClearCtrRx (Ep0State s)))) in
  let tr1 := rx_prologue s ++ [Ep0SendData response;
                               Ep0SetRxStatus EndpointStatus.Valid] in
  ReceiveComplete dev s = Done tt s1 tr1 /\
  (exists s2 tr2,
     TransmitComplete s1 = Done tt s2 tr2 /\
     Handler dev s = Done tt s2 (tr1 ++ tr2) /\
     responses (tr1 ++ tr2) = [response] /\
     tx_statuses (tr1 ++ tr2) = []) /\
  Z.of_nat (length response) = Z.min L 18 /\
  (18 <= L -> response = descriptor) /\
  _VendorId dev mod 256 + 256 * (_VendorId dev / 256) = _VendorId dev /\
  _ProductId dev mod 256 + 256 * (_ProductId dev / 256) = _ProductId dev.
Proof.
  intros Hrange Hp Hreq Hsel L descriptor response s1 tr1.
  pose proof (FillDescriptor_bytes Hrange) as Hbytes.
  fold descriptor in Hbytes.
  assert (Hsw : Request_switch dev (received_setup s) (acked s) =
                Done tt (mkState (Regs (acked s)) (TempAddressStorage (acked s))
                                 (Writer_SendData response (Ep0State (acked s))))
                     [Ep0SendData response]).
  { rewrite (Request_switch_GetDescriptor dev _ _ Hreq).
    rewrite (GetDescriptor_switch_Device dev _ _ Hsel).
    rewrite Hbytes. reflexivity. }
  destruct (Handler_setup dev s _ _ Hp Hsw) as (Hrx & s2 & tr2 & Hh & Htx & Hresp & Hst).
  split; [exact Hrx | split; [| split; [| split; [| split]]]].
  - exists s2, tr2. split; [exact Htx | split; [exact Hh |]].
    rewrite Hh in Hresp, Hst. simpl trace in Hresp, Hst.
    split; [exact Hresp | exact Hst].
  - pose proof (word_at_range (RxBuffer (ClearCtrRx (Ep0State s))) 6) as Hl.
    assert (HL : 0 <= L) by (unfold L, received_setup, setup_of; simpl; lia).
    unfold response. rewrite length_firstn_min by lia.
    unfold descriptor. simpl length. lia.
  - intros HL. unfold response. rewrite Z.min_r by lia. reflexivity.
  - apply le16_value. apply (template_arguments_in_range_spec Hrange).
  - apply le16_value. apply (template_arguments_in_range_spec Hrange).
Qed.


(** C4. A GetDescriptor request whose selector is none of Device,
    Configuration and HID report: the receive branch sets the transmit
    direction of endpoint 0 to Stall, hands nothing to the writer, and then
    sets the receive direction to Valid before it ends. *)
Theorem GetDescriptor_unsupported_stalls (s : State E) (v : Z) :
  setup_pending s = true ->
  SetupPacket.Request (received_setup s) = StandartRequestCode.GetDescriptor ->
  DescriptorParameter_of (SetupPacket.Value (received_setup s))
    = GetDescriptorParameter.Other v ->
  let tr1 := rx_prologue s ++ [Ep0SetTxStatus EndpointStatus.Stall;
                               Ep0SetRxStatus EndpointStatus.Valid] in
  ReceiveComplete dev s =
    Done tt (mkState (Regs s) (TempAddressStorage s)
                     (SetRxStatus EndpointStatus.Valid
                        (SetTxStatus EndpointStatus.Stall (ClearCtrRx (Ep0State s)))))
         tr1 /\
  exists s2 tr2,
    Handler dev s = Done tt s2 (tr1 ++ tr2) /\
    responses (tr1 ++ tr2) = [] /\
    tx_statuses (tr1 ++ tr2) = [EndpointStatus.Stall] /\
    precedes (Ep0SetTxStatus EndpointStatus.Stall)
             (Ep0SetRxStatus EndpointStatus.Valid) (tr1 ++ tr2).
Proof.
  intros Hp Hreq Hsel tr1.
  assert (Hsw := Request_switch_GetDescriptor dev _ (acked s) Hreq).
  rewrite (GetDescriptor_switch_Other dev _ _ _ Hsel) in Hsw.
  destruct (Handler_setup dev s _ _ Hp Hsw) as (Hrx & s2 & tr2 & Hh & _ & Hresp & Hst).
  split; [exact Hrx |].
  exists s2, tr2. split; [exact Hh |].
  rewrite Hh in Hresp, Hst. simpl trace in Hresp, Hst.
  split; [exact Hresp | split; [exact Hst |]].
  exists (rx_prologue s), [], tr2. reflexivity.
Qed.

End Descriptors.

(** ** SetConfiguration *)

Section Configuration.

Context {H : DeviceHeader} {E : Type} {Ep0 : Endpoint0 E}.
Variable dev : DeviceParameters.

(** C3, as the code runs it.  On a SetConfiguration request the handler hands
    the writer the zero-length acknowledgment and then, the case having no
    [break], runs on into [default] and sets the transmit direction to Stall
    before it re-arms the receive direction. *)
Theorem SetConfiguration_runs_into_stall (s : State E) :
  setup_pending s = true ->
  SetupPacket.Request (received_setup s) = StandartRequestCode.SetConfiguration ->
  let tr1 := rx_prologue s ++ [Ep0SendData [];
                               Ep0SetTxStatus EndpointStatus.Stall;
                               Ep0SetRxStatus EndpointStatus.Valid] in
  ReceiveComplete dev s =
    Done tt (mkState (Regs s) (TempAddressStorage s)
                     (SetRxStatus EndpointStatus.Valid
                        (SetTxStatus EndpointStatus.Stall
                           (Writer_SendData [] (ClearCtrRx (Ep0State s))))))
         tr1 /\
  exists s2 tr2,
    Handler dev s = Done tt s2 (tr1 ++ tr2) /\
    responses (tr1 ++ tr2) = [[]] /\
    tx_statuses (tr1 ++ tr2) = [EndpointStatus.Stall].
Proof.
  intros Hp Hreq tr1.
  assert (Hsw := Request_switch_SetConfiguration dev _ (acked s) Hreq).
  destruct (Handler_setup dev s _ _ Hp Hsw) as (Hrx & s2 & tr2 & Hh & _ & Hresp & Hst).
  split; [exact Hrx |].
  exists s2, tr2. split; [exact Hh |].
  rewrite Hh in Hresp, Hst. simpl trace in Hresp, Hst.
  split; [exact Hresp | exact Hst].
Qed.

End Configuration.

(** ** Sequencing *)

(** What a sequence records starts with what its first part records. *)
Lemma trace_bind {S A B} (m : M S A) (k : A -> M S B) (s : S) :
  trace (bind m k s) =
  trace (m s) ++ match m s with
                 | Done a s1 _ => trace (k a s1)
                 | Fault _ => []
                 end.
Proof.
  unfold bind. destruct (m s) as [a s1 tr1 | tr1]; simpl.
  - destruct (k a s1); reflexivity.
  - rewrite app_nil_r. reflexivity.
Qed.

Lemma land_lor_l (a b : Z) : Z.land (Z.lor a b) a = a.
Proof.
  apply Z.bits_inj'. intros n _.
  rewrite Z.land_spec, Z.lor_spec.
  destruct (Z.testbit a n), (Z.testbit b n); reflexivity.
Qed.

Lemma land_lor_r (a b : Z) : Z.land (Z.lor a b) b = b.
Proof. rewrite Z.lor_comm. apply land_lor_l. Qed.

(** ** Bus reset and the order of the checks *)

Section ResetAndOrder.

Context {H : DeviceHeader} {E : Type} {Ep0 : Endpoint0 E}.
Variable dev : DeviceParameters.

Lemma Configurations_Reset_run (cs : list Configuration) (i : nat) (s : State E) :
  Configurations_Reset i cs s = Done tt s (map ConfigurationReset (seq i (length cs))).
Proof.
  revert i. induction cs as [| c cs IH]; intros i; simpl.
  - reflexivity.
  - unfold bind, emit. rewrite IH. reflexivity.
Qed.

Lemma Reset_run (s : State E) :
  Reset dev s =
  Done tt
       (mkState (mkRegs (Z.lor USB_CNTR_CTRM USB_CNTR_RESETM) 0 0 USB_DADDR_EF)
                (TempAddressStorage s) (Ep0_Reset (Ep0State s)))
       ([RegWrite CNTR (Z.lor USB_CNTR_CTRM USB_CNTR_RESETM); RegWrite ISTR 0; Ep0Reset]
        ++ map ConfigurationReset (seq 0 (length (_Configurations dev)))
        ++ [RegWrite BTABLE 0; RegWrite DADDR USB_DADDR_EF]).
Proof.
  unfold Reset, bind, reg_write, ep0_call.
  rewrite Configurations_Reset_run. reflexivity.
Qed.

Lemma Reset_no_ISTR_read (s : State E) :
  Forall (fun e => is_ISTR_read e = false) (trace (Reset dev s)).
Proof.
  rewrite Reset_run. simpl trace.
  repeat (constructor; [reflexivity |]).
  apply Forall_app. split; [| repeat constructor].
  apply Forall_forall. intros e He.
  apply in_map_iff in He. destruct He as (i & <- & _). reflexivity.
Qed.

(** C7. On a bus reset, [Reset] sets the interrupt mask to the baseline
    (transfer-complete and reset interrupts, nothing else) and zeroes the
    status register, then resets endpoint 0 and every declared configuration,
    in declaration order, and only then sets the buffer table base and writes
    DADDR with the enable flag alone: the device answers at address 0.
    [CommonHandler] runs exactly this when the status register flags a
    reset. *)
Theorem Reset_reactivates_at_address_0 (s : State E) :
  Z.land USB_DADDR_EF USB_DADDR_ADD = 0 ->
  let n := length (_Configurations dev) in
  let baseline := Z.lor USB_CNTR_CTRM USB_CNTR_RESETM in
  let tr := [RegWrite CNTR baseline; RegWrite ISTR 0; Ep0Reset]
            ++ map ConfigurationReset (seq 0 n)
            ++ [RegWrite BTABLE 0; RegWrite DADDR USB_DADDR_EF] in
  exists s',
    Reset dev s = Done tt s' tr /\
    Regs s' = mkRegs baseline 0 0 USB_DADDR_EF /\
    Z.land baseline USB_CNTR_CTRM = USB_CNTR_CTRM /\
    Z.land baseline USB_CNTR_RESETM = USB_CNTR_RESETM /\
    device_address s' = 0 /\
    Ep0State s' = Ep0_Reset (Ep0State s) /\
    writes_to DADDR tr = [USB_DADDR_EF] /\
    precedes Ep0Reset (RegWrite DADDR USB_DADDR_EF) tr /\
    (forall i, (i < n)%nat ->
               precedes (ConfigurationReset i) (RegWrite DADDR USB_DADDR_EF) tr) /\
    (truthy (Z.land (r_ISTR (Regs s)) USB_ISTR_RESET) = true ->
     exists rest,
       trace (CommonHandler dev s) = RegRead ISTR (r_ISTR (Regs s)) :: tr ++ rest).
Proof.
  intros Hef n baseline tr.
  eexists. split; [apply Reset_run |].
  split; [reflexivity |].
  split; [apply land_lor_l |].
  split; [apply land_lor_r |].
  split; [unfold device_address; simpl; exact Hef |].
  split; [reflexivity |].
  split; [| split; [| split]].
  - unfold tr. rewrite !writes_to_app.
    replace (writes_to DADDR (map ConfigurationReset (seq 0 n))) with (@nil Z).
    + reflexivity.
    + generalize (seq 0 n). intros l. induction l as [| i l IH]; [reflexivity |].
      simpl. exact IH.
  - unfold tr. rewrite app_assoc. apply precedes_app_r.
    + apply in_or_app. left. right. right. left. reflexivity.
    + right. left. reflexivity.
  - intros i Hi. unfold tr. rewrite app_assoc. apply precedes_app_r.
    + apply in_or_app. right. apply in_map. apply in_seq. lia.
    + right. left. reflexivity.
  - intros Hreset.
    unfold CommonHandler. rewrite trace_bind. unfold reg_read at 1 2. simpl.
    rewrite Hreset. rewrite trace_bind. unfold when at 1 2.
    rewrite Reset_run. simpl trace. fold n. fold baseline. fold tr.
    eexists. reflexivity.
Qed.

(** C6. In one run of [CommonHandler] the status register is first read for
    the reset check; what [Reset] does, when the check fires, is recorded next
    and reads the status register nowhere; the read for the transfer-complete
    check comes after, and the dispatch (the reads of the endpoint number and
    of the direction and the endpoint handler) after that read, when it flags
    a completed transfer.  In one run of
    [Handler] the trace is what the receive branch records followed by what
    the transmit branch records: no acknowledgment of a transmission and no
    write of DADDR comes before an acknowledgment of a reception, a packet
    handed to the writer or a change of the transmit status. *)
Theorem reset_before_transfer_and_receive_before_transmit (s : State E) :
  (exists tr_reset v tr_rest,
     trace (CommonHandler dev s) =
       RegRead ISTR (r_ISTR (Regs s)) :: tr_reset ++ RegRead ISTR v :: tr_rest /\
     tr_reset = (if truthy (Z.land (r_ISTR (Regs s)) USB_ISTR_RESET)
                 then trace (Reset dev s) else []) /\
     Forall (fun e => is_ISTR_read e = false) tr_reset /\
     (truthy (Z.land v USB_ISTR_CTR) = false -> tr_rest = [ClearPendingIRQ]) /\
     (truthy (Z.land v USB_ISTR_CTR) = true ->
      exists tr_handle,
        tr_rest = RegRead ISTR v :: Pc7Toggle :: RegRead ISTR v :: tr_handle)) /\
  (exists tr_rx tr_tx,
     trace (Handler dev s) = tr_rx ++ tr_tx /\
     tr_rx = trace (ReceiveComplete dev s) /\
     Forall (fun e => transmit_effect e = false) tr_rx /\
     Forall (fun e => receive_effect e = false) tr_tx /\
     forall e_tx e_rx,
       transmit_effect e_tx = true -> receive_effect e_rx = true ->
       ~ precedes e_tx e_rx (trace (Handler dev s))).
Proof.
  split.
  - unfold CommonHandler. rewrite trace_bind. unfold reg_read at 1 2. simpl.
    rewrite trace_bind.
    destruct (truthy (Z.land (r_ISTR (Regs s)) USB_ISTR_RESET)) eqn:Hreset;
      unfold when at 1 2.
    + pose proof (Reset_no_ISTR_read s) as Hno.
      rewrite Reset_run in *. simpl trace in *.
      eexists _, 0, _.
      split; [reflexivity | split; [reflexivity | split; [exact Hno |]]].
      split; [reflexivity | discriminate].
    + unfold ret. simpl.
      rewrite trace_bind. unfold reg_read at 1 2. simpl trace.
      exists [], (r_ISTR (Regs s)). eexists.
      split; [reflexivity | split; [reflexivity | split; [constructor |]]].
      split; intros Hctr; rewrite trace_bind; simpl; rewrite Hctr; unfold when.
      * reflexivity.
      * rewrite trace_bind. unfold reg_read at 1 2. simpl trace.
        rewrite trace_bind. unfold emit at 1 2. simpl trace.
        rewrite trace_bind. unfold reg_read at 1 2. simpl trace.
        eexists. simpl. reflexivity.
  - assert (Hsplit : exists tr_tx,
               trace (Handler dev s) = trace (ReceiveComplete dev s) ++ tr_tx /\
               Forall (fun e => receive_effect e = false) tr_tx).
    { rewrite Handler_unfold.
      destruct (ReceiveComplete dev s) as [[] s1 tr1 | tr1] eqn:Hrx.
      - destruct (TransmitComplete_effects s1) as (s2 & tr2 & Htx & Hno & _).
        rewrite Htx. exists tr2. split; [reflexivity | exact Hno].
      - exists []. split; [simpl; rewrite app_nil_r; reflexivity | constructor]. }
    destruct Hsplit as (tr_tx & Heq & Hno_rx).
    assert (Hno_tx : Forall (fun e => transmit_effect e = false)
                            (trace (ReceiveComplete dev s))).
    { pose proof (ReceiveComplete_effects dev s) as Heff.
      destruct (ReceiveComplete dev s) as [[] s1 tr1 | tr1]; simpl; apply Heff. }
    exists (trace (ReceiveComplete dev s)), tr_tx.
    split; [exact Heq | split; [reflexivity | split; [exact Hno_tx | split; [exact Hno_rx |]]]].
    intros e_tx e_rx Htx Hrx. rewrite Heq.
    apply (split_no_precedes transmit_effect receive_effect); assumption.
Qed.


End ResetAndOrder.

(** ** Deferred assignment of the device address *)

Lemma land_field (ef add t : Z) :
  Z.land ef add = 0 -> Z.land (Z.lor ef (Z.land t add)) add = Z.land t add.
Proof.
  intros Hef.
  rewrite Z.land_lor_distr_l, Hef, Z.lor_0_l.
  rewrite <- Z.land_assoc, Z.land_diag. reflexivity.
Qed.

Lemma land_127 (t : Z) : Z.land t 127 = t mod 128.
Proof. change 127 with (Z.ones 7). rewrite Z.land_ones by lia. reflexivity. Qed.

Lemma mod_256_128 (v : Z) : (v mod 256) mod 128 = v mod 128.
Proof.
  apply Z.mod_mod_divide. exists 2. reflexivity.
Qed.

Lemma lor_field (ef t : Z) : 0 <= t <= 127 -> Z.land ef 127 = 0 ->
  Z.lor ef (Z.land t 127) = Z.lor ef t.
Proof.
  intros Ht _. rewrite land_127, Z.mod_small by lia. reflexivity.
Qed.

Lemma no_effect_no_ack (tr : list Event) :
  Forall (fun e => transmit_effect e = false) tr ->
  Forall (fun e => transmit_ack e = false) tr.
Proof.
  apply Forall_impl. intros e He. destruct e; try reflexivity; discriminate He.
Qed.

Lemma no_ack_configuration_resets (l : list nat) :
  Forall (fun e => transmit_ack e = false) (map ConfigurationReset l).
Proof. induction l; simpl; constructor; [reflexivity | assumption]. Qed.

Lemma window_extend (tr tr' : list Event) (t : Z) :
  pending_window tr t ->
  Forall (fun e => transmit_ack e = false) tr' ->
  pending_window (tr ++ tr') t.
Proof.
  intros [Hz | (tr1 & tr2 & -> & Hno)] Hno'; [left; exact Hz | right].
  exists tr1, (tr2 ++ tr'). split.
  - rewrite <- app_assoc. reflexivity.
  - apply Forall_app. split; assumption.
Qed.

Section DeferredAddress.

Context {H : DeviceHeader} {E : Type} {Ep0 : Endpoint0 E}.
Variable dev : DeviceParameters.

(** [Handler] when only a transmission completed. *)
Lemma Handler_transmit_only (s : State E) :
  rx_flag s = false ->
  Handler dev s =
  match TransmitComplete s with
  | Done _ s2 tr2 => Done tt s2 (Ep0RegGet (Reg_Get (Ep0State s)) :: tr2)
  | Fault tr2 => Fault (Ep0RegGet (Reg_Get (Ep0State s)) :: tr2)
  end.
Proof.
  intros Hrx. rewrite Handler_unfold, (ReceiveComplete_idle dev s Hrx).
  destruct (TransmitComplete s) as [[] s2 tr2 | tr2]; reflexivity.
Qed.

(** The dispatch of a SetAddress request. *)
Lemma ReceiveComplete_SetAddress (s : State E) :
  setup_pending s = true ->
  SetupPacket.Request (received_setup s) = StandartRequestCode.SetAddress ->
  ReceiveComplete dev s =
  Done tt (mkState (Regs s) (SetupPacket.Value (received_setup s) mod 256)
                   (SetRxStatus EndpointStatus.Valid
                      (Writer_SendData [] (ClearCtrRx (Ep0State s)))))
       (rx_prologue s ++
        [TempAddressStore (SetupPacket.Value (received_setup s) mod 256);
         Ep0SendData []; Ep0SetRxStatus EndpointStatus.Valid]).
Proof.
  intros Hp Hreq.
  rewrite (ReceiveComplete_setup dev s Hp).
  rewrite (Request_switch_SetAddress dev _ _ Hreq). reflexivity.
Qed.

(** One interrupt keeps [TempAddressStorage] inside its window. *)
Lemma Handler_window (s s' : State E) (tr0 tr : list Event) :
  pending_window tr0 (TempAddressStorage s) ->
  Handler dev s = Done tt s' tr ->
  pending_window (tr0 ++ tr) (TempAddressStorage s').
Proof.
  intros Hw Hh. rewrite Handler_unfold in Hh.
  pose proof (ReceiveComplete_effects dev s) as Heff.
  destruct (ReceiveComplete dev s) as [[] s1 tr1 | tr1]; [| discriminate].
  destruct Heff as (Hno1 & _ & _ & Htemp).
  destruct (TransmitComplete_effects s1) as (s2 & tr2 & Htx & _ & Hon & Hoff).
  rewrite Htx in Hh. injection Hh as <- <-.
  destruct (tx_flag s1) eqn:Hflag.
  - destruct (Hon eq_refl) as (Hz & _). left. exact Hz.
  - destruct (Hoff eq_refl) as (-> & ->).
    assert (Hw1 : pending_window (tr0 ++ tr1) (TempAddressStorage s1)).
    { destruct Htemp as [Heq | (pre & ->)].
      - rewrite Heq. apply window_extend; [assumption |].
        apply no_effect_no_ack. assumption.
      - right. exists (tr0 ++ pre), [Ep0SetRxStatus EndpointStatus.Valid].
        split; [rewrite <- app_assoc; reflexivity | repeat constructor]. }
    rewrite app_assoc. apply window_extend; [exact Hw1 | repeat constructor].
Qed.

(** One run of [CommonHandler] keeps [TempAddressStorage] inside its window:
    a bus reset and the handlers of the other endpoints leave it alone. *)
Lemma CommonHandler_window (s s' : State E) (tr0 tr : list Event) :
  pending_window tr0 (TempAddressStorage s) ->
  CommonHandler dev s = Done tt s' tr ->
  pending_window (tr0 ++ tr) (TempAddressStorage s').
Proof.
  intros Hw Hrun.
  unfold CommonHandler in Hrun. unfold bind at 1 in Hrun. unfold reg_read at 1 in Hrun.
  unfold bind at 1 in Hrun.
  destruct (truthy (Z.land (reg_get ISTR (Regs s)) USB_ISTR_RESET)) eqn:Hreset;
    unfold when at 1 in Hrun.
  - rewrite Reset_run in Hrun. simpl in Hrun.
    injection Hrun as <- <-.
    apply window_extend; [exact Hw |].
    repeat first [ apply Forall_nil
                 | apply Forall_cons; [reflexivity |]
                 | apply Forall_app; split
                 | apply no_ack_configuration_resets ].
  - unfold ret at 1 in Hrun. unfold bind at 1 in Hrun. unfold reg_read at 1 in Hrun.
    unfold bind at 1 in Hrun.
    destruct (truthy (Z.land (reg_get ISTR (Regs s)) USB_ISTR_CTR)) eqn:Hctr;
      unfold when at 1 in Hrun.
    + unfold bind at 1 in Hrun. unfold reg_read at 1 in Hrun.
      unfold bind at 1 in Hrun. unfold emit at 1 in Hrun.
      unfold bind at 1 in Hrun. unfold reg_read at 1 in Hrun.
      unfold EpHandlers_Handle in Hrun.
      destruct (u8 (Z.land (reg_get ISTR (Regs s)) USB_ISTR_EP_ID) =? 0).
      * destruct (Handler dev s) as [[] s1 tr1 | tr1] eqn:Hh; [| discriminate].
        simpl in Hrun. injection Hrun as <- <-.
        assert (Hw1 : pending_window
                        (tr0 ++ [RegRead ISTR (r_ISTR (Regs s)); RegRead ISTR (r_ISTR (Regs s));
                                 RegRead ISTR (r_ISTR (Regs s)); Pc7Toggle;
                                 RegRead ISTR (r_ISTR (Regs s))])
                        (TempAddressStorage s))
          by (apply window_extend; [exact Hw | repeat constructor]).
        pose proof (Handler_window s s1 _ tr1 Hw1 Hh) as Hw2.
        apply (window_extend _ [ClearPendingIRQ]) in Hw2; [| repeat constructor].
        repeat (rewrite <- app_assoc in Hw2; simpl in Hw2). exact Hw2.
      * destruct (registered dev _); [| discriminate Hrun].
        simpl in Hrun. injection Hrun as <- <-.
        apply window_extend; [exact Hw | repeat constructor].
    + simpl in Hrun. injection Hrun as <- <-.
      apply window_extend; [exact Hw | repeat constructor].
Qed.

(** However the interrupts follow one another, [TempAddressStorage] stays
    inside its window. *)
Lemma serve_window (irqs : list (Z * E)) (s s' : State E) (tr0 tr : list Event) :
  pending_window tr0 (TempAddressStorage s) ->
  serve dev irqs s = Done tt s' tr ->
  pending_window (tr0 ++ tr) (TempAddressStorage s').
Proof.
  revert s tr0 tr. induction irqs as [| [istr e] rest IH]; intros s tr0 tr Hw Hrun.
  - simpl in Hrun. injection Hrun as <- <-. rewrite app_nil_r. exact Hw.
  - simpl in Hrun. unfold bind in Hrun.
    destruct (CommonHandler dev (interrupt istr e s)) as [[] s1 tr1 | tr1] eqn:Hh;
      [| discriminate].
    destruct (serve dev rest s1) as [[] s2 tr2 | tr2] eqn:Hrest; [| discriminate].
    injection Hrun as <- <-.
    rewrite app_assoc. apply (IH s1); [| exact Hrest].
    apply (CommonHandler_window (interrupt istr e s)); [exact Hw | exact Hh].
Qed.

(** [Handler] has no defined outcome only when the first configuration
    composes more than the scratch buffer holds; [CommonHandler] and a
    sequence of interrupts only then or when the hardware reports a transfer
    on an endpoint outside the registered set. *)
Lemma Handler_fault (s : State E) (tr : list Event) :
  Handler dev s = Fault tr ->
  (64 < length (cfg_FillDescriptor (_Configuration0 dev)))%nat.
Proof.
  intros Hh. rewrite Handler_unfold in Hh.
  pose proof (ReceiveComplete_effects dev s) as Heff.
  destruct (ReceiveComplete dev s) as [[] s1 tr1 | tr1].
  - destruct (TransmitComplete_effects s1) as (s2 & tr2 & Htx & _).
    rewrite Htx in Hh. discriminate Hh.
  - apply Heff.
Qed.

Lemma CommonHandler_fault (s : State E) (tr : list Event) :
  CommonHandler dev s = Fault tr ->
  (64 < length (cfg_FillDescriptor (_Configuration0 dev)))%nat \/
  well_reported dev (r_ISTR (Regs s)) = false.
Proof.
  intros Hrun.
  unfold CommonHandler in Hrun. unfold bind at 1 in Hrun. unfold reg_read at 1 in Hrun.
  unfold bind at 1 in Hrun.
  destruct (truthy (Z.land (reg_get ISTR (Regs s)) USB_ISTR_RESET)) eqn:Hreset;
    unfold when at 1 in Hrun.
  - rewrite Reset_run in Hrun. simpl in Hrun. discriminate Hrun.
  - unfold ret at 1 in Hrun. unfold bind at 1 in Hrun. unfold reg_read at 1 in Hrun.
    unfold bind at 1 in Hrun.
    destruct (truthy (Z.land (reg_get ISTR (Regs s)) USB_ISTR_CTR)) eqn:Hctr;
      unfold when at 1 in Hrun.
    + unfold bind at 1 in Hrun. unfold reg_read at 1 in Hrun.
      unfold bind at 1 in Hrun. unfold emit at 1 in Hrun.
      unfold bind at 1 in Hrun. unfold reg_read at 1 in Hrun.
      unfold EpHandlers_Handle in Hrun.
      destruct (u8 (Z.land (reg_get ISTR (Regs s)) USB_ISTR_EP_ID) =? 0) eqn:Hep.
      * destruct (Handler dev s) as [[] s1 tr1 | tr1] eqn:Hh.
        -- simpl in Hrun. discriminate Hrun.
        -- left. apply (Handler_fault s tr1 Hh).
      * destruct (registered dev _) eqn:Hreg.
        -- simpl in Hrun. discriminate Hrun.
        -- right. unfold well_reported, reported_endpoint.
           change (r_ISTR (Regs s)) with (reg_get ISTR (Regs s)).
           rewrite Hctr, Hep, Hreg. reflexivity.
    + simpl in Hrun. discriminate Hrun.
Qed.

Lemma serve_fault (irqs : list (Z * E)) (s : State E) (tr : list Event) :
  serve dev irqs s = Fault tr ->
  (64 < length (cfg_FillDescriptor (_Configuration0 dev)))%nat \/
  Exists (fun irq => well_reported dev (fst irq) = false) irqs.
Proof.
  revert s tr. induction irqs as [| [istr e] rest IH]; intros s tr Hrun.
  - discriminate Hrun.
  - simpl in Hrun. unfold bind in Hrun.
    destruct (CommonHandler dev (interrupt istr e s)) as [[] s1 tr1 | tr1] eqn:Hh.
    + destruct (serve dev rest s1) as [[] s2 tr2 | tr2] eqn:Hrest; [discriminate |].
      destruct (IH s1 tr2 Hrest) as [Hbig | Hex]; [left; exact Hbig | right].
      apply Exists_cons_tl. exact Hex.
    + destruct (CommonHandler_fault _ _ Hh) as [Hbig | Hbad]; [left; exact Hbig | right].
      apply Exists_cons_hd. exact Hbad.
Qed.

(** C8. [TempAddressStorage] is a byte: the dispatch of SetAddress keeps the
    16-bit value field modulo 256.  At the completion of the status stage the
    stored byte is masked with the address field before it is written to
    DADDR under the enable flag; with a 7-bit address field the device then
    answers at the requested value modulo 128, which for a requested address
    from 1 to 127 is the request itself. *)
Theorem SetAddress_byte_then_7_bits (s : State E) (v : Z) :
  USB_DADDR_ADD = 127 ->
  Z.land USB_DADDR_EF USB_DADDR_ADD = 0 ->
  setup_pending s = true ->
  SetupPacket.Request (received_setup s) = StandartRequestCode.SetAddress ->
  SetupPacket.Value (received_setup s) = v ->
  exists s1 tr1,
    ReceiveComplete dev s = Done tt s1 tr1 /\
    TempAddressStorage s1 = v mod 256 /\
    forall e2,
      rx_flag (hardware e2 s1) = false -> tx_flag (hardware e2 s1) = true ->
      v mod 256 <> 0 ->
      exists s2 tr2,
        Handler dev (hardware e2 s1) = Done tt s2 tr2 /\
        r_DADDR (Regs s2) = Z.lor USB_DADDR_EF (Z.land (v mod 256) USB_DADDR_ADD) /\
        device_address s2 = v mod 128 /\
        (1 <= v <= 127 -> device_address s2 = v).
Proof.
  intros Hadd Hef Hp Hreq Hv.
  pose proof (ReceiveComplete_SetAddress s Hp Hreq) as Hrx. rewrite Hv in Hrx.
  eexists _, _. split; [exact Hrx | split; [reflexivity |]].
  intros e2 Hrx2 Htx2 Hnz.
  rewrite (Handler_transmit_only _ Hrx2).
  rewrite (TransmitComplete_commit _ Htx2) by exact Hnz.
  eexists _, _. split; [reflexivity |].
  cbn [hardware TempAddressStorage Regs reg_set r_DADDR].
  split; [reflexivity |].
  assert (Hfield : Z.land (Z.lor USB_DADDR_EF (Z.land (v mod 256) USB_DADDR_ADD))
                          USB_DADDR_ADD = v mod 128).
  { rewrite (land_field _ _ _ Hef), Hadd, land_127. apply mod_256_128. }
  unfold device_address. cbn [Regs r_DADDR].
  split; [exact Hfield |].
  intros Hrange. rewrite Hfield. apply Z.mod_small. lia.
Qed.

(** C9. SetAddress with address 0 is acknowledged with the zero-length packet
    and nothing else; it leaves [TempAddressStorage] at zero, so that the
    completion of its status stage does not write DADDR: the register keeps
    the value it had before the request. *)
Theorem SetAddress_zero_not_committed (s : State E) :
  setup_pending s = true ->
  SetupPacket.Request (received_setup s) = StandartRequestCode.SetAddress ->
  SetupPacket.Value (received_setup s) = 0 ->
  exists s1 tr1,
    ReceiveComplete dev s = Done tt s1 tr1 /\
    responses tr1 = [[]] /\
    tx_statuses tr1 = [] /\
    TempAddressStorage s1 = 0 /\
    Regs s1 = Regs s /\
    forall e2,
      rx_flag (hardware e2 s1) = false -> tx_flag (hardware e2 s1) = true ->
      exists s2 tr2,
        Handler dev (hardware e2 s1) = Done tt s2 tr2 /\
        writes_to DADDR tr2 = [] /\
        r_DADDR (Regs s2) = r_DADDR (Regs s).
Proof.
  intros Hp Hreq Hv.
  pose proof (ReceiveComplete_SetAddress s Hp Hreq) as Hrx. rewrite Hv in Hrx.
  change (0 mod 256) with 0 in Hrx.
  eexists _, _. split; [exact Hrx |].
  split; [reflexivity | split; [reflexivity | split; [reflexivity | split; [reflexivity |]]]].
  intros e2 Hrx2 Htx2.
  rewrite (Handler_transmit_only _ Hrx2).
  rewrite (TransmitComplete_no_pending _ Htx2) by reflexivity.
  eexists _, _. split; [reflexivity | split; reflexivity].
Qed.

(** The receive branch writes nothing to DADDR. *)
Lemma no_transmit_effect_writes (tr : list Event) :
  Forall (fun e => transmit_effect e = false) tr -> writes_to DADDR tr = [].
Proof.
  induction 1 as [| e tr He _ IH]; [reflexivity |].
  unfold writes_to in *. simpl. rewrite IH.
  destruct e as [r v | r v | | | | | | | | | | | |]; try reflexivity.
  destruct r; try reflexivity. discriminate He.
Qed.

(** Where [Handler] writes DADDR: in the transmit branch, when it handles a
    completed transmission with a non-zero pending byte, and nowhere else. *)
Lemma Handler_commit_discipline (p : State E) :
  match Handler dev p with
  | Done _ p' tr =>
      exists p1 tr1,
        ReceiveComplete dev p = Done tt p1 tr1 /\
        Regs p1 = Regs p /\
        let word := Z.lor USB_DADDR_EF
                          (Z.land (TempAddressStorage p1) USB_DADDR_ADD) in
        if tx_flag p1
        then TempAddressStorage p' = 0 /\
             if TempAddressStorage p1 =? 0
             then writes_to DADDR tr = [] /\ Regs p' = Regs p
             else writes_to DADDR tr = [word] /\
                  Regs p' = reg_set DADDR word (Regs p)
        else p' = p1 /\ writes_to DADDR tr = []
  | Fault _ => (64 < length (cfg_FillDescriptor (_Configuration0 dev)))%nat
  end.
Proof.
  rewrite Handler_unfold.
  pose proof (ReceiveComplete_effects dev p) as Heff.
  destruct (ReceiveComplete dev p) as [[] p1 tr1 | tr1]; [| apply Heff].
  destruct Heff as (Hno & Hregs & _ & _).
  pose proof (no_transmit_effect_writes tr1 Hno) as Hw1.
  destruct (tx_flag p1) eqn:Htx.
  - destruct (Z.eq_dec (TempAddressStorage p1) 0) as [Ht | Ht].
    + rewrite (TransmitComplete_no_pending p1 Htx Ht).
      exists p1, tr1. split; [reflexivity | split; [exact Hregs |]].
      cbv zeta. rewrite Htx. split; [reflexivity |].
      rewrite Ht. change (0 =? 0) with true. cbv iota.
      rewrite writes_to_app, Hw1. split; [reflexivity | exact Hregs].
    + rewrite (TransmitComplete_commit p1 Htx Ht).
      exists p1, tr1. split; [reflexivity | split; [exact Hregs |]].
      cbv zeta. rewrite Htx. split; [reflexivity |].
      apply Z.eqb_neq in Ht. rewrite Ht.
      rewrite writes_to_app, Hw1. cbn [Regs]. rewrite Hregs.
      split; reflexivity.
  - rewrite (TransmitComplete_idle p1 Htx).
    exists p1, tr1. split; [reflexivity | split; [exact Hregs |]].
    cbv zeta. rewrite Htx. split; [reflexivity |].
    rewrite writes_to_app, Hw1. reflexivity.
Qed.

(** The receive branch keeps [TempAddressStorage] inside its window. *)
Lemma ReceiveComplete_window (s s1 : State E) (tr0 tr1 : list Event) :
  pending_window tr0 (TempAddressStorage s) ->
  ReceiveComplete dev s = Done tt s1 tr1 ->
  pending_window (tr0 ++ tr1) (TempAddressStorage s1).
Proof.
  intros Hw Hrx.
  pose proof (ReceiveComplete_effects dev s) as Heff. rewrite Hrx in Heff.
  destruct Heff as (Hno & _ & _ & Htemp).
  destruct Htemp as [Heq | (pre & ->)].
  - rewrite Heq. apply window_extend; [assumption |].
    apply no_effect_no_ack. assumption.
  - right. exists (tr0 ++ pre), [Ep0SetRxStatus EndpointStatus.Valid].
    split; [rewrite <- app_assoc; reflexivity | repeat constructor].
Qed.

(** Where an element of a concatenation lies. *)
Lemma app_eq_split {A} (l1 l2 pre post : list A) (x : A) :
  l1 ++ l2 = pre ++ x :: post ->
  (exists rest, l1 = pre ++ x :: rest /\ post = rest ++ l2) \/
  (exists pre', pre = l1 ++ pre' /\ l2 = pre' ++ x :: post).
Proof.
  revert pre. induction l1 as [| a l1 IH]; intros pre Heq.
  - right. exists pre. split; [reflexivity | exact Heq].
  - destruct pre as [| b pre]; simpl in Heq; injection Heq as -> Heq.
    + left. exists l1. split; [reflexivity | symmetry; exact Heq].
    + destruct (IH pre Heq) as [(rest & -> & ->) | (pre' & -> & ->)].
      * left. exists rest. split; reflexivity.
      * right. exists pre'. split; reflexivity.
Qed.

Lemma write_among_writes (tr pre post : list Event) (v : Z) :
  tr = pre ++ RegWrite DADDR v :: post -> List.In v (writes_to DADDR tr).
Proof.
  intros ->. rewrite writes_to_app. apply in_or_app. right. left. reflexivity.
Qed.

Lemma no_write_split (l m pre post : list Event) (v : Z) :
  writes_to DADDR l = [] ->
  l ++ m = pre ++ RegWrite DADDR v :: post ->
  exists pre', pre = l ++ pre' /\ m = pre' ++ RegWrite DADDR v :: post.
Proof.
  intros Hno Heq.
  destruct (app_eq_split _ _ _ _ _ Heq) as [(rest & Hl & _) | Hright];
    [| exact Hright].
  apply write_among_writes in Hl. rewrite Hno in Hl. destruct Hl.
Qed.

Lemma commits_only_pending_nil : commits_only_pending [].
Proof. intros [| e pre] v post Heq; discriminate Heq. Qed.

Lemma commits_only_pending_extend (tr l : list Event) :
  commits_only_pending tr ->
  Forall (eq USB_DADDR_EF) (writes_to DADDR l) ->
  commits_only_pending (tr ++ l).
Proof.
  intros Hc Hno pre v post Heq.
  destruct (app_eq_split _ _ _ _ _ Heq) as [(rest & Hl & _) | (pre' & _ & Hl)].
  - apply (Hc pre v rest Hl).
  - left. apply write_among_writes in Hl.
    rewrite Forall_forall in Hno. symmetry. apply (Hno v Hl).
Qed.

(** A run of [Handler] commits only what is pending. *)
Lemma Handler_commits_only_pending (s s' : State E) (tr0 tr : list Event) :
  pending_window tr0 (TempAddressStorage s) ->
  commits_only_pending tr0 ->
  Handler dev s = Done tt s' tr ->
  commits_only_pending (tr0 ++ tr).
Proof.
  intros Hw Hc Hh pre v post Heq.
  destruct (app_eq_split _ _ _ _ _ Heq) as [(rest & Hl & _) | (pre' & -> & Hl)];
    [apply (Hc pre v rest Hl) |].
  rewrite Handler_unfold in Hh.
  destruct (ReceiveComplete dev s) as [[] p1 tr1 | tr1] eqn:Hrx; [| discriminate].
  pose proof (ReceiveComplete_window s p1 tr0 tr1 Hw Hrx) as Hw1.
  pose proof (ReceiveComplete_effects dev s) as Heff. rewrite Hrx in Heff.
  destruct Heff as (Hno & _).
  pose proof (no_transmit_effect_writes tr1 Hno) as Hw0.
  destruct (tx_flag p1) eqn:Htx;
    [destruct (Z.eq_dec (TempAddressStorage p1) 0) as [Ht | Ht] |].
  - rewrite (TransmitComplete_no_pending p1 Htx Ht) in Hh. injection Hh as <- <-.
    destruct (no_write_split _ _ _ _ _ Hw0 Hl) as (pre'' & -> & Hl').
    exfalso. clear - Hl'.
    destruct pre'' as [| e1 [| e2 [| e3 [| e4 pre'']]]]; simpl in Hl'; discriminate Hl'.
  - rewrite (TransmitComplete_commit p1 Htx Ht) in Hh. injection Hh as <- <-.
    destruct (no_write_split _ _ _ _ _ Hw0 Hl) as (pre'' & -> & Hl').
    destruct pre'' as [| e1 [| e2 [| e3 pre'']]]; simpl in Hl'; try discriminate Hl'.
    + injection Hl' as <- <- <- _. right.
      destruct Hw1 as [Hz | (a & b & Hab & Hnoack)]; [contradiction |].
      exists (TempAddressStorage p1), a, (b ++ [Ep0RegGet (Reg_Get (Ep0State p1))]).
      split; [| split; [| split; [exact Ht | reflexivity]]].
      * rewrite (app_assoc tr0 tr1), Hab.
        repeat (rewrite <- app_assoc; simpl). reflexivity.
      * apply Forall_app. split; [exact Hnoack | repeat constructor].
    + exfalso. injection Hl' as _ _ _ Hl'.
      destruct pre'' as [| e4 [| e5 pre'']]; simpl in Hl'; try discriminate Hl'.
      injection Hl' as _ _ Hl'. destruct pre''; discriminate Hl'.
  - rewrite (TransmitComplete_idle p1 Htx) in Hh. injection Hh as <- <-.
    destruct (no_write_split _ _ _ _ _ Hw0 Hl) as (pre'' & -> & Hl').
    exfalso. clear - Hl'.
    destruct pre'' as [| e1 [| e2 pre'']]; simpl in Hl'; discriminate Hl'.
Qed.

Lemma writes_to_configuration_resets (l : list nat) :
  writes_to DADDR (map ConfigurationReset l) = [].
Proof. induction l as [| i l IH]; [reflexivity | exact IH]. Qed.

(** A run of [CommonHandler] commits only what is pending. *)
Lemma CommonHandler_commits_only_pending (s s' : State E) (tr0 tr : list Event) :
  pending_window tr0 (TempAddressStorage s) ->
  commits_only_pending tr0 ->
  CommonHandler dev s = Done tt s' tr ->
  commits_only_pending (tr0 ++ tr).
Proof.
  intros Hw Hc Hrun.
  unfold CommonHandler in Hrun. unfold bind at 1 in Hrun. unfold reg_read at 1 in Hrun.
  unfold bind at 1 in Hrun.
  destruct (truthy (Z.land (reg_get ISTR (Regs s)) USB_ISTR_RESET)) eqn:Hreset;
    unfold when at 1 in Hrun.
  - rewrite Reset_run in Hrun. simpl in Hrun.
    injection Hrun as <- <-.
    apply commits_only_pending_extend; [exact Hc |].
    change (writes_to DADDR (?e1 :: ?e2 :: ?e3 :: ?e4 :: ?e5 :: ?l))
      with (writes_to DADDR l).
    rewrite !writes_to_app, writes_to_configuration_resets. simpl.
    constructor; [reflexivity | constructor].
  - unfold ret at 1 in Hrun. unfold bind at 1 in Hrun. unfold reg_read at 1 in Hrun.
    unfold bind at 1 in Hrun.
    destruct (truthy (Z.land (reg_get ISTR (Regs s)) USB_ISTR_CTR)) eqn:Hctr;
      unfold when at 1 in Hrun.
    + unfold bind at 1 in Hrun. unfold reg_read at 1 in Hrun.
      unfold bind at 1 in Hrun. unfold emit at 1 in Hrun.
      unfold bind at 1 in Hrun. unfold reg_read at 1 in Hrun.
      unfold EpHandlers_Handle in Hrun.
      destruct (u8 (Z.land (reg_get ISTR (Regs s)) USB_ISTR_EP_ID) =? 0).
      * destruct (Handler dev s) as [[] s1 tr1 | tr1] eqn:Hh; [| discriminate].
        simpl in Hrun. injection Hrun as <- <-.
        set (reads := [RegRead ISTR (r_ISTR (Regs s)); RegRead ISTR (r_ISTR (Regs s));
                       RegRead ISTR (r_ISTR (Regs s)); Pc7Toggle;
                       RegRead ISTR (r_ISTR (Regs s))]).
        assert (Hw1 : pending_window (tr0 ++ reads) (TempAddressStorage s))
          by (apply window_extend; [exact Hw | repeat constructor]).
        assert (Hc1 : commits_only_pending (tr0 ++ reads))
          by (apply commits_only_pending_extend; [exact Hc | constructor]).
        pose proof (Handler_commits_only_pending s s1 _ tr1 Hw1 Hc1 Hh) as Hc2.
        apply (commits_only_pending_extend _ [ClearPendingIRQ]) in Hc2; [| constructor].
        unfold reads in Hc2.
        repeat (rewrite <- app_assoc in Hc2; simpl in Hc2). exact Hc2.
      * destruct (registered dev _); [| discriminate Hrun].
        simpl in Hrun. injection Hrun as <- <-.
        apply commits_only_pending_extend; [exact Hc | constructor].
    + simpl in Hrun. injection Hrun as <- <-.
      apply commits_only_pending_extend; [exact Hc | constructor].
Qed.

(** However the interrupts follow one another, only what is pending is
    committed. *)
Lemma serve_commits_only_pending
  (irqs : list (Z * E)) (s s' : State E) (tr0 tr : list Event) :
  pending_window tr0 (TempAddressStorage s) ->
  commits_only_pending tr0 ->
  serve dev irqs s = Done tt s' tr ->
  commits_only_pending (tr0 ++ tr).
Proof.
  revert s tr0 tr. induction irqs as [| [istr e] rest IH]; intros s tr0 tr Hw Hc Hrun.
  - simpl in Hrun. injection Hrun as <- <-. rewrite app_nil_r. exact Hc.
  - simpl in Hrun. unfold bind in Hrun.
    destruct (CommonHandler dev (interrupt istr e s)) as [[] s1 tr1 | tr1] eqn:Hh;
      [| discriminate].
    destruct (serve dev rest s1) as [[] s2 tr2 | tr2] eqn:Hrest; [| discriminate].
    injection Hrun as <- <-.
    rewrite app_assoc. apply (IH s1); [| | exact Hrest].
    + apply (CommonHandler_window (interrupt istr e s)); [exact Hw | exact Hh].
    + apply (CommonHandler_commits_only_pending (interrupt istr e s) s1);
        [exact Hw | exact Hc | exact Hh].
Qed.

(** C1, amended.  For a SetAddress(addr) request with addr from 1 to 127 (and
    a 7-bit address field below the enable flag): the receive branch that
    dispatches the request writes no register, DADDR included; it only stores
    addr in [TempAddressStorage] and hands the zero-length acknowledgment to
    the writer.  DADDR is written, once, with the enable flag and addr by the
    first transmit-complete [Handler] handles while addr is pending: in the
    run that dispatched the request when the endpoint register still flags a
    completed transmission, otherwise in a later run whose receive branch
    leaves addr pending, whatever state the device has come to in between
    and whether or not the completion is that of the status stage; the
    device then answers at addr and [TempAddressStorage] is zero again,
    cleared right after the write.  And only there: from any state, a run of [Handler] writes DADDR exactly when
    its transmit branch handles a completion with a non-zero pending byte,
    and otherwise returns with the register block as it was; a run that
    handles no completed transmission leaves the pending byte as the receive
    branch left it.  However the interrupts served by [CommonHandler] follow
    one another from a state with nothing pending (bus resets and transfers
    on any endpoint), [TempAddressStorage] is non-zero only after the
    acknowledgment of a SetAddress that stored it and before any later
    acknowledgment of a transmission, and every write to DADDR is either that
    of a bus reset, the enable flag alone, or the commit of a non-zero byte
    that a SetAddress stored, right after the first acknowledgment of a
    completed transmission since; the sequence has no defined outcome only
    if the first configuration overruns the scratch buffer or the hardware
    reports an endpoint outside the registered set. *)
Theorem SetAddress_deferred_commit (s : State E) (addr : Z) :
  USB_DADDR_ADD = 127 ->
  Z.land USB_DADDR_EF USB_DADDR_ADD = 0 ->
  1 <= addr <= 127 ->
  setup_pending s = true ->
  SetupPacket.Request (received_setup s) = StandartRequestCode.SetAddress ->
  SetupPacket.Value (received_setup s) = addr ->
  let s1 := mkState (Regs s) addr
                    (SetRxStatus EndpointStatus.Valid
                       (Writer_SendData [] (ClearCtrRx (Ep0State s)))) in
  let tr1 := rx_prologue s ++ [TempAddressStore addr; Ep0SendData [];
                               Ep0SetRxStatus EndpointStatus.Valid] in
  let word := Z.lor USB_DADDR_EF addr in
  let commit := fun p : State E =>
    mkState (reg_set DADDR word (Regs p)) 0
            (SetRxStatus EndpointStatus.Valid (ClearCtrTx (Ep0State p))) in
  let commit_trace := fun p : State E =>
    [Ep0RegGet (Reg_Get (Ep0State p)); Ep0ClearCtrTx; RegWrite DADDR word;
     TempAddressStore 0; Ep0SetRxStatus EndpointStatus.Valid] in
  ReceiveComplete dev s = Done tt s1 tr1 /\
  (tx_flag s1 = false ->
   Handler dev s = Done tt s1 (tr1 ++ [Ep0RegGet (Reg_Get (Ep0State s1))])) /\
  (tx_flag s1 = true ->
   Handler dev s = Done tt (commit s1) (tr1 ++ commit_trace s1)) /\
  (forall (p p1 : State E) (trp : list Event),
     ReceiveComplete dev p = Done tt p1 trp ->
     TempAddressStorage p1 = addr ->
     (tx_flag p1 = false ->
      Handler dev p = Done tt p1 (trp ++ [Ep0RegGet (Reg_Get (Ep0State p1))])) /\
     (tx_flag p1 = true ->
      Handler dev p = Done tt (commit p1) (trp ++ commit_trace p1))) /\
  (forall p : State E,
     device_address (commit p) = addr /\ TempAddressStorage (commit p) = 0) /\
  (forall p : State E,
     match Handler dev p with
     | Done _ p' tr =>
         exists p1 trp,
           ReceiveComplete dev p = Done tt p1 trp /\
           Regs p1 = Regs p /\
           let pending := Z.lor USB_DADDR_EF
                                (Z.land (TempAddressStorage p1) USB_DADDR_ADD) in
           if tx_flag p1
           then TempAddressStorage p' = 0 /\
                if TempAddressStorage p1 =? 0
                then writes_to DADDR tr = [] /\ Regs p' = Regs p
                else writes_to DADDR tr = [pending] /\
                     Regs p' = reg_set DADDR pending (Regs p)
           else p' = p1 /\ writes_to DADDR tr = []
     | Fault _ => (64 < length (cfg_FillDescriptor (_Configuration0 dev)))%nat
     end) /\
  (forall irqs s0,
     TempAddressStorage s0 = 0 ->
     match serve dev irqs s0 with
     | Done _ sN tr =>
         pending_window tr (TempAddressStorage sN) /\ commits_only_pending tr
     | Fault _ =>
         (64 < length (cfg_FillDescriptor (_Configuration0 dev)))%nat \/
         Exists (fun irq => well_reported dev (fst irq) = false) irqs
     end).
Proof.
  intros Hadd Hef Hrange Hp Hreq Hv s1 tr1 word commit commit_trace.
  assert (Hword : forall p : State E,
             TempAddressStorage p = addr ->
             Z.lor USB_DADDR_EF (Z.land (TempAddressStorage p) USB_DADDR_ADD) = word).
  { intros p ->. rewrite Hadd. apply lor_field; [lia | rewrite <- Hadd; exact Hef]. }
  assert (Hcommit : forall p : State E,
             TempAddressStorage p = addr -> tx_flag p = true ->
             TransmitComplete p = Done tt (commit p) (commit_trace p)).
  { intros p Ht Htx.
    rewrite (TransmitComplete_commit p Htx) by (rewrite Ht; lia).
    rewrite (Hword p Ht). reflexivity. }
  assert (Hrx : ReceiveComplete dev s = Done tt s1 tr1).
  { rewrite (ReceiveComplete_SetAddress s Hp Hreq), Hv.
    rewrite (Z.mod_small addr 256) by lia. reflexivity. }
  split; [exact Hrx |].
  split; [| split; [| split; [| split; [| split]]]].
  - intros Htx. rewrite Handler_unfold, Hrx, (TransmitComplete_idle s1 Htx). reflexivity.
  - intros Htx. rewrite Handler_unfold, Hrx, (Hcommit s1 eq_refl Htx). reflexivity.
  - intros p p1 trp Hrxp Ht. split; intros Htx.
    + rewrite Handler_unfold, Hrxp, (TransmitComplete_idle p1 Htx). reflexivity.
    + rewrite Handler_unfold, Hrxp, (Hcommit p1 Ht Htx). reflexivity.
  - intros p. split; [| reflexivity].
    unfold device_address, commit. cbn [Regs reg_set r_DADDR].
    unfold word. rewrite <- (lor_field USB_DADDR_EF addr) at 1;
      [| lia | rewrite <- Hadd; exact Hef].
    rewrite <- Hadd, (land_field _ _ _ Hef), Hadd, land_127.
    apply Z.mod_small. lia.
  - intros p. apply Handler_commit_discipline.
  - intros irqs s0 Hz.
    destruct (serve dev irqs s0) as [[] sN tr | tr] eqn:Hrun.
    + split.
      * apply (serve_window irqs s0 sN [] tr); [left; exact Hz | exact Hrun].
      * apply (serve_commits_only_pending irqs s0 sN [] tr);
          [left; exact Hz | apply commits_only_pending_nil | exact Hrun].
    + apply (serve_fault irqs s0 tr Hrun).
Qed.

End DeferredAddress.

(** * Further properties of the handlers *)

Section Answers.

Context {H : DeviceHeader} {E : Type} {Ep0 : Endpoint0 E}.
Variable dev : DeviceParameters.

Lemma length_firstn_le {A} (n : Z) (l : list A) (bound : Z) :
  0 <= bound -> n <= bound -> Z.of_nat (length (firstn (Z.to_nat n) l)) <= bound.
Proof.
  intros Hb Hn. pose proof (firstn_le_length (Z.to_nat n) l). 
  rewrite length_firstn. lia.
Qed.

(** What one case of the request switch hands to the writer and sets the
    transmit status to. *)
Lemma Request_switch_answers (setup : SetupPacket.t) (s : State E) :
  0 <= SetupPacket.Length setup ->
  let tr := trace (Request_switch dev setup s) in
  (length (responses tr) <= 1)%nat /\
  (tx_statuses tr = [] \/ tx_statuses tr = [EndpointStatus.Stall]) /\
  (responses tr <> [] -> tx_statuses tr <> [] ->
   SetupPacket.Request setup = StandartRequestCode.SetConfiguration) /\
  (SetupPacket.Request setup <> StandartRequestCode.GetStatus ->
   Forall (fun d => Z.of_nat (length d) <= SetupPacket.Length setup) (responses tr)).
Proof.
  intros HL tr. subst tr.
  assert (Hclamp : forall (k : Z) (data : list Z),
             Forall (fun d => Z.of_nat (length d) <= SetupPacket.Length setup)
                    [firstn (Z.to_nat (Z.min (SetupPacket.Length setup) k)) data]).
  { intros k data. constructor; [| constructor]. apply length_firstn_le; lia. }
  assert (Hempty : Forall (fun d => Z.of_nat (length d) <= SetupPacket.Length setup)
                          [@nil Z])
    by (constructor; [simpl; lia | constructor]).
  destruct (SetupPacket.Request setup) eqn:Hr.
  - rewrite (Request_switch_GetStatus dev _ _ Hr). simpl.
    split; [lia | split; [auto | split; [intros _ Ht; contradiction Ht; reflexivity |]]].
    intros Hne. contradiction Hne. reflexivity.
  - rewrite (Request_switch_SetAddress dev _ _ Hr). simpl.
    split; [lia | split; [auto | split; [intros _ Ht; contradiction Ht; reflexivity |]]].
    intros _. exact Hempty.
  - rewrite (Request_switch_GetDescriptor dev _ _ Hr).
    destruct (DescriptorParameter_of (SetupPacket.Value setup)) eqn:Hp.
    + rewrite (GetDescriptor_switch_Device dev _ _ Hp). simpl.
      split; [lia | split; [auto | split; [intros _ Ht; contradiction Ht; reflexivity |]]].
      intros _. apply Hclamp.
    + destruct (Nat.leb_spec (length (cfg_FillDescriptor (_Configuration0 dev))) 64)
        as [Hfit | Hbig].
      * rewrite (GetDescriptor_switch_Configuration dev _ _ Hp Hfit). simpl.
        split; [lia | split; [auto | split; [intros _ Ht; contradiction Ht; reflexivity |]]].
        intros _. apply Hclamp.
      * rewrite (GetDescriptor_switch_overflow dev _ _ Hp Hbig). simpl.
        split; [lia | split; [auto | split; [intros Hn; contradiction Hn; reflexivity |]]].
        intros _. constructor.
    + rewrite (GetDescriptor_switch_HidReport dev _ _ Hp). simpl.
      split; [lia | split; [auto | split; [intros _ Ht; contradiction Ht; reflexivity |]]].
      intros _. apply Hclamp.
    + rewrite (GetDescriptor_switch_Other dev _ _ _ Hp). simpl.
      split; [lia | split; [auto | split; [intros Hn; contradiction Hn; reflexivity |]]].
      intros _. constructor.
  - rewrite (Request_switch_SetConfiguration dev _ _ Hr). simpl.
    split; [lia | split; [auto | split; [intros _ _; reflexivity |]]].
    intros _. exact Hempty.
  - rewrite (Request_switch_Other dev _ _ _ Hr). simpl.
    split; [lia | split; [auto | split; [intros Hn; contradiction Hn; reflexivity |]]].
    intros _. constructor.
Qed.

(** What a run of [Handler] hands to the writer and sets the transmit status
    to is what the case of the pending SETUP request does, and nothing when
    no SETUP request is pending. *)
Lemma Handler_answers (s : State E) :
  let tr_switch := if setup_pending s
                   then trace (Request_switch dev (received_setup s) (acked s))
                   else [] in
  responses (trace (Handler dev s)) = responses tr_switch /\
  tx_statuses (trace (Handler dev s)) = tx_statuses tr_switch.
Proof.
  assert (Hsplit : exists tr_tx,
             trace (Handler dev s) = trace (ReceiveComplete dev s) ++ tr_tx /\
             responses tr_tx = [] /\ tx_statuses tr_tx = []).
  { rewrite Handler_unfold.
    destruct (ReceiveComplete dev s) as [[] s1 tr1 | tr1] eqn:Hrx.
    - destruct (TransmitComplete_effects s1) as (s2 & tr2 & Htx & Hno & _).
      rewrite Htx. exists tr2. split; [reflexivity |].
      apply no_receive_effect_responses. exact Hno.
    - exists []. split; [simpl; rewrite app_nil_r; reflexivity | split; reflexivity]. }
  destruct Hsplit as (tr_tx & -> & Hr & Ht).
  rewrite responses_app, tx_statuses_app, Hr, Ht, !app_nil_r.
  unfold setup_pending.
  destruct (rx_flag s) eqn:Hrx; [destruct (setup_flag s) eqn:Hsetup |]; simpl andb; cbv iota.
  - assert (Hp : setup_pending s = true)
      by (unfold setup_pending; rewrite Hrx, Hsetup; reflexivity).
    rewrite (ReceiveComplete_setup dev s Hp).
    destruct (Request_switch dev (received_setup s) (acked s)) as [[] s1 tr | tr];
      unfold trace; rewrite !responses_app, !tx_statuses_app;
      unfold rx_prologue; simpl; rewrite ?app_nil_r; split; reflexivity.
  - rewrite (ReceiveComplete_data dev s Hrx Hsetup). split; reflexivity.
  - rewrite (ReceiveComplete_idle dev s Hrx). split; reflexivity.
Qed.

Lemma received_setup_Length_nonneg (s : State E) :
  0 <= SetupPacket.Length (received_setup s).
Proof.
  pose proof (word_at_range (RxBuffer (ClearCtrRx (Ep0State s))) 6).
  unfold received_setup, setup_of. simpl. lia.
Qed.

(** X1. A reception that is not a pending SETUP request (an OUT data packet,
    the zero-length OUT of a status stage, or no reception at all) is never
    answered: [Handler] returns, hands nothing to the writer, sets no
    transmit status and stores no pending address (the only store to
    [TempAddressStorage] it can make is the clearing by the transmit
    branch). *)
Theorem Handler_answers_only_SETUP (s : State E) :
  setup_pending s = false ->
  exists s' tr,
    Handler dev s = Done tt s' tr /\
    responses tr = [] /\
    tx_statuses tr = [] /\
    Forall (fun e => match e with TempAddressStore v => v = 0 | _ => True end) tr /\
    (TempAddressStorage s' = TempAddressStorage s \/ TempAddressStorage s' = 0).
Proof.
  intros Hp.
  destruct (Handler_answers s) as [Hr Ht]. rewrite Hp in Hr, Ht. simpl in Hr, Ht.
  assert (Hrx : exists s1 tr1,
             ReceiveComplete dev s = Done tt s1 tr1 /\
             TempAddressStorage s1 = TempAddressStorage s /\
             Forall (fun e => match e with TempAddressStore v => v = 0 | _ => True end) tr1).
  { unfold setup_pending in Hp.
    destruct (rx_flag s) eqn:Hrx.
    - simpl in Hp. rewrite (ReceiveComplete_data dev s Hrx Hp).
      eexists _, _. split; [reflexivity | split; [reflexivity |]].
      unfold rx_prologue. repeat constructor.
    - rewrite (ReceiveComplete_idle dev s Hrx).
      eexists _, _. split; [reflexivity | split; [reflexivity |]]. repeat constructor. }
  destruct Hrx as (s1 & tr1 & Hrx & Htemp & Hst1).
  assert (Htx : exists s2 tr2,
             TransmitComplete s1 = Done tt s2 tr2 /\
             (TempAddressStorage s2 = TempAddressStorage s1 \/ TempAddressStorage s2 = 0) /\
             Forall (fun e => match e with TempAddressStore v => v = 0 | _ => True end) tr2).
  { destruct (tx_flag s1) eqn:Hflag.
    - destruct (Z.eq_dec (TempAddressStorage s1) 0) as [Hz | Hnz].
      + rewrite (TransmitComplete_no_pending s1 Hflag Hz).
        eexists _, _. split; [reflexivity | split; [right; reflexivity |]].
        repeat constructor.
      + rewrite (TransmitComplete_commit s1 Hflag Hnz).
        eexists _, _. split; [reflexivity | split; [right; reflexivity |]].
        repeat constructor.
    - rewrite (TransmitComplete_idle s1 Hflag).
      eexists _, _. split; [reflexivity | split; [left; reflexivity |]].
      repeat constructor. }
  destruct Htx as (s2 & tr2 & Htx & Htemp2 & Hst2).
  exists s2, (tr1 ++ tr2).
  assert (Hh : Handler dev s = Done tt s2 (tr1 ++ tr2))
    by (rewrite Handler_unfold, Hrx, Htx; reflexivity).
  rewrite Hh in Hr, Ht. simpl in Hr, Ht.
  split; [exact Hh | split; [exact Hr | split; [exact Ht | split]]].
  - apply Forall_app. split; assumption.
  - rewrite <- Htemp. exact Htemp2.
Qed.

(** X2. Whatever the state, one run of [Handler] hands the writer at most one
    packet and sets the transmit status at most once, to Stall and to nothing
    else; a packet and a Stall in the same run happen for a SetConfiguration
    request only. *)
Theorem Handler_one_answer (s : State E) :
  let tr := trace (Handler dev s) in
  (length (responses tr) <= 1)%nat /\
  (tx_statuses tr = [] \/ tx_statuses tr = [EndpointStatus.Stall]) /\
  (responses tr <> [] -> tx_statuses tr <> [] ->
   setup_pending s = true /\
   SetupPacket.Request (received_setup s) = StandartRequestCode.SetConfiguration).
Proof.
  intros tr. subst tr.
  destruct (Handler_answers s) as [-> ->].
  destruct (setup_pending s) eqn:Hp.
  - pose proof (Request_switch_answers (received_setup s) (acked s)
                  (received_setup_Length_nonneg s)) as (H1 & H2 & H3 & _).
    split; [exact H1 | split; [exact H2 |]].
    intros Hr Ht. split; [reflexivity | apply H3; assumption].
  - simpl. split; [lia | split; [left; reflexivity |]].
    intros Hr. contradiction Hr. reflexivity.
Qed.

(** X3. The response to a SETUP request other than GetStatus never has more
    bytes than the request asks for in its length field. *)
Theorem response_within_requested_length (s : State E) :
  setup_pending s = true ->
  SetupPacket.Request (received_setup s) <> StandartRequestCode.GetStatus ->
  Forall (fun d => Z.of_nat (length d) <= SetupPacket.Length (received_setup s))
         (responses (trace (Handler dev s))).
Proof.
  intros Hp Hreq.
  destruct (Handler_answers s) as [-> _]. rewrite Hp.
  apply (Request_switch_answers (received_setup s) (acked s)
           (received_setup_Length_nonneg s)).
  exact Hreq.
Qed.

(** X4. GetStatus is answered with two zero bytes whatever length the request
    asks for, also less than two: this response is not clamped.  The
    transmit direction is not stalled. *)
Theorem GetStatus_two_zero_bytes (s : State E) :
  setup_pending s = true ->
  SetupPacket.Request (received_setup s) = StandartRequestCode.GetStatus ->
  exists s' tr,
    Handler dev s = Done tt s' tr /\
    responses tr = [[0; 0]] /\
    tx_statuses tr = [].
Proof.
  intros Hp Hreq.
  assert (Hsw := Request_switch_GetStatus dev _ (acked s) Hreq).
  destruct (Handler_setup dev s _ _ Hp Hsw) as (_ & s2 & tr2 & Hh & _ & Hresp & Hst).
  eexists s2, _. split; [exact Hh |].
  rewrite Hh in Hresp, Hst. split; [exact Hresp | exact Hst].
Qed.

End Answers.

(** ** What the handlers record *)

Section Alphabet.

Context {H : DeviceHeader} {E : Type} {Ep0 : Endpoint0 E}.
Variable dev : DeviceParameters.

Local Ltac events := repeat first [ apply Forall_nil
                                  | apply Forall_cons; [exact I |]
                                  | apply Forall_cons; [eexists; reflexivity |]
                                  | apply Forall_app; split ].

Lemma Request_switch_events (setup : SetupPacket.t) (s : State E) :
  Forall handler_event (trace (Request_switch dev setup s)).
Proof.
  destruct (SetupPacket.Request setup) eqn:Hr.
  - rewrite (Request_switch_GetStatus dev _ _ Hr). simpl. events.
  - rewrite (Request_switch_SetAddress dev _ _ Hr). simpl. events.
  - rewrite (Request_switch_GetDescriptor dev _ _ Hr).
    destruct (DescriptorParameter_of (SetupPacket.Value setup)) eqn:Hp.
    + rewrite (GetDescriptor_switch_Device dev _ _ Hp). simpl. events.
    + destruct (Nat.leb_spec (length (cfg_FillDescriptor (_Configuration0 dev))) 64)
        as [Hfit | Hbig].
      * rewrite (GetDescriptor_switch_Configuration dev _ _ Hp Hfit). simpl. events.
      * rewrite (GetDescriptor_switch_overflow dev _ _ Hp Hbig). simpl. events.
    + rewrite (GetDescriptor_switch_HidReport dev _ _ Hp). simpl. events.
    + rewrite (GetDescriptor_switch_Other dev _ _ _ Hp). simpl. events.
  - rewrite (Request_switch_SetConfiguration dev _ _ Hr). simpl. events.
  - rewrite (Request_switch_Other dev _ _ _ Hr). simpl. events.
Qed.

Lemma ReceiveComplete_events (s : State E) :
  Forall handler_event (trace (ReceiveComplete dev s)).
Proof.
  destruct (rx_flag s) eqn:Hrx; [destruct (setup_flag s) eqn:Hsetup |].
  - assert (Hp : setup_pending s = true)
      by (unfold setup_pending; rewrite Hrx, Hsetup; reflexivity).
    rewrite (ReceiveComplete_setup dev s Hp).
    pose proof (Request_switch_events (received_setup s) (acked s)) as Hsw.
    destruct (Request_switch dev (received_setup s) (acked s)) as [[] s1 tr | tr];
      unfold trace in *; unfold rx_prologue; events; exact Hsw.
  - rewrite (ReceiveComplete_data dev s Hrx Hsetup). unfold trace, rx_prologue. events.
  - rewrite (ReceiveComplete_idle dev s Hrx). unfold trace. events.
Qed.

Lemma TransmitComplete_events (s : State E) :
  Forall handler_event (trace (TransmitComplete s)).
Proof.
  destruct (tx_flag s) eqn:Htx.
  - destruct (Z.eq_dec (TempAddressStorage s) 0) as [Ht | Ht].
    + rewrite (TransmitComplete_no_pending s Htx Ht). unfold trace. events.
    + rewrite (TransmitComplete_commit s Htx Ht). unfold trace. events.
  - rewrite (TransmitComplete_idle s Htx). unfold trace. events.
Qed.

Lemma Handler_events (s : State E) :
  Forall handler_event (trace (Handler dev s)).
Proof.
  unfold Handler. rewrite trace_bind.
  apply Forall_app. split; [apply ReceiveComplete_events |].
  destruct (ReceiveComplete dev s) as [[] s1 tr1 | tr1];
    [apply TransmitComplete_events | constructor].
Qed.

Lemma handler_event_common (e : Event) : handler_event e -> common_event e.
Proof.
  destruct e as [r v | r v | | | | | | | | | | | |]; simpl; try tauto.
  destruct r; simpl; try tauto.
Qed.

Lemma CommonHandler_events (s : State E) :
  Forall common_event (trace (CommonHandler dev s)).
Proof.
  unfold CommonHandler. rewrite trace_bind. unfold reg_read at 1 2. simpl.
  constructor; [exact I |].
  rewrite trace_bind. apply Forall_app. split.
  - destruct (truthy (Z.land (r_ISTR (Regs s)) USB_ISTR_RESET)); unfold when.
    + rewrite Reset_run. unfold trace.
      repeat first [ apply Forall_nil
                   | apply Forall_cons; [first [exact I | reflexivity | left; reflexivity] |]
                   | apply Forall_app; split ].
      apply Forall_forall. intros e He.
      apply in_map_iff in He. destruct He as (i & <- & _). exact I.
    + constructor.
  - destruct (when (truthy (Z.land (r_ISTR (Regs s)) USB_ISTR_RESET)) (Reset dev) s)
      as [[] s1 tr1 | tr1]; [| constructor].
    rewrite trace_bind. unfold reg_read at 1 2. simpl.
    constructor; [exact I |].
    rewrite trace_bind. apply Forall_app. split.
    + destruct (truthy (Z.land (r_ISTR (Regs s1)) USB_ISTR_CTR)); unfold when;
        [| constructor].
      rewrite trace_bind. unfold reg_read at 1 2. simpl. constructor; [exact I |].
      rewrite trace_bind. unfold emit at 1 2. simpl. constructor; [exact I |].
      rewrite trace_bind. unfold reg_read at 1 2. simpl. constructor; [exact I |].
      unfold EpHandlers_Handle.
      destruct (u8 (Z.land (r_ISTR (Regs s1)) USB_ISTR_EP_ID) =? 0).
      * eapply Forall_impl; [apply handler_event_common | apply Handler_events].
      * destruct (registered dev _); [| constructor].
        unfold emit, trace. constructor; [exact I | constructor].
    + match goal with
      | |- Forall _ (match ?r with _ => _ end) =>
          destruct r as [[] s2 tr2 | tr2]; [| constructor]
      end.
      unfold emit, trace. constructor; [exact I | constructor].
Qed.

Lemma serve_events (irqs : list (Z * E)) (s : State E) :
  Forall common_event (trace (serve dev irqs s)).
Proof.
  revert s. induction irqs as [| [istr e] rest IH]; intros s.
  - constructor.
  - simpl serve. rewrite trace_bind.
    apply Forall_app. split; [apply CommonHandler_events |].
    destruct (CommonHandler dev (interrupt istr e s)) as [[] s1 tr1 | tr1];
      [apply IH | constructor].
Qed.

Lemma common_event_writes (tr : list Event) :
  Forall common_event tr ->
  Forall (eq (Z.lor USB_CNTR_CTRM USB_CNTR_RESETM)) (writes_to CNTR tr) /\
  Forall (eq 0) (writes_to ISTR tr) /\
  Forall (eq 0) (writes_to BTABLE tr) /\
  Forall (fun v => Z.land v USB_DADDR_EF = USB_DADDR_EF) (writes_to DADDR tr).
Proof.
  induction 1 as [| e tr He _ (IH1 & IH2 & IH3 & IH4)].
  - repeat split; constructor.
  - unfold writes_to in *. simpl.
    destruct e as [r v | r v | | | | | | | | | | | |]; simpl; try (repeat split; assumption).
    destruct r; simpl in *; repeat split; try assumption; constructor;
      try assumption; try (symmetry; exact He).
    destruct He as [-> | (t & ->)]; [apply Z.land_diag | apply land_lor_l].
Qed.

(** X7. Whatever interrupts are served, the only value ever written to CNTR
    is the baseline mask, the only value written to ISTR and to BTABLE is 0,
    and every value written to DADDR has the enable flag: the handlers never
    switch the device function off. *)
Theorem serve_write_discipline (irqs : list (Z * E)) (s : State E) :
  let tr := trace (serve dev irqs s) in
  Forall (eq (Z.lor USB_CNTR_CTRM USB_CNTR_RESETM)) (writes_to CNTR tr) /\
  Forall (eq 0) (writes_to ISTR tr) /\
  Forall (eq 0) (writes_to BTABLE tr) /\
  Forall (fun v => Z.land v USB_DADDR_EF = USB_DADDR_EF) (writes_to DADDR tr).
Proof. apply common_event_writes. apply serve_events. Qed.

End Alphabet.

(** ** Pending addresses at the edges *)

Section PendingEdges.

Context {H : DeviceHeader} {E : Type} {Ep0 : Endpoint0 E}.
Variable dev : DeviceParameters.

(** X5. When the endpoint register still flags a completed transmission
    after the receive branch has dispatched a SetAddress request with a
    non-zero low byte, the same run of [Handler] commits the address: DADDR
    is written right after the zero-length acknowledgment was handed to the
    writer, before the status stage of the request can have completed. *)
Theorem SetAddress_committed_in_same_run (s : State E) (v : Z) :
  setup_pending s = true ->
  SetupPacket.Request (received_setup s) = StandartRequestCode.SetAddress ->
  SetupPacket.Value (received_setup s) = v ->
  v mod 256 <> 0 ->
  truthy (Z.land (Reg_Get (SetRxStatus EndpointStatus.Valid
                             (Writer_SendData [] (ClearCtrRx (Ep0State s)))))
                 USB_EP_CTR_TX) = true ->
  let word := Z.lor USB_DADDR_EF (Z.land (v mod 256) USB_DADDR_ADD) in
  exists s' tr,
    Handler dev s = Done tt s' tr /\
    r_DADDR (Regs s') = word /\
    TempAddressStorage s' = 0 /\
    writes_to DADDR tr = [word] /\
    precedes (Ep0SendData []) (RegWrite DADDR word) tr.
Proof.
  intros Hp Hreq Hv Hnz Htx word.
  pose proof (ReceiveComplete_SetAddress dev s Hp Hreq) as Hrx. rewrite Hv in Hrx.
  rewrite Handler_unfold, Hrx.
  rewrite TransmitComplete_commit; [| exact Htx | exact Hnz].
  eexists _, _. split; [reflexivity |].
  cbn [Regs reg_set r_DADDR TempAddressStorage].
  split; [reflexivity | split; [reflexivity | split; [reflexivity |]]].
  exists (rx_prologue s ++ [TempAddressStore (v mod 256)]),
         [Ep0SetRxStatus EndpointStatus.Valid;
          Ep0RegGet (Reg_Get (SetRxStatus EndpointStatus.Valid
                                (Writer_SendData [] (ClearCtrRx (Ep0State s)))));
          Ep0ClearCtrTx],
         [TempAddressStore 0; Ep0SetRxStatus EndpointStatus.Valid].
  reflexivity.
Qed.

(** X6. [Reset] does not clear [TempAddressStorage].  A bus reset that comes
    between the dispatch of a SetAddress and the next completed transmission
    puts the device at address 0 and keeps the pending byte, and the next
    completed transmission moves the device to the pending address. *)
Theorem Reset_keeps_pending_address (s : State E) :
  TempAddressStorage s <> 0 ->
  exists s1 tr1,
    Reset dev s = Done tt s1 tr1 /\
    r_DADDR (Regs s1) = USB_DADDR_EF /\
    TempAddressStorage s1 = TempAddressStorage s /\
    forall e2,
      rx_flag (hardware e2 s1) = false -> tx_flag (hardware e2 s1) = true ->
      exists s2 tr2,
        Handler dev (hardware e2 s1) = Done tt s2 tr2 /\
        r_DADDR (Regs s2) =
          Z.lor USB_DADDR_EF (Z.land (TempAddressStorage s) USB_DADDR_ADD) /\
        TempAddressStorage s2 = 0.
Proof.
  intros Hnz. rewrite Reset_run.
  eexists _, _. split; [reflexivity | split; [reflexivity | split; [reflexivity |]]].
  intros e2 Hrx2 Htx2.
  rewrite (Handler_transmit_only dev _ Hrx2).
  rewrite (TransmitComplete_commit _ Htx2) by exact Hnz.
  eexists _, _. split; [reflexivity | split; reflexivity].
Qed.

(** X8. [CommonHandler] acknowledges the interrupt at the controller exactly
    once and as its last action on every path that returns; it has no
    defined outcome only when the first configuration overruns the scratch
    buffer or the hardware reports a transfer on an endpoint outside the
    registered set, and then it has not acknowledged the interrupt.  An
    interrupt with neither the reset nor the transfer flag changes nothing;
    an interrupt without the reset flag that reports a transfer outside the
    registered set is fatal: nothing is dispatched. *)
Theorem CommonHandler_acknowledges_last (s : State E) :
  match CommonHandler dev s with
  | Done _ s' tr =>
      (exists tr0, tr = tr0 ++ [ClearPendingIRQ] /\ ~ List.In ClearPendingIRQ tr0) /\
      (truthy (Z.land (r_ISTR (Regs s)) USB_ISTR_RESET) = false ->
       truthy (Z.land (r_ISTR (Regs s)) USB_ISTR_CTR) = false ->
       s' = s)
  | Fault tr =>
      ~ List.In ClearPendingIRQ tr /\
      ((64 < length (cfg_FillDescriptor (_Configuration0 dev)))%nat \/
       well_reported dev (r_ISTR (Regs s)) = false)
  end /\
  (truthy (Z.land (r_ISTR (Regs s)) USB_ISTR_RESET) = false ->
   well_reported dev (r_ISTR (Regs s)) = false ->
   let istr := RegRead ISTR (r_ISTR (Regs s)) in
   CommonHandler dev s = Fault [istr; istr; istr; Pc7Toggle; istr]).
Proof.
  assert (Hh : forall s0, ~ List.In ClearPendingIRQ (trace (Handler dev s0))).
  { intros s0 Hin. pose proof (Handler_events dev s0) as Hev.
    rewrite Forall_forall in Hev. apply (Hev _ Hin). }
  split.
  - pose proof (CommonHandler_fault dev s) as Hfault.
    unfold CommonHandler in *. unfold bind at 1 in Hfault. unfold bind at 1.
    unfold reg_read at 1 in Hfault. unfold reg_read at 1.
    unfold bind at 1 in Hfault. unfold bind at 1.
    change (reg_get ISTR (Regs s)) with (r_ISTR (Regs s)) in *.
    destruct (truthy (Z.land (r_ISTR (Regs s)) USB_ISTR_RESET)) eqn:Hreset;
      unfold when at 1 in Hfault; unfold when at 1.
    + clear Hfault. rewrite Reset_run. simpl.
      split; [| intros Habs; congruence].
      set (resets := map ConfigurationReset (seq 1 (length (_ConfigurationsRest dev)))).
      exists (RegRead ISTR (r_ISTR (Regs s))
              :: RegWrite CNTR (Z.lor USB_CNTR_CTRM USB_CNTR_RESETM)
              :: RegWrite ISTR 0 :: Ep0Reset :: ConfigurationReset 0
              :: (resets ++ [RegWrite BTABLE 0; RegWrite DADDR USB_DADDR_EF])
                 ++ [RegRead ISTR 0]).
      split.
      * simpl. rewrite <- (app_assoc _ [RegRead ISTR 0]). reflexivity.
      * intros Hin. simpl in Hin.
        repeat (destruct Hin as [Hin | Hin]; [discriminate Hin |]).
        apply in_app_or in Hin. destruct Hin as [Hin | Hin];
          [apply in_app_or in Hin; destruct Hin as [Hin | Hin] |].
        -- apply in_map_iff in Hin. destruct Hin as (i & Hi & _). discriminate Hi.
        -- simpl in Hin. repeat (destruct Hin as [Hin | Hin]; [discriminate Hin |]).
           exact Hin.
        -- simpl in Hin. repeat (destruct Hin as [Hin | Hin]; [discriminate Hin |]).
           exact Hin.
    + unfold ret at 1 in Hfault. unfold ret at 1.
      unfold bind at 1 in Hfault. unfold bind at 1.
      unfold reg_read at 1 in Hfault. unfold reg_read at 1.
      unfold bind at 1 in Hfault. unfold bind at 1.
      change (reg_get ISTR (Regs s)) with (r_ISTR (Regs s)) in *.
      destruct (truthy (Z.land (r_ISTR (Regs s)) USB_ISTR_CTR)) eqn:Hctr;
        unfold when at 1 in Hfault; unfold when at 1.
      * unfold bind at 1 in Hfault. unfold bind at 1.
        unfold reg_read at 1 in Hfault. unfold reg_read at 1.
        unfold bind at 1 in Hfault. unfold bind at 1.
        unfold emit at 1 in Hfault. unfold emit at 1.
        unfold bind at 1 in Hfault. unfold bind at 1.
        unfold reg_read at 1 in Hfault. unfold reg_read at 1.
        unfold EpHandlers_Handle in *.
        change (reg_get ISTR (Regs s)) with (r_ISTR (Regs s)) in *.
        destruct (u8 (Z.land (r_ISTR (Regs s)) USB_ISTR_EP_ID) =? 0).
        -- pose proof (Hh s) as Hno.
           destruct (Handler dev s) as [[] s1 tr1 | tr1] eqn:Hrun;
             simpl; simpl in Hno; simpl in Hfault.
           ++ split; [| intros _ Habs; congruence].
              eexists (_ :: _ :: _ :: _ :: _ :: tr1 ++ []).
              split; [rewrite app_nil_r; reflexivity |].
              rewrite app_nil_r. intros Hin. simpl in Hin.
              repeat (destruct Hin as [Hin | Hin]; [discriminate Hin |]).
              exact (Hno Hin).
           ++ split; [| apply (Hfault _ eq_refl)].
              intros Hin.
              repeat (destruct Hin as [Hin | Hin]; [discriminate Hin |]).
              exact (Hno Hin).
        -- destruct (registered dev _); simpl; simpl in Hfault.
           ++ split; [| intros _ Habs; congruence].
              eexists [_; _; _; _; _; _]. split; [reflexivity |].
              intros Hin. simpl in Hin.
              repeat (destruct Hin as [Hin | Hin]; [discriminate Hin |]). exact Hin.
           ++ split; [| apply (Hfault _ eq_refl)].
              intros Hin. simpl in Hin.
              repeat (destruct Hin as [Hin | Hin]; [discriminate Hin |]). exact Hin.
      * simpl. split; [| intros _ _; reflexivity].
        eexists [_; _]. split; [reflexivity |].
        intros Hin. simpl in Hin.
        repeat (destruct Hin as [Hin | Hin]; [discriminate Hin |]). exact Hin.
  - intros Hreset Hbad istr.
    unfold well_reported, reported_endpoint in Hbad.
    apply orb_false_iff in Hbad. destruct Hbad as [Hbad Hreg].
    apply orb_false_iff in Hbad. destruct Hbad as [Hctr Hep].
    apply negb_false_iff in Hctr.
    unfold CommonHandler. unfold bind at 1. unfold reg_read at 1. unfold bind at 1.
    change (reg_get ISTR (Regs s)) with (r_ISTR (Regs s)).
    rewrite Hreset. unfold when at 1. unfold ret at 1.
    unfold bind at 1. unfold reg_read at 1. unfold bind at 1.
    change (reg_get ISTR (Regs s)) with (r_ISTR (Regs s)).
    rewrite Hctr. unfold when at 1.
    unfold bind at 1. unfold reg_read at 1.
    unfold bind at 1. unfold emit at 1.
    unfold bind at 1. unfold reg_read at 1.
    unfold EpHandlers_Handle.
    change (reg_get ISTR (Regs s)) with (r_ISTR (Regs s)).
    rewrite Hep, Hreg. reflexivity.
Qed.

(** X9. With a first configuration that composes at most 64 bytes, no
    sequence of interrupts at which the hardware reports only transfers on
    endpoint 0 and on registered endpoints, whatever else the peripheral
    shows at each of them, runs into the overrun of the scratch buffer or
    into the fatal dispatch: they are all served. *)
Theorem serve_never_overruns (irqs : list (Z * E)) (s : State E) :
  (length (cfg_FillDescriptor (_Configuration0 dev)) <= 64)%nat ->
  Forall (fun irq => well_reported dev (fst irq) = true) irqs ->
  exists s' tr, serve dev irqs s = Done tt s' tr.
Proof.
  intros Hfit Hwell.
  destruct (serve dev irqs s) as [[] s' tr | tr] eqn:Hrun.
  - exists s', tr. reflexivity.
  - destruct (serve_fault dev irqs s tr Hrun) as [Hbig | Hbad]; [lia |].
    apply Exists_exists in Hbad. destruct Hbad as (irq & Hin & Hbad).
    rewrite Forall_forall in Hwell. rewrite (Hwell irq Hin) in Hbad. discriminate Hbad.
Qed.

End PendingEdges.

(** ** [Enable] *)

Section EnableProperties.

Context {H : DeviceHeader} {E : Type} {Ep0 : Endpoint0 E}.

(** X10. [Enable] sets CNTR, ISTR and BTABLE to what [Reset] sets them to
    and, unlike [Reset], writes DADDR nowhere: the device function stays as
    it was until the first bus reset.  It leaves [TempAddressStorage] alone,
    or-s the pull-up bit into BCDR on the targets that have it and leaves
    BCDR alone on the others, enables the clock before anything else and the
    interrupt at the controller last, once the interrupt mask is set. *)
Theorem Enable_leaves_device_function
  (USB_BCDR_DPPU : option Z) (Init : E -> E) (dev : DeviceParameters) (b : Board E) :
  let b' := fst (Enable USB_BCDR_DPPU Init b) in
  let tr := snd (Enable USB_BCDR_DPPU Init b) in
  (exists s_r tr_r,
     Reset dev (usb b) = Done tt s_r tr_r /\
     Regs (usb b') = reg_set DADDR (r_DADDR (Regs (usb b))) (Regs s_r)) /\
  writes_to DADDR (usb_events tr) = [] /\
  TempAddressStorage (usb b') = TempAddressStorage (usb b) /\
  Ep0State (usb b') = Init (Ep0State (usb b)) /\
  r_BCDR b' = match USB_BCDR_DPPU with
              | Some dppu => Z.lor (r_BCDR b) dppu
              | None => r_BCDR b
              end /\
  hd_error tr = Some ClockCtrl_Enable /\
  (exists tr0,
     tr = tr0 ++ [NVIC_EnableIRQ] /\
     ~ List.In NVIC_EnableIRQ tr0 /\
     List.In (Usb (RegWrite CNTR (Z.lor USB_CNTR_CTRM USB_CNTR_RESETM))) tr0).
Proof.
  intros b' tr. subst b' tr.
  split; [rewrite Reset_run; eexists _, _; split; [reflexivity |];
          destruct USB_BCDR_DPPU; reflexivity |].
  destruct USB_BCDR_DPPU as [dppu |]; cbn.
  - repeat (split; [reflexivity |]).
    eexists [_; _; _; _; _; _]. split; [reflexivity | split].
    + intros Hin. simpl in Hin.
      repeat (destruct Hin as [Hin | Hin]; [discriminate Hin |]). exact Hin.
    + right. right. left. reflexivity.
  - repeat (split; [reflexivity |]).
    eexists [_; _; _; _; _]. split; [reflexivity | split].
    + intros Hin. simpl in Hin.
      repeat (destruct Hin as [Hin | Hin]; [discriminate Hin |]). exact Hin.
    + right. right. left. reflexivity.
Qed.

End EnableProperties.

(** * The register access layer *)

Lemma to_DataT_range (w : nat) (v : Z) : in_DataT w (to_DataT w v).
Proof.
  unfold in_DataT, to_DataT. apply Z.mod_pos_bound. apply Z.pow_pos_nonneg; lia.
Qed.

Lemma to_DataT_small (w : nat) (v : Z) : in_DataT w v -> to_DataT w v = v.
Proof. unfold in_DataT, to_DataT. intros. apply Z.mod_small. lia. Qed.

Lemma to_DataT_testbit (w : nat) (v i : Z) :
  Z.testbit (to_DataT w v) i = (i <? Z.of_nat w) && Z.testbit v i.
Proof.
  unfold to_DataT.
  destruct (Z.ltb_spec i (Z.of_nat w)).
  - destruct (Z.ltb_spec i 0).
    + rewrite !Z.testbit_neg_r by lia. reflexivity.
    + rewrite Z.mod_pow2_bits_low by lia. reflexivity.
  - rewrite Z.mod_pow2_bits_high by lia. reflexivity.
Qed.

Lemma in_DataT_testbit (w : nat) (v i : Z) :
  in_DataT w v -> Z.of_nat w <= i -> Z.testbit v i = false.
Proof.
  intros Hv Hi. rewrite <- (to_DataT_small w v Hv), to_DataT_testbit.
  destruct (Z.ltb_spec i (Z.of_nat w)); [lia | reflexivity].
Qed.

Lemma ones_testbit (n i : Z) :
  0 <= n -> Z.testbit (Z.ones n) i = (0 <=? i) && (i <? n).
Proof.
  intros Hn. destruct (Z.leb_spec 0 i); simpl.
  - destruct (Z.ltb_spec i n).
    + apply Z.ones_spec_low. lia.
    + apply Z.ones_spec_high. lia.
  - apply Z.testbit_neg_r. lia.
Qed.

Lemma field_fits_spec (w : nat) (off len : Z) :
  field_fits w off len = true ->
  0 <= off /\ 0 < len /\ off + len <= Z.of_nat w /\ (0 < w)%nat.
Proof.
  unfold field_fits. rewrite !andb_true_iff.
  intros ((((H1 & H2) & H3) & H4) & H5).
  apply Z.leb_le in H1, H3. apply Z.ltb_lt in H2. lia.
Qed.

Section BitfieldLaws.

Variables (w : nat) (off len : Z).
Hypothesis Hfits : field_fits w off len = true.

Lemma Mask_ones : IoBitfield.Mask w len = Z.ones len.
Proof.
  destruct (field_fits_spec _ _ _ Hfits) as (Hoff & Hlen & Hfit & Hw).
  unfold IoBitfield.Mask.
  rewrite (to_DataT_small w 1).
  - change (Z.shiftl 1 len - 1) with (Z.pred (Z.shiftl 1 len)).
    fold (Z.ones len). apply to_DataT_small. unfold in_DataT.
    rewrite Z.ones_equiv.
    assert (2 ^ len <= 2 ^ Z.of_nat w) by (apply Z.pow_le_mono_r; lia).
    assert (0 < 2 ^ len) by (apply Z.pow_pos_nonneg; lia). lia.
  - unfold in_DataT. split; [lia |].
    assert (Hp : 2 ^ 1 <= 2 ^ Z.of_nat w) by (apply Z.pow_le_mono_r; lia).
    simpl in Hp. lia.
Qed.

Lemma Set_testbit (value reg i : Z) :
  0 <= i ->
  Z.testbit (IoBitfield.Set_ w off len value reg) i =
  if (off <=? i) && (i <? off + len) then Z.testbit value (i - off)
  else (i <? Z.of_nat w) && Z.testbit reg i.
Proof.
  destruct (field_fits_spec _ _ _ Hfits) as (Hoff & Hlen & Hfit & Hw).
  intros Hi. unfold IoBitfield.Set_. rewrite Mask_ones.
  rewrite to_DataT_testbit, Z.lor_spec, !Z.land_spec, Z.lnot_spec by lia.
  rewrite !Z.shiftl_spec by lia. rewrite Z.land_spec, !ones_testbit by lia.
  rewrite to_DataT_testbit.
  destruct (Z.leb_spec off i), (Z.ltb_spec i (off + len)), (Z.ltb_spec i (Z.of_nat w));
    simpl;
    repeat match goal with
           | |- context [?a <=? ?b] => destruct (Z.leb_spec a b); try lia
           | |- context [?a <? ?b] => destruct (Z.ltb_spec a b); try lia
           end; simpl;
    rewrite ?andb_true_r, ?andb_false_r, ?orb_false_r, ?Z.testbit_neg_r by lia;
    try reflexivity.
  all: try (destruct (Z.testbit reg i); reflexivity).
Qed.

Lemma Get_shift (reg : Z) :
  IoBitfield.Get w off len reg = Z.shiftr reg off mod 2 ^ len.
Proof.
  destruct (field_fits_spec _ _ _ Hfits) as (Hoff & Hlen & Hfit & Hw).
  unfold IoBitfield.Get. rewrite Mask_ones. rewrite Z.land_ones by lia.
  apply to_DataT_small. unfold in_DataT.
  pose proof (Z.mod_pos_bound (Z.shiftr reg off) (2 ^ len)) as Hb.
  assert (0 < 2 ^ len) by (apply Z.pow_pos_nonneg; lia).
  assert (2 ^ len <= 2 ^ Z.of_nat w) by (apply Z.pow_le_mono_r; lia). lia.
Qed.

Lemma Get_testbit (reg i : Z) :
  0 <= i ->
  Z.testbit (IoBitfield.Get w off len reg) i = (i <? len) && Z.testbit reg (i + off).
Proof.
  destruct (field_fits_spec _ _ _ Hfits) as (Hoff & Hlen & Hfit & Hw).
  intros Hi. rewrite Get_shift.
  destruct (Z.ltb_spec i len); simpl.
  - rewrite Z.mod_pow2_bits_low by lia. rewrite Z.shiftr_spec by lia. reflexivity.
  - rewrite Z.mod_pow2_bits_high by lia. reflexivity.
Qed.

Lemma Get_after_Set (value reg : Z) :
  IoBitfield.Get w off len (IoBitfield.Set_ w off len value reg) = value mod 2 ^ len.
Proof.
  destruct (field_fits_spec _ _ _ Hfits) as (Hoff & Hlen & Hfit & Hw).
  apply Z.bits_inj'. intros i Hi.
  rewrite Get_testbit, Set_testbit by lia.
  destruct (Z.ltb_spec i len); simpl.
  - rewrite Z.mod_pow2_bits_low by lia.
    replace (i + off - off) with i by lia.
    destruct (Z.leb_spec off (i + off)); [| lia].
    destruct (Z.ltb_spec (i + off) (off + len)); [| lia]. reflexivity.
  - rewrite Z.mod_pow2_bits_high by lia. reflexivity.
Qed.

Lemma Set_outside (value reg i : Z) :
  0 <= i < Z.of_nat w -> i < off \/ off + len <= i ->
  Z.testbit (IoBitfield.Set_ w off len value reg) i = Z.testbit reg i.
Proof.
  intros Hi Hout. rewrite Set_testbit by lia.
  destruct (Z.leb_spec off i), (Z.ltb_spec i (off + len)); simpl; try lia;
    destruct (Z.ltb_spec i (Z.of_nat w)); try lia; reflexivity.
Qed.

End BitfieldLaws.

(** The macro against the expressions of the template: [Set] converts its
    argument to [DataT] first, [Get] its result last. *)
Lemma WRAPPER_Set_eq (wd wr : nat) (off len value reg : Z) :
  IO_BITFIELD_WRAPPER.Set_ wd wr off len value reg
  = IoBitfield.Set_ wr off len (to_DataT wd value) reg.
Proof. reflexivity. Qed.

Lemma WRAPPER_Get_eq (wd wr : nat) (off len reg : Z) :
  field_fits wr off len = true ->
  IO_BITFIELD_WRAPPER.Get wd wr off len reg = to_DataT wd (IoBitfield.Get wr off len reg).
Proof.
  intros Hfits.
  destruct (field_fits_spec _ _ _ Hfits) as (Hoff & Hlen & Hfit & Hw).
  unfold IO_BITFIELD_WRAPPER.Get.
  change (IO_BITFIELD_WRAPPER.Mask wr len) with (IoBitfield.Mask wr len).
  f_equal. symmetry. unfold IoBitfield.Get. apply to_DataT_small.
  rewrite (Mask_ones _ _ _ Hfits), Z.land_ones by lia.
  unfold in_DataT.
  pose proof (Z.mod_pos_bound (Z.shiftr reg off) (2 ^ len)) as Hb.
  assert (0 < 2 ^ len) by (apply Z.pow_pos_nonneg; lia).
  assert (2 ^ len <= 2 ^ Z.of_nat wr) by (apply Z.pow_le_mono_r; lia). lia.
Qed.

Lemma WRAPPER_Get_testbit (wd wr : nat) (off len reg i : Z) :
  field_fits wr off len = true -> 0 <= i ->
  Z.testbit (IO_BITFIELD_WRAPPER.Get wd wr off len reg) i
  = (i <? Z.of_nat wd) && ((i <? len) && Z.testbit reg (i + off)).
Proof.
  intros Hfits Hi.
  rewrite (WRAPPER_Get_eq _ _ _ _ _ Hfits), to_DataT_testbit.
  rewrite (Get_testbit _ _ _ Hfits) by lia. reflexivity.
Qed.

(** X12. Writing a bit field through the macro wrapper changes no bit of
    the register outside the field, so that another field of the same
    register that does not overlap it reads the same before and after. *)
Theorem IO_BITFIELD_WRAPPER_Set_keeps_other_fields
  (wd1 wd2 wr : nat) (off1 len1 off2 len2 value reg : Z) :
  field_fits wr off1 len1 = true ->
  field_fits wr off2 len2 = true ->
  off1 + len1 <= off2 \/ off2 + len2 <= off1 ->
  (forall i, 0 <= i < Z.of_nat wr -> i < off1 \/ off1 + len1 <= i ->
             Z.testbit (IO_BITFIELD_WRAPPER.Set_ wd1 wr off1 len1 value reg) i
             = Z.testbit reg i) /\
  IO_BITFIELD_WRAPPER.Get wd2 wr off2 len2
    (IO_BITFIELD_WRAPPER.Set_ wd1 wr off1 len1 value reg)
  = IO_BITFIELD_WRAPPER.Get wd2 wr off2 len2 reg.
Proof.
  intros Hf1 Hf2 Hd.
  destruct (field_fits_spec _ _ _ Hf1) as (Ho1 & Hl1 & Hfit1 & Hw).
  destruct (field_fits_spec _ _ _ Hf2) as (Ho2 & Hl2 & Hfit2 & _).
  split.
  - intros i Hi Hout. rewrite WRAPPER_Set_eq.
    apply (Set_outside _ _ _ Hf1); assumption.
  - apply Z.bits_inj'. intros i Hi.
    rewrite !(WRAPPER_Get_testbit _ _ _ _ _ _ Hf2) by lia.
    destruct (Z.ltb_spec i (Z.of_nat wd2)); [| reflexivity].
    destruct (Z.ltb_spec i len2); [| reflexivity]. simpl.
    rewrite WRAPPER_Set_eq. apply (Set_outside _ _ _ Hf1); lia.
Qed.

(** X13. With a value type that holds the whole field, writing back through
    the macro wrapper what the field holds leaves the register as it is; and
    of two writes to the same field only the second counts, whatever the
    value type. *)
Theorem IO_BITFIELD_WRAPPER_Set_of_Get_and_Set_twice
  (wd wr : nat) (off len x y reg : Z) :
  field_fits wr off len = true ->
  in_DataT wr reg ->
  (len <= Z.of_nat wd ->
   IO_BITFIELD_WRAPPER.Set_ wd wr off len
     (IO_BITFIELD_WRAPPER.Get wd wr off len reg) reg = reg) /\
  IO_BITFIELD_WRAPPER.Set_ wd wr off len y
    (IO_BITFIELD_WRAPPER.Set_ wd wr off len x reg)
  = IO_BITFIELD_WRAPPER.Set_ wd wr off len y reg.
Proof.
  intros Hfits Hr.
  destruct (field_fits_spec _ _ _ Hfits) as (Hoff & Hlen & Hfit & Hw).
  split.
  - intros Hwd. apply Z.bits_inj'. intros i Hi.
    rewrite WRAPPER_Set_eq, (Set_testbit _ _ _ Hfits) by lia.
    destruct (Z.leb_spec off i), (Z.ltb_spec i (off + len)); simpl.
    + rewrite to_DataT_testbit, (WRAPPER_Get_testbit _ _ _ _ _ _ Hfits) by lia.
      replace (i - off + off) with i by lia.
      destruct (Z.ltb_spec (i - off) (Z.of_nat wd)); [| lia].
      destruct (Z.ltb_spec (i - off) len); [reflexivity | lia].
    + destruct (Z.ltb_spec i (Z.of_nat wr)); [reflexivity |].
      simpl. symmetry. apply (in_DataT_testbit wr); [exact Hr | lia].
    + destruct (Z.ltb_spec i (Z.of_nat wr)); [reflexivity |].
      simpl. symmetry. apply (in_DataT_testbit wr); [exact Hr | lia].
    + lia.
  - apply Z.bits_inj'. intros i Hi.
    rewrite !WRAPPER_Set_eq, !(Set_testbit _ _ _ Hfits) by lia.
    destruct ((off <=? i) && (i <? off + len)); [reflexivity |].
    destruct (Z.ltb_spec i (Z.of_nat wr)); reflexivity.
Qed.

(** X14. The macro wrapper of a bit field, with a value type [DataT] of its
    own: [Set] writes the field as [IoBitfield] over the register type does,
    [Get] returns that field converted to [DataT], and a value of [DataT] is
    read back as it was written, reduced to the length of the field. *)
Theorem IO_BITFIELD_WRAPPER_round_trip (wd wr : nat) (off len value reg : Z) :
  field_fits wr off len = true ->
  in_DataT wd value ->
  IO_BITFIELD_WRAPPER.Set_ wd wr off len value reg
    = IoBitfield.Set_ wr off len value reg /\
  IO_BITFIELD_WRAPPER.Get wd wr off len reg
    = to_DataT wd (IoBitfield.Get wr off len reg) /\
  IO_BITFIELD_WRAPPER.Get wd wr off len
    (IO_BITFIELD_WRAPPER.Set_ wd wr off len value reg) = value mod 2 ^ len.
Proof.
  intros Hfits Hv.
  destruct (field_fits_spec _ _ _ Hfits) as (Hoff & Hlen & Hfit & Hw).
  assert (Hset : IO_BITFIELD_WRAPPER.Set_ wd wr off len value reg
                 = IoBitfield.Set_ wr off len value reg).
  { unfold IO_BITFIELD_WRAPPER.Set_, IoBitfield.Set_.
    rewrite (to_DataT_small wd value Hv). reflexivity. }
  assert (Hget : forall r, IO_BITFIELD_WRAPPER.Get wd wr off len r
                           = to_DataT wd (IoBitfield.Get wr off len r)).
  { intros r. unfold IO_BITFIELD_WRAPPER.Get.
    change (IO_BITFIELD_WRAPPER.Mask wr len) with (IoBitfield.Mask wr len).
    f_equal. symmetry. unfold IoBitfield.Get. apply to_DataT_small.
    rewrite (Mask_ones _ _ _ Hfits), Z.land_ones by lia.
    unfold in_DataT.
    pose proof (Z.mod_pos_bound (Z.shiftr r off) (2 ^ len)) as Hb.
    assert (0 < 2 ^ len) by (apply Z.pow_pos_nonneg; lia).
    assert (2 ^ len <= 2 ^ Z.of_nat wr) by (apply Z.pow_le_mono_r; lia). lia. }
  split; [exact Hset | split; [apply Hget |]].
  rewrite Hget, Hset.
  rewrite (Get_after_Set _ _ _ Hfits).
  apply to_DataT_small. unfold in_DataT in *.
  assert (0 < 2 ^ len) by (apply Z.pow_pos_nonneg; lia).
  pose proof (Z.mod_pos_bound value (2 ^ len)).
  pose proof (Z.mod_le value (2 ^ len)). lia.
Qed.

(** ** Whole registers *)

Lemma land_pow2 (reg b : Z) :
  0 <= b -> truthy (Z.land reg (2 ^ b)) = Z.testbit reg b.
Proof.
  intros Hb. unfold truthy.
  destruct (Z.testbit reg b) eqn:Ht.
  - destruct (Z.eqb_spec (Z.land reg (2 ^ b)) 0) as [He | He]; [| reflexivity].
    exfalso. assert (Hbit : Z.testbit (Z.land reg (2 ^ b)) b = true).
    { rewrite Z.land_spec, Ht, Z.pow2_bits_true by lia. reflexivity. }
    rewrite He, Z.bits_0 in Hbit. discriminate.
  - replace (Z.land reg (2 ^ b)) with 0; [reflexivity |].
    symmetry. apply Z.bits_inj'. intros i Hi.
    rewrite Z.land_spec, Z.bits_0.
    destruct (Z.eq_dec i b) as [-> | Hne]; [rewrite Ht; reflexivity |].
    rewrite Z.pow2_bits_false by lia. apply andb_false_r.
Qed.

(** The most negative [int] has the bits from 31 upwards. *)
Lemma int_min_testbit (i : Z) : 0 <= i -> Z.testbit (- 2 ^ 31) i = (31 <=? i).
Proof.
  intros Hi.
  replace (- 2 ^ 31) with (Z.lnot (Z.ones 31))
    by (rewrite Z.ones_equiv; unfold Z.lnot; lia).
  rewrite Z.lnot_spec, ones_testbit by lia.
  destruct (Z.leb_spec 0 i), (Z.ltb_spec i 31), (Z.leb_spec 31 i); simpl; lia || reflexivity.
Qed.

(** On a register of at most 32 bits the most negative [int] selects bit 31. *)
Lemma land_int_min (wr : nat) (reg : Z) :
  (wr <= 32)%nat -> in_DataT wr reg ->
  truthy (Z.land reg (- 2 ^ 31)) = Z.testbit reg 31.
Proof.
  intros Hw Hr. rewrite <- (land_pow2 reg 31) by lia. f_equal.
  apply Z.bits_inj'. intros i Hi.
  rewrite !Z.land_spec, int_min_testbit by lia.
  destruct (Z.eq_dec i 31) as [-> | Hne].
  - rewrite Z.pow2_bits_true by lia. reflexivity.
  - rewrite Z.pow2_bits_false by lia.
    destruct (Z.leb_spec 31 i); [| reflexivity].
    rewrite (in_DataT_testbit wr reg i Hr) by lia. reflexivity.
Qed.

Lemma int_1_shl_low (Bit : Z) : 0 <= Bit <= 30 -> int_1_shl Bit = Some (2 ^ Bit).
Proof.
  intros HB. unfold int_1_shl.
  destruct (Z.leb_spec 0 Bit); [| lia].
  destruct (Z.ltb_spec Bit 31); [reflexivity | lia].
Qed.

Lemma int_1_shl_31 : int_1_shl 31 = Some (- 2 ^ 31).
Proof. reflexivity. Qed.

Lemma int_1_shl_high (Bit : Z) : 32 <= Bit -> int_1_shl Bit = None.
Proof.
  intros HB. unfold int_1_shl.
  destruct (Z.ltb_spec Bit 31); [lia |]. rewrite andb_false_r.
  destruct (Z.eqb_spec Bit 31); [lia | reflexivity].
Qed.

(** X16. [IsBitSet] and [IsBitClear] of the macro [IO_REG_WRAPPER].  For a
    bit index up to 30, and for 31 on a register of at most 32 bits,
    [IsBitSet] is the binary digit of the register at that index and
    [IsBitClear] its negation; from 32 on the shift is not defined.  Below
    the widths of the register and of the value type, the bit is set after
    [Or] with it and clear after [And] with its complement.  On a register
    wider than [int], bit 31 is tested with the sign-extended mask:
    [IsBitSet<31>] holds as soon as any bit from 31 upwards is set. *)
Theorem IO_REG_WRAPPER_IsBitSet_is_the_bit (wd wr : nat) (Bit reg : Z) :
  0 <= Bit ->
  in_DataT wr reg ->
  (Bit <= 30 \/ (Bit = 31 /\ (wr <= 32)%nat) ->
   IO_REG_WRAPPER.IsBitSet Bit reg = Some (Z.testbit reg Bit) /\
   IO_REG_WRAPPER.IsBitClear Bit reg = Some (negb (Z.testbit reg Bit))) /\
  (32 <= Bit ->
   IO_REG_WRAPPER.IsBitSet Bit reg = None /\
   IO_REG_WRAPPER.IsBitClear Bit reg = None) /\
  (Bit <= 30 -> Bit < Z.of_nat wr -> Bit < Z.of_nat wd ->
   IO_REG_WRAPPER.IsBitSet Bit (IO_REG_WRAPPER.Or wd wr (2 ^ Bit) reg) = Some true /\
   IO_REG_WRAPPER.IsBitSet Bit
     (IO_REG_WRAPPER.And wd wr (Z.lnot (2 ^ Bit)) reg) = Some false) /\
  (Bit = 31 ->
   IO_REG_WRAPPER.IsBitSet Bit reg
   = Some (negb (reg <? 2 ^ 31))).
Proof.
  intros HB Hr.
  unfold IO_REG_WRAPPER.IsBitSet, IO_REG_WRAPPER.IsBitClear.
  split; [| split; [| split]].
  - intros [Hlow | [-> Hw]].
    + rewrite int_1_shl_low by lia.
      rewrite land_pow2 by lia. split; reflexivity.
    + rewrite int_1_shl_31, (land_int_min wr reg Hw Hr). split; reflexivity.
  - intros Hhigh. rewrite int_1_shl_high by lia. split; reflexivity.
  - intros Hlow Hwr Hwd.
    rewrite int_1_shl_low by lia.
    rewrite !land_pow2 by lia.
    unfold IO_REG_WRAPPER.Or, IO_REG_WRAPPER.And.
    rewrite !to_DataT_testbit, Z.lor_spec, Z.land_spec, !to_DataT_testbit,
      Z.lnot_spec by lia.
    rewrite Z.pow2_bits_true by lia.
    destruct (Z.ltb_spec Bit (Z.of_nat wr)); [| lia].
    destruct (Z.ltb_spec Bit (Z.of_nat wd)); [| lia]. simpl.
    rewrite orb_true_r, andb_false_r. split; reflexivity.
  - intros ->. rewrite int_1_shl_31. f_equal.
    destruct Hr as [Hr0 Hr1].
    destruct (Z.ltb_spec reg (2 ^ 31)) as [Hsmall | Hbig]; cbn [negb].
    + replace (Z.land reg (- 2 ^ 31)) with 0; [reflexivity |].
      symmetry. apply Z.bits_inj'. intros i Hi.
      rewrite Z.land_spec, int_min_testbit, Z.bits_0 by lia.
      destruct (Z.leb_spec 31 i); [| apply andb_false_r].
      rewrite andb_true_r.
      destruct (Z.eq_dec reg 0) as [-> | Hnz]; [apply Z.bits_0 |].
      apply Z.bits_above_log2; [lia |].
      apply Z.log2_lt_pow2; [lia |].
      assert (2 ^ 31 <= 2 ^ i) by (apply Z.pow_le_mono_r; lia). lia.
    + unfold truthy. apply negb_true_iff. apply Z.eqb_neq. intros Hz.
      assert (Hpos : 0 < 2 ^ 31) by (apply Z.pow_pos_nonneg; lia).
      assert (Hhigh : exists i, 31 <= i /\ Z.testbit reg i = true).
      { exists (Z.log2 reg). split.
        - apply Z.log2_le_pow2; lia.
        - apply Z.bit_log2. lia. }
      destruct Hhigh as (i & Hi & Hbit).
      assert (Hand : Z.testbit (Z.land reg (- 2 ^ 31)) i = true).
      { rewrite Z.land_spec, Hbit, int_min_testbit by lia.
        destruct (Z.leb_spec 31 i); [reflexivity | lia]. }
      rewrite Hz, Z.bits_0 in Hand. discriminate.
Qed.

(** * The handlers run on the concrete target *)

#[local] Existing Instance stm32_header.
#[local] Existing Instance ep0_model.

(** The scenario of the device descriptor: the host asks for 64 bytes and gets
    the 18 of the descriptor, with 0x34 0x12 0x78 0x56 at offsets 8 to 11; a
    host that asks for 8 bytes gets the first 8. *)
Lemma GetDescriptor_Device_response_witness :
  let whole := [0x80; 6; 0; 1; 0; 0; 64; 0] in
  let head := [0x80; 6; 0; 1; 0; 0; 8; 0] in
  let descriptor := [18; 1; 0x00; 0x02; 0; 0; 0; 64;
                     0x34; 0x12; 0x78; 0x56; 0x00; 0x01; 0; 0; 0; 1] in
  let answer := fun pkt response =>
    ReceiveComplete demo_device (setup_arrived 0 pkt) =
    Done tt
         (mkState (mkRegs 0x8400 0x8000 0 0x80) 0
                  (Ep0Model.mk 0x0800 pkt response
                               EndpointStatus.Valid EndpointStatus.Valid))
         [Ep0RegGet 0x8800; Ep0ClearCtrRx; Ep0RegGet 0x0800;
          Ep0SendData response; Ep0SetRxStatus EndpointStatus.Valid] in
  template_arguments_in_range demo_device = true /\
  setup_pending (setup_arrived 0 whole) = true /\
  SetupPacket.Length (received_setup (setup_arrived 0 whole)) = 64 /\
  answer whole descriptor /\
  setup_pending (setup_arrived 0 head) = true /\
  SetupPacket.Length (received_setup (setup_arrived 0 head)) = 8 /\
  answer head [18; 1; 0x00; 0x02; 0; 0; 0; 64].
Proof.
  intros whole head descriptor answer.
  split; [reflexivity | split; [reflexivity | split; [reflexivity | split]]].
  - exact (proj1 (GetDescriptor_Device_response
              (H:=stm32_header) (Ep0:=ep0_model) demo_device (setup_arrived 0 whole)
              eq_refl eq_refl eq_refl eq_refl)).
  - split; [reflexivity | split; [reflexivity |]].
    exact (proj1 (GetDescriptor_Device_response
              (H:=stm32_header) (Ep0:=ep0_model) demo_device (setup_arrived 0 head)
              eq_refl eq_refl eq_refl eq_refl)).
Defined.

(** A request for a string descriptor (selector 0x0300) is stalled. *)
Lemma GetDescriptor_unsupported_stalls_witness :
  let s0 := setup_arrived 0 [0x80; 6; 0; 3; 0; 0; 64; 0] in
  setup_pending s0 = true /\
  DescriptorParameter_of (SetupPacket.Value (received_setup s0))
    = GetDescriptorParameter.Other 0x0300 /\
  ReceiveComplete demo_device s0 =
    Done tt
         (mkState (Regs s0) 0
                  (Ep0Model.mk 0x0800 [0x80; 6; 0; 3; 0; 0; 64; 0] []
                               EndpointStatus.Stall EndpointStatus.Valid))
         [Ep0RegGet 0x8800; Ep0ClearCtrRx; Ep0RegGet 0x0800;
          Ep0SetTxStatus EndpointStatus.Stall; Ep0SetRxStatus EndpointStatus.Valid].
Proof.
  intros s0.
  split; [reflexivity | split; [reflexivity |]].
  exact (proj1 (GetDescriptor_unsupported_stalls
            (H:=stm32_header) (Ep0:=ep0_model) demo_device s0 0x0300
                  eq_refl eq_refl eq_refl)).
Defined.

(** SetConfiguration(1): the acknowledgment is handed to the writer and the
    transmit direction ends up stalled. *)
Lemma SetConfiguration_runs_into_stall_witness :
  let s0 := setup_arrived 5 [0; 9; 1; 0; 0; 0; 0; 0] in
  setup_pending s0 = true /\
  SetupPacket.Request (received_setup s0) = StandartRequestCode.SetConfiguration /\
  ReceiveComplete demo_device s0 =
    Done tt
         (mkState (Regs s0) 0
                  (Ep0Model.mk 0x0800 [0; 9; 1; 0; 0; 0; 0; 0] []
                               EndpointStatus.Stall EndpointStatus.Valid))
         [Ep0RegGet 0x8800; Ep0ClearCtrRx; Ep0RegGet 0x0800;
          Ep0SendData []; Ep0SetTxStatus EndpointStatus.Stall;
          Ep0SetRxStatus EndpointStatus.Valid].
Proof.
  intros s0.
  split; [reflexivity | split; [reflexivity |]].
  exact (proj1 (SetConfiguration_runs_into_stall
            (H:=stm32_header) (Ep0:=ep0_model) demo_device s0 eq_refl eq_refl)).
Defined.




(** A bus reset at address 5: the device is back at address 0. *)
Lemma Reset_reactivates_at_address_0_witness :
  let s0 := mkState (mkRegs 0x8400 0x0400 0 0x85) 0
                    (Ep0Model.mk 0 [] [] EndpointStatus.Nak EndpointStatus.Valid) in
  Z.land USB_DADDR_EF USB_DADDR_ADD = 0 /\
  exists s',
    Reset demo_device s0 =
      Done tt s' [RegWrite CNTR 0x8400; RegWrite ISTR 0; Ep0Reset;
                  ConfigurationReset 0; RegWrite BTABLE 0; RegWrite DADDR 0x80] /\
    Regs s' = mkRegs 0x8400 0 0 0x80.
Proof.
  intros s0. split; [reflexivity |].
  destruct (Reset_reactivates_at_address_0
            (H:=stm32_header) (Ep0:=ep0_model) demo_device s0 eq_refl)
    as (s' & Hrun & Hregs & _).
  exists s'. split; [exact Hrun | exact Hregs].
Defined.

(** SetAddress(5) to a device at address 0: the run that dispatches it
    leaves DADDR alone, and the run that handles the IN of the status stage
    writes enable flag + 5. *)
Lemma SetAddress_deferred_commit_witness :
  let pkt := [0; 5; 5; 0; 0; 0; 0; 0] in
  let s0 := setup_arrived 0 pkt in
  let s1 := mkState (mkRegs 0x8400 0x8000 0 0x80) 5
                    (Ep0Model.mk 0x0800 pkt []
                                 EndpointStatus.Valid EndpointStatus.Valid) in
  USB_DADDR_ADD = 127 /\
  Z.land USB_DADDR_EF USB_DADDR_ADD = 0 /\
  setup_pending s0 = true /\
  SetupPacket.Request (received_setup s0) = StandartRequestCode.SetAddress /\
  SetupPacket.Value (received_setup s0) = 5 /\
  Handler demo_device s0 =
    Done tt s1 [Ep0RegGet 0x8800; Ep0ClearCtrRx; Ep0RegGet 0x0800;
                TempAddressStore 5; Ep0SendData [];
                Ep0SetRxStatus EndpointStatus.Valid; Ep0RegGet 0x0800] /\
  Handler demo_device (hardware in_done s1) =
    Done tt
         (mkState (mkRegs 0x8400 0x8000 0 0x85) 0
                  (Ep0Model.mk 0 [] [] EndpointStatus.Nak EndpointStatus.Valid))
         [Ep0RegGet 0x0080; Ep0RegGet 0x0080; Ep0ClearCtrTx;
          RegWrite DADDR 0x85; TempAddressStore 0;
          Ep0SetRxStatus EndpointStatus.Valid].
Proof.
  intros pkt s0 s1.
  split; [reflexivity | split; [reflexivity | split; [reflexivity |
    split; [reflexivity | split; [reflexivity |]]]]].
  assert (Hrange : 1 <= 5 <= 127) by lia.
  pose proof (SetAddress_deferred_commit
                (H:=stm32_header) (Ep0:=ep0_model) demo_device s0 5
                eq_refl eq_refl Hrange eq_refl eq_refl eq_refl)
    as (_ & Hidle & _ & Hlater & _).
  split.
  - exact (Hidle eq_refl).
  - exact (proj2 (Hlater (hardware in_done s1) (hardware in_done s1)
                         [Ep0RegGet 0x0080] eq_refl eq_refl) eq_refl).
Defined.

(** SetAddress(0x0105): the byte 5 is kept, and committed. *)
Lemma SetAddress_byte_then_7_bits_witness :
  let s0 := setup_arrived 0 [0; 5; 5; 1; 0; 0; 0; 0] in
  USB_DADDR_ADD = 127 /\
  Z.land USB_DADDR_EF USB_DADDR_ADD = 0 /\
  setup_pending s0 = true /\
  SetupPacket.Value (received_setup s0) = 0x0105 /\
  exists s1 tr1,
    ReceiveComplete demo_device s0 = Done tt s1 tr1 /\
    TempAddressStorage s1 = 5 /\
    exists s2 tr2,
      Handler demo_device (hardware in_done s1) = Done tt s2 tr2 /\
      r_DADDR (Regs s2) = 0x85 /\
      device_address s2 = 5.
Proof.
  intros s0.
  split; [reflexivity | split; [reflexivity | split; [reflexivity | split; [reflexivity |]]]].
  destruct (SetAddress_byte_then_7_bits
            (H:=stm32_header) (Ep0:=ep0_model) demo_device s0 0x0105
              eq_refl eq_refl eq_refl eq_refl eq_refl)
    as (s1 & tr1 & Hrx & Htemp & Hstatus).
  exists s1, tr1. split; [exact Hrx | split; [exact Htemp |]].
  assert (Hrx1 : rx_flag (hardware in_done s1) = false) by reflexivity.
  assert (Htx1 : tx_flag (hardware in_done s1) = true) by reflexivity.
  assert (Hnz : 0x0105 mod 256 <> 0) by (vm_compute; discriminate).
  destruct (Hstatus in_done Hrx1 Htx1 Hnz) as (s2 & tr2 & Hh & Hd & Ha & _).
  exists s2, tr2. split; [exact Hh | split; [exact Hd | exact Ha]].
Defined.

(** SetAddress(0) at address 5: the device stays at address 5. *)
Lemma SetAddress_zero_not_committed_witness :
  let s0 := setup_arrived 5 [0; 5; 0; 0; 0; 0; 0; 0] in
  setup_pending s0 = true /\
  SetupPacket.Request (received_setup s0) = StandartRequestCode.SetAddress /\
  SetupPacket.Value (received_setup s0) = 0 /\
  exists s1 tr1,
    ReceiveComplete demo_device s0 = Done tt s1 tr1 /\
    responses tr1 = [[]] /\
    exists s2 tr2,
      Handler demo_device (hardware in_done s1) = Done tt s2 tr2 /\
      writes_to DADDR tr2 = [] /\
      r_DADDR (Regs s2) = 0x85.
Proof.
  intros s0.
  split; [reflexivity | split; [reflexivity | split; [reflexivity |]]].
  destruct (SetAddress_zero_not_committed
            (H:=stm32_header) (Ep0:=ep0_model) demo_device s0 eq_refl eq_refl eq_refl)
    as (s1 & tr1 & Hrx & Hresp & _ & _ & _ & Hstatus).
  exists s1, tr1. split; [exact Hrx | split; [exact Hresp |]].
  assert (Hrx1 : rx_flag (hardware in_done s1) = false) by reflexivity.
  assert (Htx1 : tx_flag (hardware in_done s1) = true) by reflexivity.
  destruct (Hstatus in_done Hrx1 Htx1) as (s2 & tr2 & Hh & Hw & Hd).
  exists s2, tr2. split; [exact Hh | split; [exact Hw | exact Hd]].
Defined.

(** C1 as stated fails.  SetAddress(0) to a device at address 5 leaves the
    device at address 5 once the status stage has completed.  SetAddress(5)
    that arrives at a device at address 0 while the endpoint register still
    flags a completed transmission is committed by the run that dispatches
    it: DADDR reads enable flag + 5 when that run returns, whatever happens
    at the status stage. *)
Lemma SetAddress_commit_not_as_specified :
  let zero := setup_arrived 5 [0; 5; 0; 0; 0; 0; 0; 0] in
  let flagged := setup_arrived_tx_flagged 0 [0; 5; 5; 0; 0; 0; 0; 0] in
  (setup_pending zero = true /\
   SetupPacket.Request (received_setup zero) = StandartRequestCode.SetAddress /\
   SetupPacket.Value (received_setup zero) = 0 /\
   ~ deferred_commit_as_specified demo_device zero 0 in_done) /\
  (setup_pending flagged = true /\
   SetupPacket.Request (received_setup flagged) = StandartRequestCode.SetAddress /\
   SetupPacket.Value (received_setup flagged) = 5 /\
   r_DADDR (Regs flagged) = 0x80 /\
   (exists s1 tr, Handler demo_device flagged = Done tt s1 tr /\
                  r_DADDR (Regs s1) = 0x85) /\
   forall e2, ~ deferred_commit_as_specified demo_device flagged 5 e2).
Proof.
  intros zero flagged.
  split.
  - split; [reflexivity | split; [reflexivity | split; [reflexivity |]]].
    vm_compute. intros (_ & Habs & _). discriminate Habs.
  - split; [reflexivity | split; [reflexivity | split; [reflexivity |
      split; [reflexivity | split]]]].
    + eexists _, _. split; reflexivity.
    + intros e2 Habs.
      assert (Hd : r_DADDR (Regs flagged) = 0x85).
      { unfold deferred_commit_as_specified in Habs.
        change (Handler demo_device flagged) with
          (Done (S:=State Ep0Model.t) tt
             (mkState (mkRegs 0x8400 0x8000 0 0x85) 0
                (Ep0Model.mk 0x0800 [0; 5; 5; 0; 0; 0; 0; 0] []
                             EndpointStatus.Valid EndpointStatus.Valid))
             [Ep0RegGet 0x8880; Ep0ClearCtrRx; Ep0RegGet 0x0880;
              TempAddressStore 5; Ep0SendData [];
              Ep0SetRxStatus EndpointStatus.Valid;
              Ep0RegGet 0x0880; Ep0ClearCtrTx; RegWrite DADDR 0x85;
              TempAddressStore 0; Ep0SetRxStatus EndpointStatus.Valid]) in Habs.
        destruct Habs as [Hsame _]. symmetry. exact Hsame. }
      vm_compute in Hd. discriminate Hd.
Qed.

(** A completion that is not that of the status stage commits the pending
    address: SetAddress(5), a bus reset, GetDescriptor(Device), and the IN of
    the descriptor.  The reset puts the device at address 0 and the end of
    the descriptor's transmission moves it to address 5. *)
Lemma address_committed_after_bus_reset :
  let boot := mkState (mkRegs 0x8400 0 0 0x80) 0
                      (Ep0Model.mk 0 [] [] EndpointStatus.Nak EndpointStatus.Valid) in
  let setup := fun pkt =>
    Ep0Model.mk 0x8800 pkt [] EndpointStatus.Nak EndpointStatus.Nak in
  let irqs := [(0x8000, setup [0; 5; 5; 0; 0; 0; 0; 0]);
               (0x0400, setup [0; 5; 5; 0; 0; 0; 0; 0]);
               (0x8000, setup [0x80; 6; 0; 1; 0; 0; 64; 0]);
               (0x8000, in_done)] in
  writes_to DADDR (trace (serve demo_device irqs boot)) = [0x80; 0x85] /\
  option_map (fun s => (r_DADDR (Regs s), TempAddressStorage s))
             (final (serve demo_device irqs boot)) = Some (0x85, 0).
Proof. split; reflexivity. Qed.

(** An OUT packet that is not a SETUP packet is acknowledged and dropped. *)
Lemma Handler_answers_only_SETUP_witness :
  let s0 := mkState (mkRegs 0x8400 0x8000 0 0x85) 0
                    (Ep0Model.mk 0x8000 [1; 2; 3] [] EndpointStatus.Nak EndpointStatus.Nak) in
  setup_pending s0 = false /\
  exists s' tr,
    Handler demo_device s0 = Done tt s' tr /\
    responses tr = [] /\
    tx_statuses tr = [].
Proof.
  intros s0. split; [reflexivity |].
  destruct (Handler_answers_only_SETUP
              (H:=stm32_header) (Ep0:=ep0_model) demo_device s0 eq_refl)
    as (s' & tr & Hh & Hr & Ht & _).
  exists s', tr. split; [exact Hh | split; [exact Hr | exact Ht]].
Defined.

(** The host asks for 9 bytes of the 25-byte configuration descriptor. *)
Lemma response_within_requested_length_witness :
  let s0 := setup_arrived 0 [0x80; 6; 0; 2; 0; 0; 9; 0] in
  setup_pending s0 = true /\
  SetupPacket.Request (received_setup s0) <> StandartRequestCode.GetStatus /\
  Forall (fun d => Z.of_nat (length d) <= 9) (responses (trace (Handler demo_device s0))).
Proof.
  intros s0.
  assert (Hne : SetupPacket.Request (received_setup s0) <> StandartRequestCode.GetStatus)
    by (vm_compute; discriminate).
  split; [reflexivity | split; [exact Hne |]].
  exact (response_within_requested_length
           (H:=stm32_header) (Ep0:=ep0_model) demo_device s0 eq_refl Hne).
Defined.

(** GetStatus with a requested length of 1 is still answered with 2 bytes. *)
Lemma GetStatus_two_zero_bytes_witness :
  let s0 := setup_arrived 5 [0x80; 0; 0; 0; 0; 0; 1; 0] in
  setup_pending s0 = true /\
  SetupPacket.Length (received_setup s0) = 1 /\
  exists s' tr,
    Handler demo_device s0 = Done tt s' tr /\
    responses tr = [[0; 0]] /\
    tx_statuses tr = [].
Proof.
  intros s0. split; [reflexivity | split; [reflexivity |]].
  exact (GetStatus_two_zero_bytes
           (H:=stm32_header) (Ep0:=ep0_model) demo_device s0 eq_refl eq_refl).
Defined.

(** SetAddress(5) received while a completed transmission is still flagged:
    the address register reads enable flag + 5 when [Handler] returns. *)
Lemma SetAddress_committed_in_same_run_witness :
  let s0 := mkState (mkRegs 0x8400 0x8000 0 0x80) 0
                    (Ep0Model.mk 0x8880 [0; 5; 5; 0; 0; 0; 0; 0] []
                                 EndpointStatus.Nak EndpointStatus.Nak) in
  setup_pending s0 = true /\
  SetupPacket.Value (received_setup s0) = 5 /\
  exists s' tr,
    Handler demo_device s0 = Done tt s' tr /\
    r_DADDR (Regs s') = 0x85 /\
    TempAddressStorage s' = 0.
Proof.
  intros s0. split; [reflexivity | split; [reflexivity |]].
  assert (Hnz : 5 mod 256 <> 0) by (vm_compute; discriminate).
  destruct (SetAddress_committed_in_same_run
              (H:=stm32_header) (Ep0:=ep0_model) demo_device s0 5
              eq_refl eq_refl eq_refl Hnz eq_refl)
    as (s' & tr & Hh & Hd & Hz & _).
  exists s', tr. split; [exact Hh | split; [exact Hd | exact Hz]].
Defined.

(** A bus reset with address 5 pending: address 0 first, address 5 after the
    next completed transmission. *)
Lemma Reset_keeps_pending_address_witness :
  let s0 := mkState (mkRegs 0x8400 0x0400 0 0x80) 5
                    (Ep0Model.mk 0 [] [] EndpointStatus.Valid EndpointStatus.Valid) in
  TempAddressStorage s0 <> 0 /\
  exists s1 tr1,
    Reset demo_device s0 = Done tt s1 tr1 /\
    r_DADDR (Regs s1) = 0x80 /\
    exists s2 tr2,
      Handler demo_device (hardware in_done s1) = Done tt s2 tr2 /\
      r_DADDR (Regs s2) = 0x85.
Proof.
  intros s0.
  assert (Hnz : TempAddressStorage s0 <> 0) by (vm_compute; discriminate).
  split; [exact Hnz |].
  destruct (Reset_keeps_pending_address
              (H:=stm32_header) (Ep0:=ep0_model) demo_device s0 Hnz)
    as (s1 & tr1 & Hr & Hd & _ & Hnext).
  exists s1, tr1. split; [exact Hr | split; [exact Hd |]].
  assert (Hrx1 : rx_flag (hardware in_done s1) = false) by reflexivity.
  assert (Htx1 : tx_flag (hardware in_done s1) = true) by reflexivity.
  destruct (Hnext in_done Hrx1 Htx1) as (s2 & tr2 & Hh & Hd2 & _).
  exists s2, tr2. split; [exact Hh | exact Hd2].
Defined.

(** Interrupts of the demo device are served: a request on endpoint 0, the
    end of its transmission, a transfer on the registered endpoint 1 IN and
    a bus reset. *)
Lemma serve_never_overruns_witness :
  let s0 := setup_arrived 0 [0x80; 6; 0; 2; 0; 0; 64; 0] in
  let irqs := [(0x8000, Ep0State s0); (0x8000, in_done);
               (0x8011, in_done); (0x0400, in_done)] in
  (length (cfg_FillDescriptor (_Configuration0 demo_device)) <= 64)%nat /\
  Forall (fun irq => well_reported demo_device (fst irq) = true) irqs /\
  exists s' tr, serve demo_device irqs s0 = Done tt s' tr.
Proof.
  intros s0 irqs.
  assert (Hfit : (length (cfg_FillDescriptor (_Configuration0 demo_device)) <= 64)%nat)
    by (simpl; lia).
  assert (Hwell : Forall (fun irq => well_reported demo_device (fst irq) = true) irqs)
    by (repeat constructor).
  split; [exact Hfit | split; [exact Hwell |]].
  exact (serve_never_overruns
           (H:=stm32_header) (Ep0:=ep0_model) demo_device irqs s0 Hfit Hwell).
Defined.

(** The 7-bit address field of a 16-bit DADDR and the enable flag above it:
    writing the address leaves the flag as it is. *)
Lemma IO_BITFIELD_WRAPPER_Set_keeps_other_fields_witness :
  field_fits 16 0 7 = true /\
  field_fits 16 7 1 = true /\
  IO_BITFIELD_WRAPPER.Get 8 16 7 1 (IO_BITFIELD_WRAPPER.Set_ 8 16 0 7 5 0x80) = 1.
Proof.
  split; [reflexivity | split; [reflexivity |]].
  assert (Hd : 0 + 7 <= 7 \/ 7 + 1 <= 0) by lia.
  exact (proj2 (IO_BITFIELD_WRAPPER_Set_keeps_other_fields
                  8 8 16 0 7 7 1 5 0x80 eq_refl eq_refl Hd)).
Defined.

(** A 12-bit field of a 16-bit register behind a 16-bit value type. *)
Lemma IO_BITFIELD_WRAPPER_Set_of_Get_and_Set_twice_witness :
  field_fits 16 2 12 = true /\
  in_DataT 16 0xBEEF /\
  12 <= Z.of_nat 16 /\
  IO_BITFIELD_WRAPPER.Set_ 16 16 2 12
    (IO_BITFIELD_WRAPPER.Get 16 16 2 12 0xBEEF) 0xBEEF = 0xBEEF.
Proof.
  assert (Hr : in_DataT 16 0xBEEF) by (unfold in_DataT; simpl; lia).
  assert (Hwd : 12 <= Z.of_nat 16) by (simpl; lia).
  split; [reflexivity | split; [exact Hr | split; [exact Hwd |]]].
  exact (proj1 (IO_BITFIELD_WRAPPER_Set_of_Get_and_Set_twice
                  16 16 2 12 0 0 0xBEEF eq_refl Hr) Hwd).
Defined.

(** A byte-valued wrapper over a 4-bit field at bit 4 of a 16-bit register. *)
Lemma IO_BITFIELD_WRAPPER_round_trip_witness :
  field_fits 16 4 4 = true /\
  in_DataT 8 0x2B /\
  IO_BITFIELD_WRAPPER.Get 8 16 4 4 (IO_BITFIELD_WRAPPER.Set_ 8 16 4 4 0x2B 0xFFFF) = 0xB.
Proof.
  assert (Hv : in_DataT 8 0x2B) by (unfold in_DataT; simpl; lia).
  split; [reflexivity | split; [exact Hv |]].
  exact (proj2 (proj2 (IO_BITFIELD_WRAPPER_round_trip 8 16 4 4 0x2B 0xFFFF eq_refl Hv))).
Defined.

(** Bit 31 of a 64-bit register that holds only bit 40: [IsBitSet<31>]
    holds although the bit is clear. *)
Lemma IO_REG_WRAPPER_IsBitSet_is_the_bit_witness :
  0 <= 31 /\
  in_DataT 64 (2 ^ 40) /\
  Z.testbit (2 ^ 40) 31 = false /\
  IO_REG_WRAPPER.IsBitSet 31 (2 ^ 40) = Some true.
Proof.
  assert (HB : 0 <= 31) by lia.
  assert (Hr : in_DataT 64 (2 ^ 40)) by (unfold in_DataT; simpl; lia).
  split; [exact HB | split; [exact Hr | split; [reflexivity |]]].
  exact (proj2 (proj2 (proj2 (IO_REG_WRAPPER_IsBitSet_is_the_bit
                                64 64 31 (2 ^ 40) HB Hr))) eq_refl).
Defined.
